(** * CSSInlineEditor: the HTML-to-CSS quick-edit provider of Brackets

    A shallow embedding of [src/editor/CSSInlineEditor.js]:
    - [JSString]: the string built-ins the selector resolver calls;
    - [_getSelectorName]: position context to CSS selector;
    - the provider [htmlToCSSProvider], its closures ([Session]) and the
      callbacks the browser and the asynchronous collaborators drive,
      as a state-passing step function over a [World]. *)

From Stdlib Require Import ZArith Lia Ascii String.
From stdpp Require Import base option list strings relations.

Open Scope Z_scope.

(** ** JavaScript string built-ins

    Strings are sequences of code units; indices and counts are JavaScript
    numbers, here integers.  Each built-in clamps its numeric arguments the
    way ECMAScript prescribes. *)
Module JSString.

Definition len (s : string) : Z := Z.of_nat (String.length s).

Fixpoint take (n : nat) (s : string) : string :=
  match n, s with
  | S n', String c s' => String c (take n' s')
  | _, _ => EmptyString
  end.

Fixpoint drop (n : nat) (s : string) : string :=
  match n, s with
  | S n', String _ s' => drop n' s'
  | _, _ => s
  end.

(** [min(max(x, 0), len)] *)
Definition clamp (s : string) (x : Z) : Z := Z.min (Z.max x 0) (len s).

(** [s.substring(start, end)]: both ends clamped, swapped when out of order. *)
Definition substring (s : string) (start_ end_ : Z) : string :=
  let a := clamp s start_ in
  let b := clamp s end_ in
  let from := Z.min a b in
  let to := Z.max a b in
  take (Z.to_nat (to - from)) (drop (Z.to_nat from) s).

(** [s.substr(start, length)]: a negative start counts from the end. *)
Definition substr (s : string) (start_ length_ : Z) : string :=
  let a := if start_ <? 0 then Z.max (len s + start_) 0 else Z.min start_ (len s) in
  let n := clamp s length_ in
  let b := Z.min (a + n) (len s) in
  take (Z.to_nat (b - a)) (drop (Z.to_nat a) s).

(** First index [>= i] (counting the head of [s] as [i]) at which [pat]
    occurs, [-1] when there is none. *)
Fixpoint find_from (pat s : string) (i : Z) : Z :=
  if String.prefix pat s then i
  else match s with
       | EmptyString => -1
       | String _ s' => find_from pat s' (i + 1)
       end.

(** [s.indexOf(pat, position)] *)
Definition indexOf (s pat : string) (position : Z) : Z :=
  let k := clamp s position in
  find_from pat (drop (Z.to_nat k) s) k.

(** Last index at which [pat] occurs; [acc] is the last one seen so far. *)
Fixpoint find_last (pat s : string) (i acc : Z) : Z :=
  let acc' := if String.prefix pat s then i else acc in
  match s with
  | EmptyString => acc'
  | String _ s' => find_last pat s' (i + 1) acc'
  end.

(** [s.lastIndexOf(pat)] *)
Definition lastIndexOf (s pat : string) : Z := find_last pat s 0 (-1).

(** No code unit of [s] is [c]. *)
Fixpoint lacks (c : ascii) (s : string) : bool :=
  match s with
  | EmptyString => true
  | String d s' => negb (Ascii.eqb d c) && lacks c s'
  end.

End JSString.

(** ** Position context (the result of [HTMLUtils.getTagInfo]) *)

(** The token kinds [HTMLUtils] exports; [OTHER] stands for every kind the
    resolver does not name. *)
Inductive TokenType := TAG_NAME | CLOSING_TAG | ATTR_NAME | ATTR_VALUE | OTHER.

Record Attr := { name : string; value : string }.
Record Position := { tokenType : TokenType; offset : Z }.
Record TagInfo := { tagName : string; attr : Attr; position : Position }.

Definition is_attr_token (t : TokenType) : bool :=
  match t with ATTR_NAME | ATTR_VALUE => true | _ => false end.

Definition is_tag_token (t : TokenType) : bool :=
  match t with TAG_NAME | CLOSING_TAG => true | _ => false end.

(** ** Host editor, documents and the collaborators' data *)

Record Pos := { line : Z; ch : Z }.
Record Selection := { start : Pos; end_ : Pos }.

(** A document as a collaborator hands it over: its path and its text at
    that moment. *)
Record Document := { file : string; text : string }.

(** What the provider reads from the host editor when it is called:
    [getLanguageForSelection().getId()], [getSelection()], the tag info
    [HTMLUtils.getTagInfo] finds at each position, and [document]. *)
Record HostEditor := {
  languageId : string;
  getSelection : Selection;
  getTagInfo : Pos -> TagInfo;
  document : Document
}.

(** An entry of [FileIndexManager.getFileInfoList]. *)
Record FileInfo := { fullPath : string; displayName : string }.

(** A rule found by [CSSUtils.findMatchingRules]. *)
Record Rule := {
  rule_selector : string;
  rule_document : Document;
  rule_lineStart : Z;
  rule_lineEnd : Z
}.

(** A range shown by the multi-range widget. *)
Record Range := {
  range_name : string;
  range_document : Document;
  range_lineStart : Z;
  range_lineEnd : Z
}.

Record TextRange := { from : Pos; to : Pos }.

(** The result of [CSSUtils.addRuleToDocument]. *)
Record NewRuleInfo := { range : TextRange; pos : Pos }.

(** The synchronous collaborators: [CSSUtils.consolidateRules],
    [CSSUtils.addRuleToDocument], [Editor.getUseTabChar] and
    [Editor.getSpaceUnits]. *)
Class Collaborators := {
  consolidateRules : list Rule -> list Range;
  addRuleToDocument : Document -> string -> bool -> Z -> NewRuleInfo;
  getUseTabChar : bool;
  getSpaceUnits : Z
}.

(** ** [_getSelectorName] *)

Definition _getSelectorName (editor : HostEditor) (p : Pos) : string :=
  let tagInfo := getTagInfo editor p in
  if is_tag_token (tokenType (position tagInfo)) then
    (* Type selector *)
    tagName tagInfo
  else if is_attr_token (tokenType (position tagInfo)) then
    if String.eqb (name (attr tagInfo)) "class" then
      (* Class selector: the class name that includes the insertion point *)
      let attributeValue := value (attr tagInfo) in
      let startIndex :=
        JSString.lastIndexOf
          (JSString.substr attributeValue 0 (offset (position tagInfo))) " " in
      let endIndex :=
        JSString.indexOf attributeValue " " (offset (position tagInfo)) in
      let selectorName :=
        "." +:+ JSString.substring attributeValue
                  (if startIndex =? -1 then 0 else startIndex + 1)
                  (if endIndex =? -1 then JSString.len attributeValue
                   else endIndex) in
      if String.eqb selectorName "." then "" else selectorName
    else if String.eqb (name (attr tagInfo)) "id" then
      (* ID selector *)
      "#" +:+ value (attr tagInfo)
    else ""
  else "".

(** ** The multi-range inline editor *)

(** Modelled from the spec: [MultiRangeInlineEditor] is not part of this
    file.  The widget shows a list of ranges, one of them selected, and has
    an editor of its own with a caret; [w_focusListeners] are the sessions
    whose [_updateCommands] listens to focusin and focusout on its
    content. *)
Record Widget := {
  w_ranges : list Range;
  w_selected : option nat;
  w_cursor : option Pos;
  w_host : option HostEditor;
  w_focusListeners : list nat
}.

(** Modelled from the spec: [new MultiRangeInlineEditor(ranges, ...)]. *)
Definition new_MultiRangeInlineEditor (ranges : list Range) : Widget :=
  {| w_ranges := ranges; w_selected := None; w_cursor := None;
     w_host := None; w_focusListeners := [] |}.

(** Modelled from the spec: [widget.load(hostEditor)]. *)
Definition load (host : HostEditor) (wd : Widget) : Widget :=
  {| w_ranges := w_ranges wd; w_selected := w_selected wd;
     w_cursor := w_cursor wd; w_host := Some host;
     w_focusListeners := w_focusListeners wd |}.

(** [$htmlContent.on("focusin", f).on("focusout", f)] with [f] the
    [_updateCommands] of session [sid]. *)
Definition on_focus (sid : nat) (wd : Widget) : Widget :=
  {| w_ranges := w_ranges wd; w_selected := w_selected wd;
     w_cursor := w_cursor wd; w_host := w_host wd;
     w_focusListeners := w_focusListeners wd ++ [sid] |}.

(** Modelled from the spec: [addAndSelectRange(label, doc, fromLine, toLine)]
    adds the range to the multi-range display and selects it. *)
Definition addAndSelectRange (label : string) (doc : Document)
    (fromLine toLine : Z) (wd : Widget) : Widget :=
  {| w_ranges := w_ranges wd ++
       [{| range_name := label; range_document := doc;
           range_lineStart := fromLine; range_lineEnd := toLine |}];
     w_selected := Some (length (w_ranges wd));
     w_cursor := w_cursor wd; w_host := w_host wd;
     w_focusListeners := w_focusListeners wd |}.

(** Modelled from the spec: [widget.editor.setCursorPos(line, col)] moves
    the caret of the widget's own editor. *)
Definition setCursorPos (l c : Z) (wd : Widget) : Widget :=
  {| w_ranges := w_ranges wd; w_selected := w_selected wd;
     w_cursor := Some {| line := l; ch := c |}; w_host := w_host wd;
     w_focusListeners := w_focusListeners wd |}.

(** ** The new-rule button: a jQuery element and its class list *)

Record Button := { classes : list string }.

Definition hasClass (c : string) (b : Button) : bool :=
  existsb (String.eqb c) (classes b).

Definition addClass (c : string) (b : Button) : Button :=
  if hasClass c b then b else {| classes := classes b ++ [c] |}.

Definition removeClass (c : string) (b : Button) : Button :=
  {| classes := List.filter (fun d => negb (String.eqb c d)) (classes b) |}.

(** [$("<button class='stylesheet-button btn btn-mini disabled'/>")] *)
Definition new_button : Button :=
  {| classes := ["stylesheet-button"; "btn"; "btn-mini"; "disabled"] |}.

(** ** Promises and the closure of one provider call *)

Inductive Deferred (A : Type) :=
| Pending
| Resolved (a : A)
| Rejected.
Arguments Pending {A}.
Arguments Resolved {A} a.
Arguments Rejected {A}.

(** A promise returned by an asynchronous collaborator settles once. *)
Inductive AsyncState := InFlight | Settled.

(** [_renderList(cssFileInfos)]: the menu lists the stylesheets it is
    given, one item each. *)
Record Dropdown := { items : list FileInfo }.

Definition _renderList (cssFileInfos : list FileInfo) : Dropdown :=
  {| items := cssFileInfos |}.

(** The variables one call of [htmlToCSSProvider] closes over, with the
    promises it waits for: [lookup] is the one [findMatchingRules] returned,
    [fileList] the one [getFileInfoList] returned ([None] before that call).
    [rules] is the argument of the lookup's done callback, which the file
    list's callback reads. *)
Record Session := {
  hostEditor : HostEditor;
  selectorName : string;
  result : Deferred nat;
  cssInlineEditor : option nat;
  cssFileInfos : list FileInfo;
  newRuleButton : option Button;
  dropdown : option Dropdown;
  dropdownEventHandler : option Dropdown;
  rules : list Rule;
  lookup : AsyncState;
  fileList : option AsyncState
}.

(** An entry of [_newRuleHandlers]: the widget and the session whose
    [_handleNewRuleClick] is the handler. *)
Record HandlerEntry := { inlineEditor : nat; handler : nat }.

(** A call of [DocumentManager.getDocumentForPath] made by [_addRule], with
    the arguments its done callback closes over. *)
Record DocumentRequest := {
  dr_selectorName : string;
  dr_inlineEditor : option nat;
  dr_path : string;
  dr_state : AsyncState
}.

(** What the module does to its surroundings besides its own state. *)
Inductive Effect :=
| ConsoleLog (msg : string)
| MenusCloseAll
| MustacheRender (styleSheetList : list FileInfo)
| AddRuleToDocument (doc : Document) (selector : string).

(** The module-level variables, the objects they refer to and the page:
    [sessions] are the closures made so far, [widgets] every multi-range
    inline editor that exists (a widget is known by its index), [focus]
    is what [getFocusedMultiRangeInlineEditor] returns, [htmlClick] the
    sessions whose [_closeDropdown] listens to clicks on the page. *)
Record World := {
  sessions : list Session;
  widgets : list Widget;
  _newRuleHandlers : list HandlerEntry;
  _newRuleCmd : bool;
  focus : option nat;
  documentRequests : list DocumentRequest;
  htmlClick : list nat;
  effects : list Effect
}.

Definition initial : World :=
  {| sessions := []; widgets := []; _newRuleHandlers := [];
     _newRuleCmd := false; focus := None; documentRequests := [];
     htmlClick := []; effects := [] |}.

(** ** Field updates *)

Definition set_result (x : Deferred nat) (s : Session) : Session :=
  {| hostEditor := hostEditor s; selectorName := selectorName s; result := x;
     cssInlineEditor := cssInlineEditor s; cssFileInfos := cssFileInfos s;
     newRuleButton := newRuleButton s; dropdown := dropdown s;
     dropdownEventHandler := dropdownEventHandler s; rules := rules s;
     lookup := lookup s; fileList := fileList s |}.

Definition set_cssInlineEditor (x : option nat) (s : Session) : Session :=
  {| hostEditor := hostEditor s; selectorName := selectorName s;
     result := result s; cssInlineEditor := x; cssFileInfos := cssFileInfos s;
     newRuleButton := newRuleButton s; dropdown := dropdown s;
     dropdownEventHandler := dropdownEventHandler s; rules := rules s;
     lookup := lookup s; fileList := fileList s |}.

Definition set_cssFileInfos (x : list FileInfo) (s : Session) : Session :=
  {| hostEditor := hostEditor s; selectorName := selectorName s;
     result := result s; cssInlineEditor := cssInlineEditor s;
     cssFileInfos := x; newRuleButton := newRuleButton s;
     dropdown := dropdown s; dropdownEventHandler := dropdownEventHandler s;
     rules := rules s; lookup := lookup s; fileList := fileList s |}.

Definition set_newRuleButton (x : option Button) (s : Session) : Session :=
  {| hostEditor := hostEditor s; selectorName := selectorName s;
     result := result s; cssInlineEditor := cssInlineEditor s;
     cssFileInfos := cssFileInfos s; newRuleButton := x;
     dropdown := dropdown s; dropdownEventHandler := dropdownEventHandler s;
     rules := rules s; lookup := lookup s; fileList := fileList s |}.

Definition set_dropdown (x : option Dropdown) (s : Session) : Session :=
  {| hostEditor := hostEditor s; selectorName := selectorName s;
     result := result s; cssInlineEditor := cssInlineEditor s;
     cssFileInfos := cssFileInfos s; newRuleButton := newRuleButton s;
     dropdown := x; dropdownEventHandler := dropdownEventHandler s;
     rules := rules s; lookup := lookup s; fileList := fileList s |}.

Definition set_dropdownEventHandler (x : option Dropdown) (s : Session)
    : Session :=
  {| hostEditor := hostEditor s; selectorName := selectorName s;
     result := result s; cssInlineEditor := cssInlineEditor s;
     cssFileInfos := cssFileInfos s; newRuleButton := newRuleButton s;
     dropdown := dropdown s; dropdownEventHandler := x; rules := rules s;
     lookup := lookup s; fileList := fileList s |}.

Definition set_rules (x : list Rule) (s : Session) : Session :=
  {| hostEditor := hostEditor s; selectorName := selectorName s;
     result := result s; cssInlineEditor := cssInlineEditor s;
     cssFileInfos := cssFileInfos s; newRuleButton := newRuleButton s;
     dropdown := dropdown s; dropdownEventHandler := dropdownEventHandler s;
     rules := x; lookup := lookup s; fileList := fileList s |}.

Definition set_lookup (x : AsyncState) (s : Session) : Session :=
  {| hostEditor := hostEditor s; selectorName := selectorName s;
     result := result s; cssInlineEditor := cssInlineEditor s;
     cssFileInfos := cssFileInfos s; newRuleButton := newRuleButton s;
     dropdown := dropdown s; dropdownEventHandler := dropdownEventHandler s;
     rules := rules s; lookup := x; fileList := fileList s |}.

Definition set_fileList (x : option AsyncState) (s : Session) : Session :=
  {| hostEditor := hostEditor s; selectorName := selectorName s;
     result := result s; cssInlineEditor := cssInlineEditor s;
     cssFileInfos := cssFileInfos s; newRuleButton := newRuleButton s;
     dropdown := dropdown s; dropdownEventHandler := dropdownEventHandler s;
     rules := rules s; lookup := lookup s; fileList := x |}.

Definition set_dr_state (x : AsyncState) (r : DocumentRequest)
    : DocumentRequest :=
  {| dr_selectorName := dr_selectorName r;
     dr_inlineEditor := dr_inlineEditor r; dr_path := dr_path r;
     dr_state := x |}.

Definition set_sessions (x : list Session) (w : World) : World :=
  {| sessions := x; widgets := widgets w;
     _newRuleHandlers := _newRuleHandlers w; _newRuleCmd := _newRuleCmd w;
     focus := focus w; documentRequests := documentRequests w;
     htmlClick := htmlClick w; effects := effects w |}.

Definition set_widgets (x : list Widget) (w : World) : World :=
  {| sessions := sessions w; widgets := x;
     _newRuleHandlers := _newRuleHandlers w; _newRuleCmd := _newRuleCmd w;
     focus := focus w; documentRequests := documentRequests w;
     htmlClick := htmlClick w; effects := effects w |}.

Definition set_newRuleHandlers (x : list HandlerEntry) (w : World) : World :=
  {| sessions := sessions w; widgets := widgets w; _newRuleHandlers := x;
     _newRuleCmd := _newRuleCmd w; focus := focus w;
     documentRequests := documentRequests w; htmlClick := htmlClick w;
     effects := effects w |}.

(** [_newRuleCmd.setEnabled(x)] *)
Definition setEnabled (x : bool) (w : World) : World :=
  {| sessions := sessions w; widgets := widgets w;
     _newRuleHandlers := _newRuleHandlers w; _newRuleCmd := x;
     focus := focus w; documentRequests := documentRequests w;
     htmlClick := htmlClick w; effects := effects w |}.

Definition set_focus (x : option nat) (w : World) : World :=
  {| sessions := sessions w; widgets := widgets w;
     _newRuleHandlers := _newRuleHandlers w; _newRuleCmd := _newRuleCmd w;
     focus := x; documentRequests := documentRequests w;
     htmlClick := htmlClick w; effects := effects w |}.

Definition set_documentRequests (x : list DocumentRequest) (w : World)
    : World :=
  {| sessions := sessions w; widgets := widgets w;
     _newRuleHandlers := _newRuleHandlers w; _newRuleCmd := _newRuleCmd w;
     focus := focus w; documentRequests := x; htmlClick := htmlClick w;
     effects := effects w |}.

Definition set_htmlClick (x : list nat) (w : World) : World :=
  {| sessions := sessions w; widgets := widgets w;
     _newRuleHandlers := _newRuleHandlers w; _newRuleCmd := _newRuleCmd w;
     focus := focus w; documentRequests := documentRequests w;
     htmlClick := x; effects := effects w |}.

Definition set_effects (x : list Effect) (w : World) : World :=
  {| sessions := sessions w; widgets := widgets w;
     _newRuleHandlers := _newRuleHandlers w; _newRuleCmd := _newRuleCmd w;
     focus := focus w; documentRequests := documentRequests w;
     htmlClick := htmlClick w; effects := x |}.

Definition update_session (sid : nat) (f : Session -> Session) (w : World)
    : World :=
  set_sessions (alter f sid (sessions w)) w.

Definition update_widget (wid : nat) (f : Widget -> Widget) (w : World)
    : World :=
  set_widgets (alter f wid (widgets w)) w.

Definition perform (e : Effect) (w : World) : World :=
  set_effects (effects w ++ [e]) w.

(** ** The module's functions *)

Section Coordinator.
Context `{Ext : Collaborators}.

(** [cssInlineEditor.hasFocus()] *)
Definition hasFocus (wid : nat) (w : World) : bool :=
  bool_decide (focus w = Some wid).

(** [MultiRangeInlineEditor.getFocusedMultiRangeInlineEditor()] *)
Definition getFocusedMultiRangeInlineEditor (w : World) : option nat :=
  focus w.

(** Update the enablement of the command. *)
Definition _updateCommands (sid : nat) (w : World) : World :=
  match sessions w !! sid with
  | Some s =>
      match cssInlineEditor s, newRuleButton s with
      | Some wid, Some b =>
          setEnabled (hasFocus wid w && negb (hasClass "disabled" b)) w
      | _, _ => w
      end
  | None => w
  end.

Definition focus_listeners (target : option nat) (w : World) : list nat :=
  match target with
  | Some wid =>
      match widgets w !! wid with
      | Some wd => w_focusListeners wd
      | None => []
      end
  | None => []
  end.

(** The focus moves to [target] (a widget, or [None] for anything
    outside the widgets): focusout reaches the listeners of the widget
    left, focusin those of the widget entered. *)
Definition move_focus (target : option nat) (w : World) : World :=
  if decide (focus w = target) then w
  else
    let w1 := set_focus target w in
    let w2 := foldl (fun acc sid => _updateCommands sid acc) w1
                (focus_listeners (focus w) w1) in
    foldl (fun acc sid => _updateCommands sid acc) w2
      (focus_listeners target w2).

(** [_addRule]: ask for the document; the rest runs when it arrives. *)
Definition _addRule (selector : string) (editor : option nat)
    (path : string) (w : World) : World :=
  set_documentRequests
    (documentRequests w ++
       [{| dr_selectorName := selector; dr_inlineEditor := editor;
           dr_path := path; dr_state := InFlight |}]) w.

(** The done callback of [_addRule]. *)
Definition _addRule_done (r : DocumentRequest) (styleDoc : Document)
    (w : World) : World :=
  let newRuleInfo :=
    addRuleToDocument styleDoc (dr_selectorName r)
      getUseTabChar getSpaceUnits in
  let w1 := perform (AddRuleToDocument styleDoc (dr_selectorName r)) w in
  match dr_inlineEditor r with
  | Some wid =>
      let w2 :=
        update_widget wid
          (addAndSelectRange (dr_selectorName r) styleDoc
             (line (from (range newRuleInfo)))
             (line (to (range newRuleInfo)))) w1 in
      update_widget wid
        (setCursorPos (line (pos newRuleInfo)) (ch (pos newRuleInfo))) w2
  | None => w1
  end.

(** [_cleanupDropdown], the callback the pop-up manager runs when the
    dropdown is closed. *)
Definition _cleanupDropdown (sid : nat) (w : World) : World :=
  let w1 :=
    set_htmlClick
      (List.filter (fun k => negb (Nat.eqb k sid)) (htmlClick w)) w in
  let w2 := update_session sid (set_dropdownEventHandler None) w1 in
  let w3 := update_session sid (set_dropdown None) w2 in
  (* EditorManager.focusEditor() *)
  move_focus None w3.

(** [_closeDropdown]; closing the handler runs [_cleanupDropdown]. *)
Definition _closeDropdown (sid : nat) (w : World) : World :=
  match sessions w !! sid with
  | Some s =>
      match dropdownEventHandler s with
      | Some _ => _cleanupDropdown sid w
      | None => w
      end
  | None => w
  end.

(** [_onSelect]; [path] is [$link.data("path")]. *)
Definition _onSelect (sid : nat) (path : option string) (w : World)
    : World :=
  match sessions w !! sid, path with
  | Some s, Some p =>
      if String.eqb p "" then w
      else _addRule (selectorName s) (cssInlineEditor s) p w
  | _, _ => w
  end.

(** [_showDropdown] *)
Definition _showDropdown (sid : nat) (w : World) : World :=
  match sessions w !! sid with
  | Some s =>
      let w1 := perform MenusCloseAll w in
      let w2 := perform (MustacheRender (cssFileInfos s)) w1 in
      let menu := _renderList (cssFileInfos s) in
      let w3 := update_session sid (set_dropdown (Some menu)) w2 in
      let w4 := set_htmlClick (htmlClick w3 ++ [sid]) w3 in
      let w5 :=
        update_session sid (set_dropdownEventHandler (Some menu)) w4 in
      (* $dropdown.focus(): the menu hangs from the body *)
      move_focus None w5
  | None => w
  end.

(** [_handleNewRuleClick]; [e] tells whether a click event was passed.
    The second component tells whether the event's propagation was
    stopped. *)
Definition _handleNewRuleClick (sid : nat) (e : bool) (w : World)
    : World * bool :=
  match sessions w !! sid with
  | Some s =>
      match newRuleButton s with
      | Some b =>
          let w' :=
            if negb (hasClass "disabled" b) then
              if (length (cssFileInfos s) =? 1)%nat then
                match cssFileInfos s !! 0%nat with
                | Some fi =>
                    _addRule (selectorName s) (cssInlineEditor s)
                      (fullPath fi) w
                | None => w
                end
              else
                match dropdown s with
                | Some _ => _closeDropdown sid w
                | None => _showDropdown sid w
                end
            else w in
          (w', e)
      | None => (w, false)
      end
  | None => (w, false)
  end.

(** [_handleNewRule], the command: dispatch to the handler of the
    focused inline editor. *)
Definition _handleNewRule (w : World) : World :=
  match getFocusedMultiRangeInlineEditor w with
  | Some focused =>
      match
        List.find (fun entry => Nat.eqb (inlineEditor entry) focused)
          (_newRuleHandlers w)
      with
      | Some handlerInfo =>
          fst (_handleNewRuleClick (handler handlerInfo) false w)
      | None => w
      end
  | None => w
  end.

(** The variables of a call that goes on to look the rules up:
    [result = new $.Deferred()], [cssFileInfos = []], the others not yet
    defined, and the promise of [findMatchingRules] outstanding. *)
Definition new_session (host : HostEditor) (selector : string) : Session :=
  {| hostEditor := host; selectorName := selector; result := Pending;
     cssInlineEditor := None; cssFileInfos := []; newRuleButton := None;
     dropdown := None; dropdownEventHandler := None; rules := [];
     lookup := InFlight; fileList := None |}.

(** [htmlToCSSProvider]: [None] is the [null] it returns when it
    declines, [Some sid] the promise of the session it starts. *)
Definition htmlToCSSProvider (host : HostEditor) (p : Pos) (w : World)
    : option nat * World :=
  if negb (String.eqb (languageId host) "html") then (None, w)
  else
    let sel := getSelection host in
    if negb (line (start sel) =? line (end_ sel)) then (None, w)
    else
      let selector := _getSelectorName host (start sel) in
      if String.eqb selector "" then (None, w)
      else
        let sid := length (sessions w) in
        (Some sid,
         set_sessions (sessions w ++ [new_session host selector]) w).

(** The done callback of [findMatchingRules]. *)
Definition rules_done (sid : nat) (found : list Rule) (w : World)
    : World :=
  match sessions w !! sid with
  | Some s =>
      let wid := length (widgets w) in
      let widget :=
        on_focus sid
          (load (hostEditor s)
             (new_MultiRangeInlineEditor (consolidateRules found))) in
      let w1 := set_widgets (widgets w ++ [widget]) w in
      let w2 :=
        update_session sid
          (fun s =>
             set_fileList (Some InFlight)
               (set_result (Resolved wid)
                  (set_newRuleButton (Some new_button)
                     (set_cssInlineEditor (Some wid)
                        (set_rules found s))))) w1 in
      set_newRuleHandlers
        (_newRuleHandlers w2 ++ [{| inlineEditor := wid; handler := sid |}])
        w2
  | None => w
  end.

(** The fail callback of [findMatchingRules]. *)
Definition rules_fail (sid : nat) (w : World) : World :=
  let w1 := perform (ConsoleLog "Error in findMatchingRules()") w in
  update_session sid (set_result Rejected) w1.

(** The done callback of [getFileInfoList]. *)
Definition fileInfos_done (sid : nat) (fileInfos : list FileInfo)
    (w : World) : World :=
  let w1 := update_session sid (set_cssFileInfos fileInfos) w in
  match sessions w1 !! sid with
  | Some s =>
      let w2 :=
        if (0 <? length (cssFileInfos s))%nat then
          let w' :=
            update_session sid
              (fun s =>
                 set_newRuleButton
                   (removeClass "disabled" <$> newRuleButton s) s) w1 in
          match rules s with
          | [] => move_focus (cssInlineEditor s) w'
          | _ => w'
          end
        else w1 in
      let w3 :=
        if (1 <? length (cssFileInfos s))%nat then
          update_session sid
            (fun s =>
               set_newRuleButton
                 (addClass "btn-dropdown" <$> newRuleButton s) s) w2
        else w2 in
      _updateCommands sid w3
  | None => w1
  end.

(** ** What happens to the module *)

Inductive Event :=
| Provide (host : HostEditor) (p : Pos)
| RulesFound (sid : nat) (found : list Rule)
| RulesFailed (sid : nat)
| FileInfosArrived (sid : nat) (fileInfos : list FileInfo)
| ButtonClick (sid : nat)
| NewRuleCommand
| DocumentLoaded (k : nat) (styleDoc : Document)
| DocumentFailed (k : nat)
| DropdownSelect (sid : nat) (path : option string)
| DropdownDismissed (sid : nat)
| OutsideClick
| FocusMoved (target : option nat)
| OtherEditorCreated (ranges : list Range).

Definition settle_lookup (sid : nat) (w : World) : World :=
  update_session sid (set_lookup Settled) w.

Definition settle_fileList (sid : nat) (w : World) : World :=
  update_session sid (set_fileList (Some Settled)) w.

Definition settle_document (k : nat) (w : World) : World :=
  set_documentRequests
    (alter (set_dr_state Settled) k (documentRequests w)) w.

Definition step (w : World) (ev : Event) : World :=
  match ev with
  | Provide host p => snd (htmlToCSSProvider host p w)
  | RulesFound sid found =>
      match lookup <$> sessions w !! sid with
      | Some InFlight => rules_done sid found (settle_lookup sid w)
      | _ => w
      end
  | RulesFailed sid =>
      match lookup <$> sessions w !! sid with
      | Some InFlight => rules_fail sid (settle_lookup sid w)
      | _ => w
      end
  | FileInfosArrived sid fileInfos =>
      match sessions w !! sid ≫= fileList with
      | Some InFlight => fileInfos_done sid fileInfos (settle_fileList sid w)
      | _ => w
      end
  | ButtonClick sid =>
      (* the handler stops the propagation: no listener of the page runs *)
      fst (_handleNewRuleClick sid true w)
  | NewRuleCommand => _handleNewRule w
  | DocumentLoaded k styleDoc =>
      match documentRequests w !! k with
      | Some r =>
          match dr_state r with
          | InFlight => _addRule_done r styleDoc (settle_document k w)
          | Settled => w
          end
      | None => w
      end
  | DocumentFailed k =>
      (* no fail callback is attached *)
      match documentRequests w !! k with
      | Some r =>
          match dr_state r with
          | InFlight => settle_document k w
          | Settled => w
          end
      | None => w
      end
  | DropdownSelect sid path =>
      match sessions w !! sid ≫= dropdownEventHandler with
      | Some _ => _cleanupDropdown sid (_onSelect sid path w)
      | None => w
      end
  | DropdownDismissed sid =>
      match sessions w !! sid ≫= dropdownEventHandler with
      | Some _ => _cleanupDropdown sid w
      | None => w
      end
  | OutsideClick =>
      foldl (fun acc sid => _closeDropdown sid acc) w (htmlClick w)
  | FocusMoved target =>
      match target with
      | Some wid =>
          if bool_decide (wid < length (widgets w))%nat
          then move_focus target w else w
      | None => move_focus None w
      end
  | OtherEditorCreated ranges =>
      set_widgets (widgets w ++ [new_MultiRangeInlineEditor ranges]) w
  end.

Definition run (w : World) (evs : list Event) : World := foldl step w evs.

End Coordinator.

(** ** Concrete inputs *)

Module Demo.

Definition index_html : Document :=
  {| file := "/site/index.html"; text := "<div class='modal' id='main-panel'>" |}.

(** An editor whose cursor context is [tagInfo] wherever one asks. *)
Definition editor_at (language : string) (sel : Selection)
    (tagInfo : TagInfo) : HostEditor :=
  {| languageId := language; getSelection := sel;
     getTagInfo := fun _ => tagInfo; document := index_html |}.

Definition caret (l c : Z) : Selection :=
  {| start := {| line := l; ch := c |}; end_ := {| line := l; ch := c |} |}.

Definition in_attribute (attrName attrValue : string) (off : Z) : TagInfo :=
  {| tagName := "div";
     attr := {| name := attrName; value := attrValue |};
     position := {| tokenType := ATTR_VALUE; offset := off |} |}.

Definition html_editor (tagInfo : TagInfo) : HostEditor :=
  editor_at "html" (caret 0 12) tagInfo.

Definition origin : Pos := {| line := 0; ch := 0 |}.

(** Two class names separated by a space, the first holding a tab. *)
Definition tabbed : string := String "a" (String "009" "b c").

Definition modal_host : HostEditor :=
  html_editor (in_attribute "class" "error-dialog modal hide" 15).

(** A selection from line 3 to line 4 inside a class attribute. *)
Definition two_line_host : HostEditor :=
  editor_at "html"
    {| start := {| line := 3; ch := 5 |}; end_ := {| line := 4; ch := 2 |} |}
    (in_attribute "class" "modal" 2).

Definition main_css : FileInfo :=
  {| fullPath := "/site/css/main.css"; displayName := "main.css" |}.

Definition print_css : FileInfo :=
  {| fullPath := "/site/css/print.css"; displayName := "print.css" |}.

Definition main_css_doc : Document :=
  {| file := "/site/css/main.css"; text := "body { margin: 0; }" |}.

(** Collaborators that answer: every rule is a range of its own, and a
    new rule goes to the end of the document. *)
Definition collaborators : Collaborators :=
  {| consolidateRules :=
       map (fun r =>
              {| range_name := rule_selector r;
                 range_document := rule_document r;
                 range_lineStart := rule_lineStart r;
                 range_lineEnd := rule_lineEnd r |});
     addRuleToDocument := fun doc selector useTab units =>
       let last := JSString.len (text doc) in
       {| range := {| from := {| line := last; ch := 0 |};
                      to := {| line := last + 2; ch := 1 |} |};
          pos := {| line := last + 1; ch := if useTab then 1 else units |} |};
     getUseTabChar := false;
     getSpaceUnits := 4 |}.

(** The provider is called on ".modal", no rule matches, the widget is
    built and the list of stylesheets is awaited. *)
Definition opened : list Event :=
  [Provide modal_host origin; RulesFound 0%nat []].

Definition with_one_stylesheet : list Event :=
  opened ++ [FileInfosArrived 0%nat [main_css]].

Definition with_two_stylesheets : list Event :=
  opened ++ [FileInfosArrived 0%nat [main_css; print_css]].

(** The first session and its button after the events [evs]. *)
Definition session_after (evs : list Event) : Session :=
  default (new_session modal_host "")
    (sessions (run (Ext := collaborators) initial evs) !! 0%nat).

Definition button_after (evs : list Event) : Button :=
  default new_button (newRuleButton (session_after evs)).

End Demo.

(** ** The state machine seen one change at a time

    Every callback is a sequence of the changes below; the invariants of
    the reachable worlds are proved on them. *)

(** What the done callback of [findMatchingRules] does to its session. *)
Definition built (wid : nat) (found : list Rule) (s : Session) : Session :=
  set_fileList (Some InFlight)
    (set_result (Resolved wid)
       (set_newRuleButton (Some new_button)
          (set_cssInlineEditor (Some wid)
             (set_rules found (set_lookup Settled s))))).

(** What its fail callback does to its session. *)
Definition failed (s : Session) : Session :=
  set_result Rejected (set_lookup Settled s).

(** What the done callback of [getFileInfoList] does to its session. *)
Definition listed (fileInfos : list FileInfo) (s : Session) : Session :=
  let s1 := set_cssFileInfos fileInfos (set_fileList (Some Settled) s) in
  let s2 :=
    if (0 <? length fileInfos)%nat
    then set_newRuleButton (removeClass "disabled" <$> newRuleButton s1) s1
    else s1 in
  if (1 <? length fileInfos)%nat
  then set_newRuleButton (addClass "btn-dropdown" <$> newRuleButton s2) s2
  else s2.

Definition closed (s : Session) : Session :=
  set_dropdown None (set_dropdownEventHandler None s).

Definition shown (s : Session) : Session :=
  set_dropdownEventHandler (Some (_renderList (cssFileInfos s)))
    (set_dropdown (Some (_renderList (cssFileInfos s))) s).

Inductive session_step : Session -> Session -> Prop :=
| ss_built s wid found :
    lookup s = InFlight -> session_step s (built wid found s)
| ss_failed s :
    lookup s = InFlight -> session_step s (failed s)
| ss_listed s fileInfos :
    fileList s = Some InFlight -> session_step s (listed fileInfos s)
| ss_closed s :
    session_step s (closed s)
| ss_shown s b :
    newRuleButton s = Some b ->
    hasClass "disabled" b = false ->
    length (cssFileInfos s) <> 1%nat ->
    dropdown s = None ->
    session_step s (shown s).

Section Atomic.
Context `{Ext : Collaborators}.

Inductive atomic : World -> World -> Prop :=
| A_enable w c :
    atomic w (setEnabled c w)
| A_focus w t :
    atomic w (set_focus t w)
| A_provide w host selector :
    atomic w (set_sessions (sessions w ++ [new_session host selector]) w)
| A_built w sid s found :
    sessions w !! sid = Some s ->
    lookup s = InFlight ->
    atomic w
      (set_newRuleHandlers
         (_newRuleHandlers w ++
            [{| inlineEditor := length (widgets w); handler := sid |}])
         (update_session sid (built (length (widgets w)) found)
            (set_widgets
               (widgets w ++
                  [on_focus sid
                     (load (hostEditor s)
                        (new_MultiRangeInlineEditor
                           (consolidateRules found)))]) w)))
| A_failed w sid s :
    sessions w !! sid = Some s ->
    lookup s = InFlight ->
    atomic w
      (update_session sid failed
         (perform (ConsoleLog "Error in findMatchingRules()") w))
| A_listed w sid s fileInfos :
    sessions w !! sid = Some s ->
    fileList s = Some InFlight ->
    atomic w (update_session sid (listed fileInfos) w)
| A_addRule w sid s path :
    sessions w !! sid = Some s ->
    is_Some (newRuleButton s) \/ is_Some (dropdownEventHandler s) ->
    atomic w (_addRule (selectorName s) (cssInlineEditor s) path w)
| A_closed w sid :
    atomic w
      (update_session sid closed
         (set_htmlClick
            (List.filter (fun k => negb (Nat.eqb k sid)) (htmlClick w)) w))
| A_shown w sid s b :
    sessions w !! sid = Some s ->
    newRuleButton s = Some b ->
    hasClass "disabled" b = false ->
    length (cssFileInfos s) <> 1%nat ->
    dropdown s = None ->
    atomic w
      (update_session sid shown
         (set_htmlClick (htmlClick w ++ [sid])
            (perform (MustacheRender (cssFileInfos s))
               (perform MenusCloseAll w))))
| A_loaded w k r styleDoc :
    documentRequests w !! k = Some r ->
    dr_state r = InFlight ->
    atomic w (_addRule_done r styleDoc (settle_document k w))
| A_lost w k r :
    documentRequests w !! k = Some r ->
    dr_state r = InFlight ->
    atomic w (settle_document k w)
| A_other w ranges :
    atomic w
      (set_widgets (widgets w ++ [new_MultiRangeInlineEditor ranges]) w).

End Atomic.

(** What holds of every session of a reachable world. *)
Definition session_ok (s : Session) : Prop :=
  match newRuleButton s with
  | None =>
      cssFileInfos s = [] /\ dropdown s = None /\
      dropdownEventHandler s = None /\ fileList s = None /\
      cssInlineEditor s = None /\
      (lookup s = InFlight -> result s = Pending)
  | Some b =>
      lookup s = Settled /\ is_Some (cssInlineEditor s) /\
      is_Some (fileList s) /\
      (fileList s = Some InFlight -> cssFileInfos s = []) /\
      hasClass "disabled" b = (length (cssFileInfos s) =? 0)%nat /\
      hasClass "btn-dropdown" b = (1 <? length (cssFileInfos s))%nat /\
      dropdownEventHandler s = dropdown s /\
      (forall d, dropdown s = Some d ->
         d = _renderList (cssFileInfos s) /\
         (2 <= length (cssFileInfos s))%nat)
  end.

(** The widget a session refers to exists. *)
Definition editors_bound (w : World) : Prop :=
  forall sid s wid,
    sessions w !! sid = Some s -> cssInlineEditor s = Some wid ->
    (wid < length (widgets w))%nat.

(** A session whose list of stylesheets arrived empty. *)
Definition disabled_for_good (s : Session) : Prop :=
  lookup s = Settled /\ fileList s = Some Settled /\ cssFileInfos s = [] /\
  exists b, newRuleButton s = Some b /\ hasClass "disabled" b = true.

(** A session whose lookup failed. *)
Definition declined (s : Session) : Prop :=
  lookup s = Settled /\ fileList s = None /\ result s = Rejected /\
  cssInlineEditor s = None /\ newRuleButton s = None.

(** What holds of every reachable world. *)
Definition world_ok (w : World) : Prop :=
  (forall sid s, sessions w !! sid = Some s ->
     session_ok s /\
     forall wid, cssInlineEditor s = Some wid ->
       (wid < length (widgets w))%nat) /\
  (forall r, r ∈ documentRequests w ->
     exists wid, dr_inlineEditor r = Some wid /\
       (wid < length (widgets w))%nat) /\
  NoDup (inlineEditor <$> _newRuleHandlers w) /\
  (forall e, e ∈ _newRuleHandlers w ->
     (inlineEditor e < length (widgets w))%nat).

(** The message shown when no rule matches. *)
Inductive Message :=
| CSS_QUICK_EDIT_NO_MATCHES
| CSS_QUICK_EDIT_NO_STYLESHEETS.

(** [_getNoRulesMsg]: [answer] is what [getFileInfoList] resolves with,
    [None] when it never does; only a done callback is attached. *)
Definition _getNoRulesMsg (answer : option (list FileInfo))
    : Deferred Message :=
  match answer with
  | Some fileInfos =>
      Resolved (if (0 <? length fileInfos)%nat
                then CSS_QUICK_EDIT_NO_MATCHES
                else CSS_QUICK_EDIT_NO_STYLESHEETS)
  | None => Pending
  end.

(** The registry and the focus listeners agree with the sessions: each
    entry pairs a widget with the session that made it, each session
    that made a widget has its entry and is the one listener of the
    widget's focus, and nobody else listens. *)
Definition registry_ok (w : World) : Prop :=
  (forall e, e ∈ _newRuleHandlers w ->
     cssInlineEditor <$> sessions w !! handler e
     = Some (Some (inlineEditor e))) /\
  (forall sid wid,
     cssInlineEditor <$> sessions w !! sid = Some (Some wid) ->
     {| inlineEditor := wid; handler := sid |} ∈ _newRuleHandlers w /\
     w_focusListeners <$> widgets w !! wid = Some [sid]) /\
  (forall wid sid listeners,
     w_focusListeners <$> widgets w !! wid = Some listeners ->
     sid ∈ listeners ->
     cssInlineEditor <$> sessions w !! sid = Some (Some wid)).

(** The page's click listeners are the sessions whose picker is open,
    once each. *)
Definition pickers_ok (w : World) : Prop :=
  (forall sid, sid ∈ htmlClick w <->
     exists d, dropdown <$> sessions w !! sid = Some (Some d)) /\
  NoDup (htmlClick w).

(** The promise of a session tells how its lookup went. *)
Definition result_ok (s : Session) : Prop :=
  match result s with
  | Pending => lookup s = InFlight /\ cssInlineEditor s = None
  | Resolved wid => lookup s = Settled /\ cssInlineEditor s = Some wid
  | Rejected => lookup s = Settled /\ cssInlineEditor s = None
  end.

(** A session was started by the provider on its host editor. *)
Definition started_ok (s : Session) : Prop :=
  languageId (hostEditor s) = "html" /\
  line (start (getSelection (hostEditor s)))
  = line (end_ (getSelection (hostEditor s))) /\
  selectorName s
  = _getSelectorName (hostEditor s) (start (getSelection (hostEditor s))) /\
  selectorName s <> "".

(** A rule-creation request was made by a session, for its selector and
    its widget. *)
Definition requests_ok (w : World) : Prop :=
  forall r, r ∈ documentRequests w ->
    exists sid s wid,
      sessions w !! sid = Some s /\
      dr_selectorName r = selectorName s /\
      dr_inlineEditor r = Some wid /\ cssInlineEditor s = Some wid.

(** The command is enabled only while the focus is in a widget whose
    button is not disabled. *)
Definition command_ok (w : World) : Prop :=
  _newRuleCmd w = true ->
  exists sid s wid b,
    focus w = Some wid /\ sessions w !! sid = Some s /\
    cssInlineEditor s = Some wid /\ newRuleButton s = Some b /\
    hasClass "disabled" b = false.

(** All of it together. *)
Definition good (w : World) : Prop :=
  world_ok w /\ registry_ok w /\ pickers_ok w.

(** ** Facts about the string built-ins *)

Module JSStringFacts.
Import JSString.

Lemma app_cons (c : ascii) (s t : string) :
  String c s +:+ t = String c (s +:+ t).
Proof. reflexivity. Qed.

Lemma app_nil (t : string) : "" +:+ t = t.
Proof. reflexivity. Qed.

Lemma take_drop (n : nat) (s : string) : take n s +:+ drop n s = s.
Proof.
  revert n; induction s as [|c s IH]; intros [|n]; simpl; try reflexivity.
  by rewrite app_cons, IH.
Qed.

Lemma length_take (n : nat) (s : string) :
  String.length (take n s) = Nat.min n (String.length s).
Proof.
  revert n; induction s as [|c s IH]; intros [|n]; simpl; try reflexivity.
  by rewrite IH.
Qed.

Lemma length_app (s t : string) :
  String.length (s +:+ t) = (String.length s + String.length t)%nat.
Proof.
  induction s as [|c s IH]; [reflexivity|].
  rewrite app_cons. simpl. by rewrite IH.
Qed.

Lemma len_app (s t : string) : len (s +:+ t) = len s + len t.
Proof. unfold len. rewrite length_app. lia. Qed.

Lemma len_cons (c : ascii) (s : string) : len (String c s) = 1 + len s.
Proof. unfold len. simpl String.length. lia. Qed.

Lemma len_nonneg (s : string) : 0 <= len s.
Proof. unfold len. lia. Qed.

Lemma app_assoc (s t u : string) : (s +:+ t) +:+ u = s +:+ t +:+ u.
Proof.
  induction s as [|c s IH]; [reflexivity|]. by rewrite !app_cons, IH.
Qed.

Lemma app_empty_r (s : string) : s +:+ "" = s.
Proof.
  induction s as [|c s IH]; [reflexivity|]. by rewrite app_cons, IH.
Qed.

Lemma drop_app (s t : string) : drop (String.length s) (s +:+ t) = t.
Proof.
  induction s as [|c s IH]; [by destruct t|].
  rewrite app_cons. exact IH.
Qed.

Lemma take_app (s t : string) : take (String.length s) (s +:+ t) = s.
Proof.
  induction s as [|c s IH]; [by destruct t|].
  rewrite app_cons. simpl. by rewrite IH.
Qed.

Lemma clamp_bounds (s : string) (x : Z) : 0 <= clamp s x <= len s.
Proof. unfold clamp. pose proof (len_nonneg s). lia. Qed.

Lemma clamp_id (s : string) (x : Z) : 0 <= x <= len s -> clamp s x = x.
Proof. unfold clamp. lia. Qed.

(** The word between two boundaries of a string cut in three. *)
Lemma substring_middle (a b c : string) :
  substring (a +:+ b +:+ c) (len a) (len a + len b) = b.
Proof.
  unfold substring.
  assert (Hl : len (a +:+ b +:+ c) = len a + len b + len c)
    by (rewrite !len_app; lia).
  pose proof (len_nonneg a). pose proof (len_nonneg b).
  pose proof (len_nonneg c).
  rewrite !clamp_id by lia.
  replace (Z.min (len a) (len a + len b)) with (len a) by lia.
  replace (Z.max (len a) (len a + len b) - len a) with (len b) by lia.
  unfold len. rewrite !Nat2Z.id, drop_app. apply take_app.
Qed.

Lemma substr_from_zero (s : string) (n : Z) :
  substr s 0 n = take (Z.to_nat (clamp s n)) s.
Proof.
  unfold substr. rewrite Z.ltb_irrefl.
  pose proof (clamp_bounds s n).
  replace (Z.min 0 (len s)) with 0 by lia.
  replace (Z.min (0 + clamp s n) (len s) - 0) with (clamp s n) by lia.
  reflexivity.
Qed.

Lemma prefix_space (s : string) :
  String.prefix " " s = true <-> exists t, s = String " " t.
Proof.
  destruct s as [|c s]; cbn [String.prefix].
  - split; [discriminate | intros [t Ht]; discriminate].
  - destruct (ascii_dec " " c) as [e|Hne].
    + subst c. split; [eauto | intros _; by destruct s].
    + split; [discriminate | intros [t Ht]; congruence].
Qed.

Lemma prefix_space_false (c : ascii) (s : string) :
  String.prefix " " (String c s) = false -> Ascii.eqb c " " = false.
Proof.
  intros Hp. apply not_true_is_false. intros He%Ascii.eqb_eq. subst c.
  assert (String.prefix " " (String " " s) = true)
    by (apply prefix_space; eauto).
  congruence.
Qed.

Lemma lacks_app (c : ascii) (s t : string) :
  lacks c (s +:+ t) = lacks c s && lacks c t.
Proof.
  induction s as [|d s IH]; [reflexivity|].
  rewrite app_cons. simpl. rewrite IH. by rewrite andb_assoc.
Qed.

Lemma lacks_get (c : ascii) (s : string) :
  lacks c s = true -> forall i, String.get i s <> Some c.
Proof.
  induction s as [|d s IH]; simpl; intros Hl i; [by destruct i|].
  apply andb_prop in Hl as [Hd Hs].
  destruct i as [|i]; [|by apply IH].
  intros [= ->]. by rewrite Ascii.eqb_refl in Hd.
Qed.

(** Where [lastIndexOf(" ")] points: the string splits in a part that is
    empty or ends with the last space, and a part without spaces. *)
Lemma find_last_space (s : string) (i acc : Z) :
  exists s1 s2,
    s = s1 +:+ s2 /\ lacks " " s2 = true /\
    ((s1 = "" /\ find_last " " s i acc = acc) \/
     (exists p, s1 = p +:+ " " /\ find_last " " s i acc = i + len p)).
Proof.
  revert i acc; induction s as [|c s IH]; intros i acc.
  - exists "", "". simpl. auto.
  - cbn [find_last].
    destruct (String.prefix " " (String c s)) eqn:Hp.
    + apply prefix_space in Hp as [t [= -> ->]].
      destruct (IH (i + 1) i)
        as (s1 & s2 & -> & Hl & [[-> Hr]|(p & -> & Hr)]).
      * exists " ", s2. repeat split; [done|]. right. exists "".
        split; [done|]. rewrite Hr. unfold len; simpl; lia.
      * exists (String " " (p +:+ " ")), s2. repeat split; [done|].
        right. exists (String " " p). split; [done|].
        rewrite Hr, len_cons. lia.
    + apply prefix_space_false in Hp as Hc.
      destruct (IH (i + 1) acc)
        as (s1 & s2 & -> & Hl & [[-> Hr]|(p & -> & Hr)]).
      * exists "", (String c s2). repeat split.
        -- simpl. by rewrite Hc, Hl.
        -- left. by rewrite Hr.
      * exists (String c (p +:+ " ")), s2. repeat split; [done|].
        right. exists (String c p). split; [done|].
        rewrite Hr, len_cons. lia.
Qed.

(** Where [indexOf(" ", k)] points: what follows [k] splits in a part
    without spaces and a part that is empty or starts with a space. *)
Lemma find_from_space (s : string) (i : Z) :
  exists r1 r2,
    s = r1 +:+ r2 /\ lacks " " r1 = true /\
    ((r2 = "" /\ find_from " " s i = -1) \/
     (exists q, r2 = " " +:+ q /\ find_from " " s i = i + len r1)).
Proof.
  revert i; induction s as [|c s IH]; intros i.
  - exists "", "". simpl. auto.
  - cbn [find_from].
    destruct (String.prefix " " (String c s)) eqn:Hp.
    + apply prefix_space in Hp as [t [= -> ->]].
      exists "", (String " " t). repeat split. right. exists t.
      split; [done|]. unfold len; simpl; lia.
    + apply prefix_space_false in Hp as Hc.
      destruct (IH (i + 1)) as (r1 & r2 & -> & Hl & Hcase).
      exists (String c r1), r2. repeat split.
      * simpl. by rewrite Hc, Hl.
      * destruct Hcase as [[-> Hr]|(q & -> & Hr)]; [left|right].
        -- by rewrite Hr.
        -- exists q. split; [done|]. rewrite Hr, len_cons. lia.
Qed.

End JSStringFacts.

(** ** The selector resolver *)

Section Resolver.
Import JSString JSStringFacts.

(** The slice the class branch cuts out of the attribute value. *)
Lemma class_word (V : string) (C : Z) :
  let startIndex := lastIndexOf (substr V 0 C) " " in
  let endIndex := indexOf V " " C in
  exists pre word post,
    V = pre +:+ word +:+ post /\
    substring V (if startIndex =? -1 then 0 else startIndex + 1)
      (if endIndex =? -1 then len V else endIndex) = word /\
    len pre <= clamp V C <= len pre + len word /\
    lacks " " word = true /\
    (pre = "" \/ exists p, pre = p +:+ " ") /\
    (post = "" \/ exists q, post = " " +:+ q).
Proof.
  intros startIndex endIndex.
  pose proof (clamp_bounds V C) as Hk.
  set (k := Z.to_nat (clamp V C)).
  assert (HV : V = take k V +:+ drop k V) by (by rewrite take_drop).
  assert (HLk : len (take k V) = clamp V C).
  { unfold len. rewrite length_take. unfold len in Hk. lia. }
  destruct (find_last_space (take k V) 0 (-1))
    as (s1 & s2 & HL & Hs2 & Hstart).
  destruct (find_from_space (drop k V) (clamp V C))
    as (r1 & r2 & HR & Hr1 & Hend).
  assert (Hsplit : V = s1 +:+ (s2 +:+ r1) +:+ r2).
  { rewrite HV, HL, HR at 1. by rewrite !app_assoc. }
  assert (HlenL : clamp V C = len s1 + len s2).
  { rewrite <- HLk, HL. apply len_app. }
  exists s1, (s2 +:+ r1), r2.
  pose proof (len_nonneg s1). pose proof (len_nonneg s2).
  pose proof (len_nonneg r1).
  repeat split.
  - exact Hsplit.
  - assert (Hfrom : (if startIndex =? -1 then 0 else startIndex + 1)
                    = len s1).
    { subst startIndex. rewrite substr_from_zero. fold k.
      unfold lastIndexOf.
      destruct Hstart as [[-> ->]|(p & -> & ->)]; [done|].
      pose proof (len_nonneg p).
      destruct (0 + len p =? -1) eqn:E; [lia|].
      rewrite len_app. unfold len at 3; simpl. lia. }
    assert (Hto : (if endIndex =? -1 then len V else endIndex)
                  = len s1 + len (s2 +:+ r1)).
    { subst endIndex. unfold indexOf. fold k. rewrite len_app.
      destruct Hend as [[-> ->]|(q & -> & ->)].
      - simpl (-1 =? -1). cbv iota.
        rewrite Hsplit at 1. rewrite !len_app. unfold len at 4; simpl. lia.
      - destruct (clamp V C + len r1 =? -1) eqn:E; lia. }
    rewrite Hfrom, Hto. rewrite Hsplit at 1. apply substring_middle.
  - lia.
  - rewrite len_app. lia.
  - rewrite lacks_app. by rewrite Hs2, Hr1.
  - destruct Hstart as [[-> _]|(p & -> & _)]; eauto.
  - destruct Hend as [[-> _]|(q & -> & _)]; eauto.
Qed.

Lemma dot_alone (word : string) :
  String.eqb ("." +:+ word) "." = String.eqb word "".
Proof. by destruct word. Qed.

End Resolver.

Section ResolverClaims.
Import JSString JSStringFacts.

(** C1 (as amended).  In an attribute name or value of the attribute
    [class], the resolver cuts the attribute value at the spaces (the
    code unit U+0020, no other white space) around the cursor offset:
    the value is [pre], [word], [post] in a row, the cursor is inside or
    at an end of [word], [word] holds no space, [pre] is empty or ends
    with a space and [post] is empty or starts with one.  The result is
    "." followed by [word], and it is the empty string exactly when
    [word] is empty, that is when there is no class-name character on
    either side of the cursor. *)
Theorem class_selector_space_delimited (editor : HostEditor) (p : Pos) :
  let tagInfo := getTagInfo editor p in
  let V := value (attr tagInfo) in
  let C := offset (position tagInfo) in
  tokenType (position tagInfo) = ATTR_NAME \/
    tokenType (position tagInfo) = ATTR_VALUE ->
  name (attr tagInfo) = "class" ->
  exists pre word post,
    V = pre +:+ word +:+ post /\
    len pre <= clamp V C <= len pre + len word /\
    (forall i, String.get i word <> Some " "%char) /\
    (pre = "" \/ exists p', pre = p' +:+ " ") /\
    (post = "" \/ exists q, post = " " +:+ q) /\
    _getSelectorName editor p
      = (if String.eqb word "" then "" else "." +:+ word).
Proof.
  intros tagInfo V C Hkind Hname.
  destruct (class_word V C)
    as (pre & word & post & HV & Hsub & Hcur & Hlacks & Hpre & Hpost).
  exists pre, word, post.
  repeat split; try done; try lia.
  - by apply lacks_get.
  - unfold _getSelectorName. fold tagInfo. cbv zeta.
    replace (is_tag_token (tokenType (position tagInfo))) with false
      by (by destruct Hkind as [-> | ->]).
    replace (is_attr_token (tokenType (position tagInfo))) with true
      by (by destruct Hkind as [-> | ->]).
    rewrite Hname. simpl ("class" =? "class")%string. cbv iota.
    fold V C. rewrite Hsub. by rewrite dot_alone.
Qed.

Lemma class_selector_space_delimited_witness :
  exists pre word post,
    "error-dialog modal hide" = pre +:+ word +:+ post /\
    len pre <= clamp "error-dialog modal hide" 15 <= len pre + len word /\
    (forall i, String.get i word <> Some " "%char) /\
    (pre = "" \/ exists p', pre = p' +:+ " ") /\
    (post = "" \/ exists q, post = " " +:+ q) /\
    _getSelectorName
      (Demo.html_editor
         (Demo.in_attribute "class" "error-dialog modal hide" 15))
      Demo.origin
    = (if String.eqb word "" then "" else "." +:+ word).
Proof.
  apply (class_selector_space_delimited
           (Demo.html_editor
              (Demo.in_attribute "class" "error-dialog modal hide" 15))
           Demo.origin).
  - right. reflexivity.
  - reflexivity.
Defined.

(** C1, the claim as it is written, fails: with the value "a<TAB>b c"
    and the cursor at offset 3, on the space that separates the two
    names, the resolver does not return the empty string, and what it
    returns after the "." contains a tab, which is white space. *)
Lemma class_selector_counterexample :
  let editor := Demo.html_editor (Demo.in_attribute "class" Demo.tabbed 3) in
  String.get 3 Demo.tabbed = Some " "%char /\
  _getSelectorName editor Demo.origin <> "" /\
  (exists word,
     _getSelectorName editor Demo.origin = "." +:+ word /\
     String.get 1 word = Some "009"%char /\
     Ascii.is_space "009" = true).
Proof.
  cbv zeta. split; [reflexivity|]. split; [by vm_compute|].
  exists (String "a" (String "009" "b")). by vm_compute.
Qed.

(** C2.  In an attribute name or value of the attribute [id], the
    resolver returns "#" followed by the whole attribute value, whatever
    the cursor offset. *)
Theorem id_selector_whole_value (editor : HostEditor) (p : Pos) :
  let tagInfo := getTagInfo editor p in
  tokenType (position tagInfo) = ATTR_NAME \/
    tokenType (position tagInfo) = ATTR_VALUE ->
  name (attr tagInfo) = "id" ->
  _getSelectorName editor p = "#" +:+ value (attr tagInfo).
Proof.
  intros tagInfo Hkind Hname.
  unfold _getSelectorName. fold tagInfo. cbv zeta.
  replace (is_tag_token (tokenType (position tagInfo))) with false
    by (by destruct Hkind as [-> | ->]).
  replace (is_attr_token (tokenType (position tagInfo))) with true
    by (by destruct Hkind as [-> | ->]).
  by rewrite Hname.
Qed.

Lemma id_selector_whole_value_witness :
  _getSelectorName
    (Demo.html_editor (Demo.in_attribute "id" "main-panel" 4)) Demo.origin
  = "#main-panel".
Proof.
  apply (id_selector_whole_value
           (Demo.html_editor (Demo.in_attribute "id" "main-panel" 4))
           Demo.origin).
  - right. reflexivity.
  - reflexivity.
Defined.

End ResolverClaims.

(** ** Every callback is a sequence of atomic changes *)

Section Decomposition.
Context `{Ext : Collaborators}.

Lemma update_session_twice (sid : nat) (f g : Session -> Session)
    (w : World) :
  update_session sid f (update_session sid g w)
  = update_session sid (f ∘ g) w.
Proof.
  unfold update_session. simpl. by rewrite list_alter_alter_eq.
Qed.

Lemma update_session_ext (sid : nat) (f g : Session -> Session)
    (w : World) :
  (forall s, sessions w !! sid = Some s -> f s = g s) ->
  update_session sid f w = update_session sid g w.
Proof.
  intros Hfg. unfold update_session. f_equal. by apply list_alter_ext.
Qed.

Lemma updateCommands_atomic (sid : nat) (w : World) :
  rtc atomic w (_updateCommands sid w).
Proof.
  unfold _updateCommands.
  destruct (sessions w !! sid) as [s|]; [|reflexivity].
  destruct (cssInlineEditor s), (newRuleButton s); try reflexivity.
  apply rtc_once, A_enable.
Qed.

Lemma fold_updateCommands_atomic (l : list nat) (w : World) :
  rtc atomic w (foldl (fun acc sid => _updateCommands sid acc) w l).
Proof.
  revert w; induction l as [|sid l IH]; intros w; simpl; [reflexivity|].
  etransitivity; [apply updateCommands_atomic | apply IH].
Qed.

Lemma move_focus_atomic (target : option nat) (w : World) :
  rtc atomic w (move_focus target w).
Proof.
  unfold move_focus. case_decide; [reflexivity|].
  eapply rtc_l; [apply (A_focus w target)|].
  etransitivity; apply fold_updateCommands_atomic.
Qed.

Lemma addRule_atomic (sid : nat) (s : Session) (path : string) (w : World) :
  sessions w !! sid = Some s ->
  is_Some (newRuleButton s) \/ is_Some (dropdownEventHandler s) ->
  rtc atomic w (_addRule (selectorName s) (cssInlineEditor s) path w).
Proof. intros Hs Hb. apply rtc_once. by eapply A_addRule. Qed.

Lemma cleanupDropdown_atomic (sid : nat) (w : World) :
  rtc atomic w (_cleanupDropdown sid w).
Proof.
  unfold _cleanupDropdown. cbv zeta.
  rewrite update_session_twice.
  eapply rtc_l; [apply (A_closed w sid)|]. apply move_focus_atomic.
Qed.

Lemma closeDropdown_atomic (sid : nat) (w : World) :
  rtc atomic w (_closeDropdown sid w).
Proof.
  unfold _closeDropdown.
  destruct (sessions w !! sid) as [s|]; [|reflexivity].
  destruct (dropdownEventHandler s); [|reflexivity].
  apply cleanupDropdown_atomic.
Qed.

Lemma showDropdown_atomic (sid : nat) (s : Session) (b : Button)
    (w : World) :
  sessions w !! sid = Some s ->
  newRuleButton s = Some b ->
  hasClass "disabled" b = false ->
  length (cssFileInfos s) <> 1%nat ->
  dropdown s = None ->
  rtc atomic w (_showDropdown sid w).
Proof.
  intros Hs Hb Hen Hlen Hdd. unfold _showDropdown. rewrite Hs. cbv zeta.
  eapply rtc_l; [by apply (A_shown w sid s b)|].
  match goal with
  | |- rtc _ ?a (move_focus _ ?b) => replace b with a
  end; [apply move_focus_atomic|].
  unfold update_session, set_htmlClick, perform, set_effects, set_sessions.
  simpl. f_equal. rewrite list_alter_alter_eq.
  apply list_alter_ext; [|done].
  intros x Hx. assert (x = s) as -> by congruence. reflexivity.
Qed.

Lemma handleNewRuleClick_atomic (sid : nat) (e : bool) (w : World) :
  rtc atomic w (fst (_handleNewRuleClick sid e w)).
Proof.
  unfold _handleNewRuleClick.
  destruct (sessions w !! sid) as [s|] eqn:Hs; [|reflexivity].
  destruct (newRuleButton s) as [b|] eqn:Hb; [|reflexivity].
  simpl. destruct (hasClass "disabled" b) eqn:Hen; [reflexivity|].
  simpl. destruct (length (cssFileInfos s) =? 1)%nat eqn:Hlen.
  - destruct (cssFileInfos s !! 0%nat); [|reflexivity].
    eapply addRule_atomic; [done|]. left. by rewrite Hb.
  - apply Nat.eqb_neq in Hlen.
    destruct (dropdown s) eqn:Hdd.
    + apply closeDropdown_atomic.
    + by eapply showDropdown_atomic.
Qed.

Lemma handleNewRule_atomic (w : World) : rtc atomic w (_handleNewRule w).
Proof.
  unfold _handleNewRule.
  destruct (getFocusedMultiRangeInlineEditor w); [|reflexivity].
  destruct (List.find _ _); [|reflexivity].
  apply handleNewRuleClick_atomic.
Qed.

Lemma provider_atomic (host : HostEditor) (p : Pos) (w : World) :
  rtc atomic w (snd (htmlToCSSProvider host p w)).
Proof.
  unfold htmlToCSSProvider.
  destruct (negb _); [reflexivity|]. cbv zeta.
  destruct (negb _); [reflexivity|].
  destruct (String.eqb _ ""); [reflexivity|].
  apply rtc_once, A_provide.
Qed.

Lemma settle_lookup_session (sid : nat) (s : Session) (w : World) :
  sessions w !! sid = Some s ->
  sessions (settle_lookup sid w) !! sid = Some (set_lookup Settled s).
Proof.
  intros Hs. unfold settle_lookup, update_session. simpl.
  by rewrite list_lookup_alter_eq, Hs.
Qed.

Lemma rules_done_atomic (sid : nat) (s : Session) (found : list Rule)
    (w : World) :
  sessions w !! sid = Some s ->
  lookup s = InFlight ->
  rtc atomic w (rules_done sid found (settle_lookup sid w)).
Proof.
  intros Hs Hl. unfold rules_done.
  rewrite (settle_lookup_session sid s w Hs). cbv zeta.
  apply rtc_once.
  match goal with
  | |- atomic _ ?b =>
      replace b with
        (set_newRuleHandlers
           (_newRuleHandlers w ++
              [{| inlineEditor := length (widgets w); handler := sid |}])
           (update_session sid (built (length (widgets w)) found)
              (set_widgets
                 (widgets w ++
                    [on_focus sid
                       (load (hostEditor s)
                          (new_MultiRangeInlineEditor
                             (consolidateRules found)))]) w)))
  end; [by eapply A_built|].
  unfold settle_lookup, update_session, set_newRuleHandlers, set_sessions,
    set_widgets. simpl. f_equal. by rewrite list_alter_alter_eq.
Qed.

Lemma rules_fail_atomic (sid : nat) (s : Session) (w : World) :
  sessions w !! sid = Some s ->
  lookup s = InFlight ->
  rtc atomic w (rules_fail sid (settle_lookup sid w)).
Proof.
  intros Hs Hl. unfold rules_fail. cbv zeta. apply rtc_once.
  match goal with
  | |- atomic _ ?b =>
      replace b with
        (update_session sid failed
           (perform (ConsoleLog "Error in findMatchingRules()") w))
  end; [by eapply A_failed|].
  unfold settle_lookup, update_session, perform, set_effects, set_sessions.
  simpl. f_equal. by rewrite list_alter_alter_eq.
Qed.

End Decomposition.

Section DecompositionOfStep.
Context `{Ext : Collaborators}.

Lemma world_eta (w : World) : setEnabled (_newRuleCmd w) w = w.
Proof. by destruct w. Qed.

Lemma updateCommands_shape (sid : nat) (w : World) :
  exists c, _updateCommands sid w = setEnabled c w.
Proof.
  unfold _updateCommands.
  destruct (sessions w !! sid) as [s|];
    [|exists (_newRuleCmd w); by rewrite world_eta].
  destruct (cssInlineEditor s), (newRuleButton s); eauto;
    exists (_newRuleCmd w); by rewrite world_eta.
Qed.

Lemma fold_updateCommands_shape (l : list nat) (w : World) :
  exists c, foldl (fun acc sid => _updateCommands sid acc) w l
            = setEnabled c w.
Proof.
  revert w; induction l as [|sid l IH]; intros w; simpl.
  - exists (_newRuleCmd w). by rewrite world_eta.
  - destruct (updateCommands_shape sid w) as [c ->].
    destruct (IH (setEnabled c w)) as [c' ->]. by exists c'.
Qed.

Lemma move_focus_shape (target : option nat) (w : World) :
  exists c, move_focus target w = setEnabled c (set_focus target w).
Proof.
  unfold move_focus. case_decide as Hf.
  - exists (_newRuleCmd w). subst target. by destruct w.
  - cbv zeta.
    destruct (fold_updateCommands_shape
                (focus_listeners (focus w) (set_focus target w))
                (set_focus target w)) as [c ->].
    destruct (fold_updateCommands_shape
                (focus_listeners target (setEnabled c (set_focus target w)))
                (setEnabled c (set_focus target w))) as [c' ->].
    by exists c'.
Qed.

Lemma fileInfos_done_atomic (sid : nat) (s : Session)
    (fileInfos : list FileInfo) (w : World) :
  sessions w !! sid = Some s ->
  fileList s = Some InFlight ->
  rtc atomic w (fileInfos_done sid fileInfos (settle_fileList sid w)).
Proof.
  intros Hs Hfl.
  eapply rtc_l; [by apply (A_listed w sid s fileInfos)|].
  unfold fileInfos_done. cbv zeta.
  assert (Hs1 :
    sessions (update_session sid (set_cssFileInfos fileInfos)
                (settle_fileList sid w)) !! sid
    = Some (set_cssFileInfos fileInfos (set_fileList (Some Settled) s))).
  { unfold settle_fileList, update_session. simpl.
    by rewrite !list_lookup_alter_eq, Hs. }
  rewrite Hs1. simpl cssFileInfos. simpl rules. simpl cssInlineEditor.
  etransitivity; [|apply updateCommands_atomic].
  assert (Hfocus : forall t f,
    rtc atomic (update_session sid f w)
      (move_focus t (update_session sid f w)))
    by (intros; apply move_focus_atomic).
  assert (Hmove : forall t f g w0,
    rtc atomic (update_session sid (f ∘ g) w0)
      (update_session sid f (move_focus t (update_session sid g w0)))).
  { intros t f g w0.
    destruct (move_focus_shape t (update_session sid g w0)) as [c ->].
    eapply rtc_l; [apply (A_focus _ t)|].
    eapply rtc_l; [apply (A_enable _ c)|].
    rewrite <- update_session_twice. reflexivity. }
  unfold settle_fileList. unfold listed.
  destruct (0 <? length fileInfos)%nat, (1 <? length fileInfos)%nat,
    (rules s); rewrite ?update_session_twice;
    try reflexivity; try apply Hfocus.
  match goal with
  | |- rtc atomic _ (update_session sid ?f (move_focus ?t (update_session sid ?g w))) =>
      apply (Hmove t f g w)
  end.
Qed.

Lemma fold_closeDropdown_atomic (l : list nat) (w : World) :
  rtc atomic w (foldl (fun acc sid => _closeDropdown sid acc) w l).
Proof.
  revert w; induction l as [|sid l IH]; intros w; simpl; [reflexivity|].
  etransitivity; [apply closeDropdown_atomic | apply IH].
Qed.

(** Every event is a sequence of atomic changes. *)
Lemma step_atomic (w : World) (ev : Event) : rtc atomic w (step w ev).
Proof.
  destruct ev as [host p|sid found|sid|sid infos|sid| |k doc|k|sid path|sid
                 | |target|ranges]; simpl.
  - apply provider_atomic.
  - destruct (sessions w !! sid) as [s|] eqn:Hs; simpl; [|reflexivity].
    destruct (lookup s) eqn:Hl; [|reflexivity].
    by eapply rules_done_atomic.
  - destruct (sessions w !! sid) as [s|] eqn:Hs; simpl; [|reflexivity].
    destruct (lookup s) eqn:Hl; [|reflexivity].
    by eapply rules_fail_atomic.
  - destruct (sessions w !! sid) as [s|] eqn:Hs; simpl; [|reflexivity].
    destruct (fileList s) as [[]|] eqn:Hl; try reflexivity.
    by eapply fileInfos_done_atomic.
  - apply handleNewRuleClick_atomic.
  - apply handleNewRule_atomic.
  - destruct (documentRequests w !! k) as [r|] eqn:Hr; [|reflexivity].
    destruct (dr_state r) eqn:Hst; [|reflexivity].
    apply rtc_once. by eapply A_loaded.
  - destruct (documentRequests w !! k) as [r|] eqn:Hr; [|reflexivity].
    destruct (dr_state r) eqn:Hst; [|reflexivity].
    apply rtc_once. by eapply A_lost.
  - destruct (sessions w !! sid) as [s|] eqn:Hs; simpl; [|reflexivity].
    destruct (dropdownEventHandler s) eqn:Hd; [|reflexivity].
    etransitivity; [|apply cleanupDropdown_atomic].
    unfold _onSelect. rewrite Hs. destruct path as [p|]; [|reflexivity].
    destruct (String.eqb p ""); [reflexivity|].
    eapply addRule_atomic; [done|]. right. by rewrite Hd.
  - destruct (sessions w !! sid) as [s|] eqn:Hs; simpl; [|reflexivity].
    destruct (dropdownEventHandler s) eqn:Hd; [|reflexivity].
    apply cleanupDropdown_atomic.
  - apply fold_closeDropdown_atomic.
  - destruct target as [wid|]; [|apply move_focus_atomic].
    case_bool_decide; [apply move_focus_atomic | reflexivity].
  - apply rtc_once, A_other.
Qed.

Lemma run_atomic (w : World) (evs : list Event) : rtc atomic w (run w evs).
Proof.
  revert w; induction evs as [|ev evs IH]; intros w; simpl; [reflexivity|].
  etransitivity; [apply step_atomic | apply IH].
Qed.

(** A property of the initial world that every atomic change keeps holds
    after any events. *)
Lemma reachable_ind (P : World -> Prop) :
  P initial ->
  (forall w w', atomic w w' -> P w -> P w') ->
  forall evs, P (run initial evs).
Proof.
  intros H0 Hstep evs.
  pose proof (run_atomic initial evs) as Hr.
  induction Hr as [|w w' w'' Ha _ IH]; [done|]. apply IH. by eapply Hstep.
Qed.

End DecompositionOfStep.

(** ** The class list of the button *)

Lemma hasClass_removeClass_eq (c : string) (b : Button) :
  hasClass c (removeClass c b) = false.
Proof.
  unfold hasClass, removeClass. simpl.
  induction (classes b) as [|d l IH]; simpl; [done|].
  destruct (String.eqb c d) eqn:E; simpl; [done|]. by rewrite E.
Qed.

Lemma hasClass_removeClass_ne (c d : string) (b : Button) :
  c <> d -> hasClass c (removeClass d b) = hasClass c b.
Proof.
  intros Hne. unfold hasClass, removeClass. simpl.
  induction (classes b) as [|x l IH]; simpl; [done|].
  destruct (String.eqb d x) eqn:E; simpl.
  - apply String.eqb_eq in E as <-.
    by rewrite (proj2 (String.eqb_neq c d) Hne).
  - by rewrite IH.
Qed.

Lemma hasClass_addClass_eq (c : string) (b : Button) :
  hasClass c (addClass c b) = true.
Proof.
  unfold addClass. destruct (hasClass c b) eqn:E; [done|].
  unfold hasClass. simpl. rewrite existsb_app. simpl.
  by rewrite String.eqb_refl, orb_true_r.
Qed.

Lemma hasClass_addClass_ne (c d : string) (b : Button) :
  c <> d -> hasClass c (addClass d b) = hasClass c b.
Proof.
  intros Hne. unfold addClass. destruct (hasClass d b); [done|].
  unfold hasClass. simpl. rewrite existsb_app. simpl.
  by rewrite (proj2 (String.eqb_neq c d) Hne), !orb_false_r.
Qed.

(** ** Invariants *)

Lemma new_session_ok (host : HostEditor) (selector : string) :
  session_ok (new_session host selector).
Proof. by repeat split. Qed.

Lemma session_step_ok (s s' : Session) :
  session_ok s -> session_step s s' -> session_ok s'.
Proof.
  intros Hok Hstep. unfold session_ok in *.
  destruct Hstep as [s wid found Hl|s Hl|s infos Hfl|s|s b Hb Hen Hlen Hdd].
  - destruct (newRuleButton s) as [b|].
    { destruct Hok as (Hl' & _). congruence. }
    destruct Hok as (Hi & Hd & Hh & Hf & Hc & Hr). simpl.
    rewrite Hi, Hd, Hh. repeat split; eauto; congruence.
  - destruct (newRuleButton s) as [b|] eqn:Hb.
    { destruct Hok as (Hl' & _). congruence. }
    simpl. rewrite Hb. destruct Hok as (Hi & Hd & Hh & Hf & Hc & Hr).
    repeat split; try done.
  - destruct (newRuleButton s) as [b|] eqn:Hb.
    2:{ destruct Hok as (_ & _ & _ & Hf & _). congruence. }
    destruct Hok as (Hl & Hc & Hf & Hi & Hdis & Hbtn & Hh & Hd).
    specialize (Hi Hfl). rewrite Hi in *. simpl in Hdis, Hbtn.
    assert (Hnone : dropdown s = None).
    { destruct (dropdown s) as [d|]; [|done].
      destruct (Hd d eq_refl) as [_ Hle]. simpl in Hle. lia. }
    unfold listed. cbv zeta.
    destruct infos as [|i1 [|i2 infos]]; simpl; rewrite ?Hb; simpl.
    + rewrite Hnone. repeat split; try done; congruence.
    + rewrite Hnone, hasClass_removeClass_eq.
      rewrite hasClass_removeClass_ne by done.
      repeat split; try done; congruence.
    + rewrite Hnone, hasClass_addClass_eq.
      rewrite hasClass_addClass_ne, hasClass_removeClass_eq by done.
      repeat split; try done; congruence.
  - simpl. destruct (newRuleButton s) as [b|].
    + destruct Hok as (Hl & Hc & Hf & Hi & Hdis & Hbtn & Hh & Hd).
      repeat split; try done.
    + destruct Hok as (Hi & Hd & Hh & Hf & Hc & Hr). repeat split; done.
  - simpl. rewrite Hb in *.
    destruct Hok as (Hl & Hc & Hf & Hi & Hdis & Hbtn & Hh & Hd).
    repeat split; try done; try congruence.
    rewrite Hen in Hdis. symmetry in Hdis. apply Nat.eqb_neq in Hdis. lia.
Qed.
Section WorldInvariant.
Context `{Ext : Collaborators}.

Lemma addRule_done_sessions (r : DocumentRequest) (doc : Document)
    (w : World) :
  sessions (_addRule_done r doc w) = sessions w.
Proof. unfold _addRule_done. by destruct (dr_inlineEditor r). Qed.

Lemma addRule_done_handlers (r : DocumentRequest) (doc : Document)
    (w : World) :
  _newRuleHandlers (_addRule_done r doc w) = _newRuleHandlers w.
Proof. unfold _addRule_done. by destruct (dr_inlineEditor r). Qed.

Lemma addRule_done_requests (r : DocumentRequest) (doc : Document)
    (w : World) :
  documentRequests (_addRule_done r doc w) = documentRequests w.
Proof. unfold _addRule_done. by destruct (dr_inlineEditor r). Qed.

Lemma addRule_done_widgets_length (r : DocumentRequest) (doc : Document)
    (w : World) :
  length (widgets (_addRule_done r doc w)) = length (widgets w).
Proof.
  unfold _addRule_done. destruct (dr_inlineEditor r); [|done].
  simpl. by rewrite !length_alter.
Qed.

(** How an atomic change changes the list of sessions. *)
Lemma atomic_sessions (w w' : World) :
  atomic w w' ->
  sessions w' = sessions w \/
  (exists sid f,
     sessions w' = alter f sid (sessions w) /\
     forall s, sessions w !! sid = Some s -> session_step s (f s)) \/
  (exists host selector,
     sessions w' = sessions w ++ [new_session host selector]).
Proof.
  intros Ha.
  destruct Ha as [w c|w t|w host sel|w sid s found Hs Hl|w sid s Hs Hl
                 |w sid s infos Hs Hfl|w sid s path Hs Hb|w sid
                 |w sid s b Hs Hb Hen Hlen Hdd|w k r doc Hr Hst|w k r Hr Hst
                 |w ranges]; simpl.
  - by left.
  - by left.
  - right; right. eauto.
  - right; left. exists sid, (built (length (widgets w)) found).
    split; [done|]. intros s0 Hs0. assert (s0 = s) as -> by congruence.
    by constructor.
  - right; left. exists sid, failed. split; [done|].
    intros s0 Hs0. assert (s0 = s) as -> by congruence. by constructor.
  - right; left. exists sid, (listed infos). split; [done|].
    intros s0 Hs0. assert (s0 = s) as -> by congruence. by constructor.
  - by left.
  - right; left. exists sid, closed. split; [done|]. intros. constructor.
  - right; left. exists sid, shown. split; [done|].
    intros s0 Hs0. assert (s0 = s) as -> by congruence. by econstructor.
  - left. by rewrite addRule_done_sessions.
  - by left.
  - by left.
Qed.

Lemma atomic_session_after (w w' : World) (sid : nat) (s : Session) :
  atomic w w' ->
  sessions w !! sid = Some s ->
  exists s', sessions w' !! sid = Some s' /\ (s' = s \/ session_step s s').
Proof.
  intros Ha Hs.
  destruct (atomic_sessions w w' Ha)
    as [->|[(sid0 & f & -> & Hf)|(host & sel & ->)]].
  - eauto.
  - destruct (decide (sid0 = sid)) as [->|Hne].
    + exists (f s). rewrite list_lookup_alter_eq, Hs. eauto.
    + exists s. rewrite list_lookup_alter_ne by done. eauto.
  - exists s. rewrite lookup_app_l by (by eapply lookup_lt_Some). eauto.
Qed.

Lemma atomic_session_before (w w' : World) (sid : nat) (s' : Session) :
  atomic w w' ->
  sessions w' !! sid = Some s' ->
  (exists s, sessions w !! sid = Some s /\ (s' = s \/ session_step s s')) \/
  (sessions w !! sid = None /\
   exists host selector, s' = new_session host selector).
Proof.
  intros Ha Hs'.
  destruct (atomic_sessions w w' Ha)
    as [E|[(sid0 & f & E & Hf)|(host & sel & E)]]; rewrite E in Hs'.
  - eauto.
  - destruct (decide (sid0 = sid)) as [->|Hne].
    + rewrite list_lookup_alter_eq in Hs'.
      destruct (sessions w !! sid) as [s|] eqn:Hs; [|done].
      injection Hs' as <-. left. exists s. split; [done|]. right. by apply Hf.
    + rewrite list_lookup_alter_ne in Hs' by done. eauto.
  - apply lookup_app_Some in Hs' as [Hs'|[Hge Hs']]; [eauto|].
    right. split; [by apply lookup_ge_None|].
    apply list_lookup_singleton_Some in Hs' as [_ <-]. eauto.
Qed.

Lemma atomic_widgets_length (w w' : World) :
  atomic w w' -> (length (widgets w) <= length (widgets w'))%nat.
Proof.
  intros Ha. destruct Ha; simpl; rewrite ?length_app; try lia.
  rewrite addRule_done_widgets_length. simpl. lia.
Qed.

Lemma session_step_editor (s s' : Session) (wid : nat) :
  session_step s s' ->
  cssInlineEditor s' = Some wid ->
  cssInlineEditor s = Some wid \/ exists found, s' = built wid found s.
Proof.
  intros Hstep He. destruct Hstep; simpl in He; eauto.
  - injection He as ->. eauto.
  - left. unfold listed in He. cbv zeta in He.
    by repeat (destruct (_ <? _)%nat in He; simpl in He).
Qed.

End WorldInvariant.

Section WorldOk.
Context `{Ext : Collaborators}.

Lemma listed_editor (infos : list FileInfo) (s : Session) :
  cssInlineEditor (listed infos s) = cssInlineEditor s.
Proof.
  unfold listed. cbv zeta. by repeat (destruct (_ <? _)%nat; simpl).
Qed.

Lemma editors_bound_alter (f : Session -> Session) (sid0 : nat)
    (w w' : World) :
  sessions w' = alter f sid0 (sessions w) ->
  (length (widgets w) <= length (widgets w'))%nat ->
  (forall s wid, sessions w !! sid0 = Some s ->
     cssInlineEditor (f s) = Some wid -> (wid < length (widgets w'))%nat) ->
  editors_bound w -> editors_bound w'.
Proof.
  intros E Hlen Hf Hb sid s' wid Hs' He. rewrite E in Hs'.
  destruct (decide (sid0 = sid)) as [->|Hne].
  - rewrite list_lookup_alter_eq in Hs'.
    destruct (sessions w !! sid) as [s|] eqn:Hs; [|done].
    injection Hs' as <-. by eapply Hf.
  - rewrite list_lookup_alter_ne in Hs' by done.
    specialize (Hb sid s' wid Hs' He). lia.
Qed.

Lemma atomic_editors_bound (w w' : World) :
  atomic w w' -> editors_bound w -> editors_bound w'.
Proof.
  intros Ha Hb.
  pose proof (atomic_widgets_length w w' Ha) as Hlen.
  destruct Ha as [w c|w t|w host sel|w sid s found Hs Hl|w sid s Hs Hl
                 |w sid s infos Hs Hfl|w sid s path Hs Hbt|w sid
                 |w sid s b Hs Hbt Hen Hlen' Hdd|w k r doc Hr Hst
                 |w k r Hr Hst|w ranges];
    try (exact Hb);
    try (eapply (editors_bound_alter _ _ w);
         [reflexivity|exact Hlen| |exact Hb];
         intros s0 wid Hs0 He; simpl in He; rewrite ?listed_editor in He;
         specialize (Hb _ _ _ Hs0 He); lia).
  - intros sid s' wid Hs' He. simpl in *.
    apply lookup_app_Some in Hs' as [Hs'|[_ Hs']]; [by eapply Hb|].
    apply list_lookup_singleton_Some in Hs' as [_ <-]. done.
  - eapply (editors_bound_alter _ _ w); [reflexivity|exact Hlen| |exact Hb].
    intros s0 wid Hs0 He. simpl in *. injection He as <-.
    rewrite length_app. simpl. lia.
  - intros sid s' wid Hs' He. rewrite addRule_done_sessions in Hs'.
    specialize (Hb sid s' wid Hs' He). lia.
  - intros sid s' wid Hs' He. simpl in *.
    specialize (Hb sid s' wid Hs' He). lia.
Qed.

Lemma atomic_ok (w w' : World) : atomic w w' -> world_ok w -> world_ok w'.
Proof.
  intros Ha (HS & HD & HN & HE).
  pose proof (atomic_widgets_length w w' Ha) as Hlen.
  assert (Hbound : editors_bound w' ).
  { apply (atomic_editors_bound w w' Ha). intros sid s wid Hs.
    destruct (HS sid s Hs) as [_ Hb]. apply Hb. }
  split; [|split].
  - intros sid s' Hs'.
    split; [|intros wid He; exact (Hbound sid s' wid Hs' He)].
    destruct (atomic_session_before w w' sid s' Ha Hs')
      as [(s & Hs & [->|Hstep])|(_ & host & sel & ->)].
    + by destruct (HS sid s Hs).
    + eapply session_step_ok; [|done]. by destruct (HS sid s Hs).
    + apply new_session_ok.
  - destruct Ha as [w c|w t|w host sel|w sid s found Hs Hl|w sid s Hs Hl
                   |w sid s infos Hs Hfl|w sid s path Hs Hbt|w sid
                   |w sid s b Hs Hbt Hen Hlen' Hdd|w k r doc Hr Hst
                   |w k r Hr Hst|w ranges];
      try (intros r0 Hr0; destruct (HD r0 Hr0) as (wid & Hw & Hlt);
           exists wid; split; [done|simpl in *; lia]).
    + intros r0 Hr0. simpl in Hr0.
      apply elem_of_app in Hr0 as [Hr0|Hr0%list_elem_of_singleton].
      { destruct (HD r0 Hr0) as (wid & Hw & Hlt). eauto. }
      subst r0. simpl.
      destruct (HS sid s Hs) as [Hok Hbd]. unfold session_ok in Hok.
      destruct (newRuleButton s) as [b|] eqn:Hb.
      * destruct Hok as (_ & [wid Hwid] & _). exists wid.
        split; [done|]. by apply Hbd.
      * destruct Hok as (_ & _ & Hh & _). rewrite Hh in Hbt.
        destruct Hbt as [[? [=]]|[? [=]]].
    + intros r0 Hr0. rewrite addRule_done_requests in Hr0. simpl in Hr0.
      apply list_elem_of_lookup in Hr0 as [i Hi].
      assert (exists r1, documentRequests w !! i = Some r1 /\
                dr_inlineEditor r0 = dr_inlineEditor r1) as (r1 & Hr1 & E).
      { destruct (decide (k = i)) as [->|Hne].
        - rewrite list_lookup_alter_eq, Hr in Hi. injection Hi as <-. eauto.
        - rewrite list_lookup_alter_ne in Hi by done. eauto. }
      destruct (HD r1) as (wid & Hw & Hlt);
        [apply list_elem_of_lookup; eauto|].
      exists wid. split; [congruence|lia].
    + intros r0 Hr0. simpl in Hr0.
      apply list_elem_of_lookup in Hr0 as [i Hi].
      assert (exists r1, documentRequests w !! i = Some r1 /\
                dr_inlineEditor r0 = dr_inlineEditor r1) as (r1 & Hr1 & E).
      { destruct (decide (k = i)) as [->|Hne].
        - rewrite list_lookup_alter_eq, Hr in Hi. injection Hi as <-. eauto.
        - rewrite list_lookup_alter_ne in Hi by done. eauto. }
      destruct (HD r1) as (wid & Hw & Hlt);
        [apply list_elem_of_lookup; eauto|].
      exists wid. split; [congruence|exact Hlt].
  - destruct Ha as [w c|w t|w host sel|w sid s found Hs Hl|w sid s Hs Hl
                   |w sid s infos Hs Hfl|w sid s path Hs Hbt|w sid
                   |w sid s b Hs Hbt Hen Hlen' Hdd|w k r doc Hr Hst
                   |w k r Hr Hst|w ranges];
      rewrite ?addRule_done_handlers;
      try (split; [exact HN|]; intros e He; specialize (HE e He);
           simpl in *; lia).
    simpl. split.
    + rewrite fmap_app. apply NoDup_app. split; [done|]. split.
      * intros x Hx. simpl. intros Hx'%list_elem_of_singleton.
        apply list_elem_of_fmap in Hx as (e & -> & He).
        specialize (HE e He). lia.
      * simpl. apply NoDup_singleton.
    + intros e He. rewrite length_app. simpl.
      apply elem_of_app in He as [He|He%list_elem_of_singleton].
      * specialize (HE e He). lia.
      * subst e. simpl. lia.
Qed.

Lemma initial_ok : world_ok initial.
Proof.
  repeat split; simpl; try done.
  - intros r Hr. by apply not_elem_of_nil in Hr.
  - apply NoDup_nil_2.
  - intros e He. by apply not_elem_of_nil in He.
Qed.

(** Every world reached from the initial one is well formed. *)
Lemma reachable_ok (evs : list Event) : world_ok (run initial evs).
Proof.
  apply reachable_ind; [apply initial_ok|]. intros w w'. apply atomic_ok.
Qed.

End WorldOk.

(** ** What the callbacks leave alone *)

Section Frames.
Context `{Ext : Collaborators}.

Lemma move_focus_sessions (t : option nat) (w : World) :
  sessions (move_focus t w) = sessions w.
Proof. by destruct (move_focus_shape t w) as [c ->]. Qed.

Lemma move_focus_requests (t : option nat) (w : World) :
  documentRequests (move_focus t w) = documentRequests w.
Proof. by destruct (move_focus_shape t w) as [c ->]. Qed.

Lemma rules_fail_eq (sid : nat) (w : World) :
  rules_fail sid (settle_lookup sid w)
  = update_session sid failed
      (perform (ConsoleLog "Error in findMatchingRules()") w).
Proof.
  unfold rules_fail, settle_lookup, update_session, perform, set_effects,
    set_sessions. simpl. f_equal. by rewrite list_alter_alter_eq.
Qed.

(** The file list's callback changes its session, and besides that only
    the focus and the command's enablement. *)
Lemma fileInfos_done_shape (sid : nat) (s : Session)
    (fileInfos : list FileInfo) (w : World) :
  sessions w !! sid = Some s ->
  exists c t,
    fileInfos_done sid fileInfos (settle_fileList sid w)
    = setEnabled c (set_focus t (update_session sid (listed fileInfos) w)).
Proof.
  intros Hs. unfold fileInfos_done. cbv zeta.
  assert (Hs1 :
    sessions (update_session sid (set_cssFileInfos fileInfos)
                (settle_fileList sid w)) !! sid
    = Some (set_cssFileInfos fileInfos (set_fileList (Some Settled) s))).
  { unfold settle_fileList, update_session. simpl.
    by rewrite !list_lookup_alter_eq, Hs. }
  rewrite Hs1. simpl cssFileInfos. simpl rules. simpl cssInlineEditor.
  assert (Hstay : forall w0 : World,
            w0 = setEnabled (_newRuleCmd w0) (set_focus (focus w0) w0))
    by (by intros []).
  unfold settle_fileList, listed. cbv zeta.
  destruct (0 <? length fileInfos)%nat, (1 <? length fileInfos)%nat,
    (rules s); rewrite ?update_session_twice;
    repeat match goal with
    | |- context [move_focus ?t ?w0] =>
        destruct (move_focus_shape t w0) as [? ->]
    end;
    match goal with
    | |- context [_updateCommands sid ?w0] =>
        destruct (updateCommands_shape sid w0) as [c ->]
    end.
  all: exists c.
  all: try (exists (focus w); destruct w; reflexivity).
  all: match goal with
       | |- context [set_focus ?t _] => exists t
       end;
       unfold update_session, setEnabled, set_focus, set_sessions; simpl;
       rewrite ?list_alter_alter_eq; reflexivity.
Qed.

(** A property of one session that no change of a session breaks holds
    of that session after any events. *)
Lemma run_session_stable (Q : Session -> Prop) :
  (forall s s', Q s -> session_step s s' -> Q s') ->
  forall evs w sid s,
    sessions w !! sid = Some s -> Q s ->
    exists s', sessions (run w evs) !! sid = Some s' /\ Q s'.
Proof.
  intros HQ evs w sid s Hs Hq.
  pose proof (run_atomic w evs) as Hr.
  revert s Hs Hq. induction Hr as [w|w w' w'' Ha _ IH]; intros s Hs Hq.
  - eauto.
  - destruct (atomic_session_after w w' sid s Ha Hs) as (s' & Hs' & Hc).
    apply (IH s' Hs'). destruct Hc as [->|Hstep]; [done|]. by eapply HQ.
Qed.

Lemma find_unique (l : list HandlerEntry) (e : HandlerEntry) :
  NoDup (inlineEditor <$> l) ->
  e ∈ l ->
  List.find (fun entry => Nat.eqb (inlineEditor entry) (inlineEditor e)) l
  = Some e.
Proof.
  induction l as [|x l IH]; intros Hnd He; [by apply not_elem_of_nil in He|].
  rewrite fmap_cons in Hnd. apply NoDup_cons in Hnd as [Hx Hnd].
  simpl. destruct (Nat.eqb (inlineEditor x) (inlineEditor e)) eqn:E.
  - apply Nat.eqb_eq in E.
    apply elem_of_cons in He as [->|He]; [done|].
    exfalso. apply Hx. rewrite E. apply list_elem_of_fmap. eauto.
  - apply elem_of_cons in He as [->|He]; [|by apply IH].
    by rewrite Nat.eqb_refl in E.
Qed.

Lemma find_none (l : list HandlerEntry) (focused : nat) :
  (forall e, e ∈ l -> inlineEditor e <> focused) ->
  List.find (fun entry => Nat.eqb (inlineEditor entry) focused) l = None.
Proof.
  induction l as [|x l IH]; intros Hall; [done|]. simpl.
  destruct (Nat.eqb (inlineEditor x) focused) eqn:E.
  - apply Nat.eqb_eq in E. exfalso. eapply Hall; [|exact E]. left.
  - apply IH. intros e He. apply Hall. by right.
Qed.

End Frames.

(** ** The provider and its callbacks *)

(** C3.  When the language at the selection is not HTML, or the selection
    starts and ends on different lines, or the resolver finds no selector
    at the start of the selection, the provider returns null at once and
    leaves the world as it was: no session, no request, no widget.  The
    position it is passed plays no part. *)
Theorem provider_declines `{Ext : Collaborators} (host : HostEditor)
    (p : Pos) (w : World) :
  languageId host <> "html" \/
  line (start (getSelection host)) <> line (end_ (getSelection host)) \/
  _getSelectorName host (start (getSelection host)) = "" ->
  htmlToCSSProvider host p w = (None, w) /\
  step w (Provide host p) = w.
Proof.
  intros Hcase.
  enough (htmlToCSSProvider host p w = (None, w)) as E
    by (split; [done|]; simpl; by rewrite E).
  unfold htmlToCSSProvider.
  destruct Hcase as [Hl|[Hl|Hl]].
  - by rewrite (proj2 (String.eqb_neq _ _) Hl).
  - destruct (negb (String.eqb _ _)); [done|]. cbv zeta.
    by rewrite (proj2 (Z.eqb_neq _ _) Hl).
  - destruct (negb (String.eqb _ _)); [done|]. cbv zeta.
    destruct (negb (_ =? _)); [done|]. by rewrite Hl.
Qed.

Lemma provider_declines_witness :
  htmlToCSSProvider Demo.two_line_host Demo.origin initial = (None, initial)
  /\ step (Ext := Demo.collaborators) initial
       (Provide Demo.two_line_host Demo.origin) = initial.
Proof.
  apply (provider_declines (Ext := Demo.collaborators)
           Demo.two_line_host Demo.origin initial).
  right. left. simpl. lia.
Defined.

Section ClickFacts.
Context `{Ext : Collaborators}.

Lemma click_is_handler (sid : nat) (w : World) :
  step w (ButtonClick sid) = fst (_handleNewRuleClick sid true w).
Proof. reflexivity. Qed.

Lemma handler_enabled (sid : nat) (s : Session) (b : Button) (e : bool)
    (w : World) :
  sessions w !! sid = Some s ->
  newRuleButton s = Some b ->
  hasClass "disabled" b = false ->
  fst (_handleNewRuleClick sid e w)
  = if (length (cssFileInfos s) =? 1)%nat then
      match cssFileInfos s !! 0%nat with
      | Some fi =>
          _addRule (selectorName s) (cssInlineEditor s) (fullPath fi) w
      | None => w
      end
    else
      match dropdown s with
      | Some _ => _closeDropdown sid w
      | None => _showDropdown sid w
      end.
Proof.
  intros Hs Hb Hen. unfold _handleNewRuleClick. by rewrite Hs, Hb, Hen.
Qed.

Lemma handler_disabled (sid : nat) (s : Session) (b : Button) (e : bool)
    (w : World) :
  sessions w !! sid = Some s ->
  newRuleButton s = Some b ->
  hasClass "disabled" b = true ->
  fst (_handleNewRuleClick sid e w) = w.
Proof.
  intros Hs Hb Hdis. unfold _handleNewRuleClick. by rewrite Hs, Hb, Hdis.
Qed.

Lemma showDropdown_session (sid : nat) (s : Session) (w : World) :
  sessions w !! sid = Some s ->
  sessions (_showDropdown sid w) !! sid = Some (shown s) /\
  documentRequests (_showDropdown sid w) = documentRequests w.
Proof.
  intros Hs. unfold _showDropdown. rewrite Hs. cbv zeta.
  rewrite move_focus_sessions, move_focus_requests. split; [|done].
  unfold update_session. simpl.
  by rewrite !list_lookup_alter_eq, Hs.
Qed.

Lemma cleanupDropdown_session (sid : nat) (s : Session) (w : World) :
  sessions w !! sid = Some s ->
  sessions (_cleanupDropdown sid w) !! sid = Some (closed s) /\
  documentRequests (_cleanupDropdown sid w) = documentRequests w.
Proof.
  intros Hs. unfold _cleanupDropdown. cbv zeta.
  rewrite move_focus_sessions, move_focus_requests. split; [|done].
  unfold update_session. simpl.
  by rewrite !list_lookup_alter_eq, Hs.
Qed.

End ClickFacts.

(** C4 (as amended).  After any events, a click on a new-rule button that
    is not disabled does this.  With exactly one stylesheet it calls
    [_addRule] with that stylesheet's path and does nothing else, and the
    session has no picker.  With two or more the button carries the
    class btn-dropdown and the click starts no rule creation: when no
    picker is open it opens one that lists all the stylesheets, when one
    is open it closes it. *)
Theorem click_on_enabled_button `{Ext : Collaborators} (evs : list Event)
    (sid : nat) (s : Session) (b : Button) :
  let w := run initial evs in
  sessions w !! sid = Some s ->
  newRuleButton s = Some b ->
  hasClass "disabled" b = false ->
  (length (cssFileInfos s) = 1%nat ->
     exists fi,
       cssFileInfos s = [fi] /\
       step w (ButtonClick sid)
       = _addRule (selectorName s) (cssInlineEditor s) (fullPath fi) w /\
       dropdown s = None) /\
  ((2 <= length (cssFileInfos s))%nat ->
     hasClass "btn-dropdown" b = true /\
     documentRequests (step w (ButtonClick sid)) = documentRequests w /\
     exists s',
       sessions (step w (ButtonClick sid)) !! sid = Some s' /\
       dropdown s'
       = match dropdown s with
         | None => Some (_renderList (cssFileInfos s))
         | Some _ => None
         end).
Proof.
  intros w Hs Hb Hen.
  destruct (reachable_ok evs) as (HS & _). fold w in HS.
  destruct (HS sid s Hs) as [Hok _]. unfold session_ok in Hok.
  rewrite Hb in Hok.
  destruct Hok as (Hl & Hc & Hf & Hi & Hdis & Hbtn & Hh & Hd).
  rewrite click_is_handler, (handler_enabled sid s b true w Hs Hb Hen).
  split.
  - intros Hlen. rewrite Hlen. simpl.
    destruct (cssFileInfos s) as [|fi [|? ?]] eqn:E; try done.
    exists fi. simpl. repeat split.
    destruct (dropdown s) as [d|]; [|done].
    destruct (Hd d eq_refl) as [_ Hle]. simpl in Hle. lia.
  - intros Hlen.
    replace (length (cssFileInfos s) =? 1)%nat with false
      by (symmetry; apply Nat.eqb_neq; lia).
    split; [rewrite Hbtn; apply Nat.ltb_lt; lia|].
    destruct (dropdown s) as [d|] eqn:Hdd.
    + unfold _closeDropdown. rewrite Hs, Hh.
      destruct (cleanupDropdown_session sid s w Hs) as [-> ->].
      split; [done|]. by exists (closed s).
    + destruct (showDropdown_session sid s w Hs) as [-> ->].
      split; [done|]. by exists (shown s).
Qed.


Lemma click_on_enabled_button_witness :
  let w := run (Ext := Demo.collaborators) initial Demo.with_two_stylesheets in
  exists s',
    sessions (step (Ext := Demo.collaborators) w (ButtonClick 0%nat)) !! 0%nat
    = Some s' /\
    dropdown s' = Some (_renderList [Demo.main_css; Demo.print_css]).
Proof.
  assert (Hs : sessions (run (Ext := Demo.collaborators) initial
                           Demo.with_two_stylesheets) !! 0%nat
               = Some (Demo.session_after Demo.with_two_stylesheets))
    by (vm_compute; reflexivity).
  assert (Hb : newRuleButton (Demo.session_after Demo.with_two_stylesheets)
               = Some (Demo.button_after Demo.with_two_stylesheets))
    by (vm_compute; reflexivity).
  assert (Hen : hasClass "disabled"
                  (Demo.button_after Demo.with_two_stylesheets) = false)
    by (vm_compute; reflexivity).
  pose proof (click_on_enabled_button (Ext := Demo.collaborators)
              Demo.with_two_stylesheets 0%nat _ _ Hs Hb Hen) as HH.
  destruct HH as [_ Hmany].
  destruct Hmany as (_ & _ & s' & Hs' & Hd).
  { vm_compute. lia. }
  exists s'. split; [exact Hs'|]. rewrite Hd. vm_compute. reflexivity.
Defined.

(** C4, the claim as it is written, fails: with two stylesheets and the
    picker open, a click on the enabled button does not open the picker,
    it closes it, and nothing is rendered. *)
Lemma click_on_open_picker_counterexample :
  let evs := Demo.with_two_stylesheets ++ [ButtonClick 0%nat] in
  let w := run (Ext := Demo.collaborators) initial evs in
  let w' := step (Ext := Demo.collaborators) w (ButtonClick 0%nat) in
  sessions w !! 0%nat = Some (Demo.session_after evs) /\
  newRuleButton (Demo.session_after evs) = Some (Demo.button_after evs) /\
  hasClass "disabled" (Demo.button_after evs) = false /\
  cssFileInfos (Demo.session_after evs) = [Demo.main_css; Demo.print_css] /\
  dropdown (Demo.session_after evs)
  = Some (_renderList [Demo.main_css; Demo.print_css]) /\
  dropdown <$> sessions w' !! 0%nat = Some None /\
  effects w' = effects w /\
  documentRequests w' = [].
Proof.
  cbv zeta.
  split; [vm_compute; reflexivity|]. split; [vm_compute; reflexivity|].
  split; [vm_compute; reflexivity|]. split; [vm_compute; reflexivity|].
  split; [vm_compute; reflexivity|]. split; [vm_compute; reflexivity|].
  split; vm_compute; reflexivity.
Qed.

(** ** Sessions that stay as they are *)

Lemma disabled_for_good_stable (s s' : Session) :
  disabled_for_good s -> session_step s s' -> disabled_for_good s'.
Proof.
  intros (Hl & Hf & Hi & b & Hb & Hdis) Hstep.
  destruct Hstep as [s wid found Hl'|s Hl'|s infos Hfl|s|s b' Hb' Hen Hlen Hdd];
    try congruence.
  by repeat split; eauto.
Qed.

Lemma declined_stable (s s' : Session) :
  declined s -> session_step s s' -> declined s'.
Proof.
  intros (Hl & Hf & Hr & Hc & Hb) Hstep.
  destruct Hstep as [s wid found Hl'|s Hl'|s infos Hfl|s|s b' Hb' Hen Hlen Hdd];
    try congruence.
  by repeat split.
Qed.

(** C5.  While a session waits for the list of stylesheets its button is
    disabled, as it was made; and when the list arrives empty the button
    is disabled after that event and after any further events, with no
    query for the list left outstanding.  The rules the lookup returned
    play no part. *)
Theorem no_stylesheets_button_stays_disabled `{Ext : Collaborators}
    (evs1 evs2 : list Event) (sid : nat) :
  let w1 := run initial evs1 in
  sessions w1 !! sid ≫= fileList = Some InFlight ->
  (exists s1 b1,
     sessions w1 !! sid = Some s1 /\ newRuleButton s1 = Some b1 /\
     hasClass "disabled" b1 = true) /\
  (exists s b,
     sessions (run w1 (FileInfosArrived sid [] :: evs2)) !! sid = Some s /\
     newRuleButton s = Some b /\ hasClass "disabled" b = true /\
     cssFileInfos s = [] /\ fileList s = Some Settled).
Proof.
  intros w1 Hfl.
  destruct (sessions w1 !! sid) as [s1|] eqn:Hs1; [|done]. simpl in Hfl.
  destruct (reachable_ok evs1) as (HS & _). fold w1 in HS.
  destruct (HS sid s1 Hs1) as [Hok _]. unfold session_ok in Hok.
  destruct (newRuleButton s1) as [b1|] eqn:Hb1.
  2:{ destruct Hok as (_ & _ & _ & Hnone & _). congruence. }
  destruct Hok as (Hl & Hc & Hf & Hi & Hdis & Hbtn & Hh & Hd).
  rewrite (Hi Hfl) in Hdis. simpl in Hdis.
  split; [by exists s1, b1|].
  change (run w1 (FileInfosArrived sid [] :: evs2))
    with (run (step w1 (FileInfosArrived sid [])) evs2).
  assert (Hs2 : sessions (step w1 (FileInfosArrived sid [])) !! sid
                = Some (listed [] s1)).
  { simpl. rewrite Hs1. simpl. rewrite Hfl.
    destruct (fileInfos_done_shape sid s1 [] w1 Hs1) as (c & t & ->).
    unfold update_session. simpl. by rewrite list_lookup_alter_eq, Hs1. }
  destruct (run_session_stable disabled_for_good disabled_for_good_stable
              evs2 _ sid _ Hs2) as (s & Hs & Hl' & Hf' & Hi' & b & Hb & Hdis').
  { repeat split; try done. exists b1. by split. }
  by exists s, b.
Qed.

Lemma no_stylesheets_button_stays_disabled_witness :
  exists s b,
    sessions
      (run (Ext := Demo.collaborators)
         (run (Ext := Demo.collaborators) initial Demo.opened)
         (FileInfosArrived 0%nat []
          :: [ButtonClick 0%nat; FocusMoved (Some 0%nat); NewRuleCommand]))
    !! 0%nat = Some s /\
    newRuleButton s = Some b /\ hasClass "disabled" b = true /\
    cssFileInfos s = [] /\ fileList s = Some Settled.
Proof.
  apply (no_stylesheets_button_stays_disabled (Ext := Demo.collaborators)
           Demo.opened
           [ButtonClick 0%nat; FocusMoved (Some 0%nat); NewRuleCommand]
           0%nat).
  vm_compute. reflexivity.
Defined.

(** C6.  When the lookup of a session fails, the failure is logged, the
    promise the provider returned is rejected, and nothing else changes:
    no widget is made, no handler registered, no request issued.  After
    any further events the session still has no widget and no button,
    its promise is still rejected and it waits for nothing. *)
Theorem lookup_failure_rejects `{Ext : Collaborators}
    (evs evs2 : list Event) (sid : nat) (s : Session) :
  let w := run initial evs in
  sessions w !! sid = Some s ->
  lookup s = InFlight ->
  let w' := step w (RulesFailed sid) in
  w' = update_session sid failed
         (perform (ConsoleLog "Error in findMatchingRules()") w) /\
  result <$> sessions w' !! sid = Some Rejected /\
  widgets w' = widgets w /\
  _newRuleHandlers w' = _newRuleHandlers w /\
  documentRequests w' = documentRequests w /\
  effects w' = effects w ++ [ConsoleLog "Error in findMatchingRules()"] /\
  exists s',
    sessions (run w' evs2) !! sid = Some s' /\
    result s' = Rejected /\ cssInlineEditor s' = None /\
    newRuleButton s' = None /\ lookup s' = Settled /\ fileList s' = None.
Proof.
  intros w Hs Hl w'.
  assert (E : w' = update_session sid failed
                     (perform (ConsoleLog "Error in findMatchingRules()") w)).
  { subst w'. simpl. rewrite Hs. simpl. rewrite Hl. apply rules_fail_eq. }
  assert (Hs' : sessions w' !! sid = Some (failed s)).
  { rewrite E. unfold update_session. simpl.
    by rewrite list_lookup_alter_eq, Hs. }
  split; [exact E|]. split; [by rewrite Hs'|].
  rewrite E at 1 2 3 4. repeat split.
  destruct (reachable_ok evs) as (HS & _). fold w in HS.
  destruct (HS sid s Hs) as [Hok _]. unfold session_ok in Hok.
  destruct (newRuleButton s) as [b|] eqn:Hb.
  { destruct Hok as (Hl' & _). congruence. }
  destruct Hok as (Hi & Hd & Hh & Hf & Hc & Hr).
  destruct (run_session_stable declined declined_stable evs2 w' sid _ Hs')
    as (s' & Hs2 & Hl2 & Hf2 & Hr2 & Hc2 & Hb2).
  { by repeat split. }
  by exists s'.
Qed.

Lemma lookup_failure_rejects_witness :
  let w := run (Ext := Demo.collaborators) initial
             [Provide Demo.modal_host Demo.origin] in
  let w' := step (Ext := Demo.collaborators) w (RulesFailed 0%nat) in
  result <$> sessions w' !! 0%nat = Some Rejected /\
  widgets w' = [] /\
  effects w' = [ConsoleLog "Error in findMatchingRules()"].
Proof.
  destruct (lookup_failure_rejects (Ext := Demo.collaborators)
              [Provide Demo.modal_host Demo.origin] [] 0%nat
              (new_session Demo.modal_host ".modal"))
    as (_ & Hr & Hw & _ & _ & He & _).
  - vm_compute. reflexivity.
  - reflexivity.
  - cbv zeta. split; [exact Hr|]. split; [by rewrite Hw|by rewrite He].
Defined.

(** ** The command, rule creation and the disabled button *)

(** C7.  After any events, the command looks at the registry: when an
    entry's widget has the focus the command does what that entry's
    handler does, called without an event, and nothing more; when no
    entry's widget has the focus (nothing is focused, or the focused
    widget is not in the registry) the command changes nothing. *)
Theorem command_dispatches_to_focused `{Ext : Collaborators}
    (evs : list Event) :
  let w := run initial evs in
  (forall entry,
     entry ∈ _newRuleHandlers w ->
     hasFocus (inlineEditor entry) w = true ->
     step w NewRuleCommand
     = fst (_handleNewRuleClick (handler entry) false w)) /\
  ((forall entry,
      entry ∈ _newRuleHandlers w ->
      hasFocus (inlineEditor entry) w = false) ->
   step w NewRuleCommand = w).
Proof.
  intros w. simpl. unfold _handleNewRule, getFocusedMultiRangeInlineEditor.
  destruct (reachable_ok evs) as (_ & _ & HN & _). fold w in HN.
  split.
  - intros entry He Hf. unfold hasFocus in Hf.
    apply bool_decide_eq_true in Hf. rewrite Hf.
    by rewrite (find_unique _ entry HN He).
  - intros Hnone. destruct (focus w) as [focused|] eqn:Hf; [|done].
    rewrite find_none; [done|].
    intros e He Heq. specialize (Hnone e He). unfold hasFocus in Hnone.
    apply bool_decide_eq_false in Hnone. congruence.
Qed.

Lemma command_dispatches_to_focused_witness :
  let w := run (Ext := Demo.collaborators) initial
             (Demo.with_one_stylesheet ++ [FocusMoved (Some 0%nat)]) in
  documentRequests (step (Ext := Demo.collaborators) w NewRuleCommand)
  = [{| dr_selectorName := ".modal"; dr_inlineEditor := Some 0%nat;
        dr_path := "/site/css/main.css"; dr_state := InFlight |}].
Proof.
  cbv zeta.
  destruct (command_dispatches_to_focused (Ext := Demo.collaborators)
              (Demo.with_one_stylesheet ++ [FocusMoved (Some 0%nat)]))
    as [Hfocused _].
  rewrite (Hfocused {| inlineEditor := 0%nat; handler := 0%nat |}).
  - vm_compute. reflexivity.
  - vm_compute. apply list_elem_of_here.
  - vm_compute. reflexivity.
Defined.

(** C8.  After any events, when the document of a rule-creation request
    arrives, the rule is inserted and the widget of the request gets one
    more range, for the selector and the document, from the first to the
    last line of the range the insertion returned; that range is the
    selected one, and the caret of the widget's editor is at the position
    the insertion returned. *)
Theorem rule_creation_shows_new_range `{Ext : Collaborators}
    (evs : list Event) (k : nat) (r : DocumentRequest) (styleDoc : Document) :
  let w := run initial evs in
  documentRequests w !! k = Some r ->
  dr_state r = InFlight ->
  let newRuleInfo :=
    addRuleToDocument styleDoc (dr_selectorName r)
      getUseTabChar getSpaceUnits in
  let w' := step w (DocumentLoaded k styleDoc) in
  exists wid wd wd',
    dr_inlineEditor r = Some wid /\
    widgets w !! wid = Some wd /\
    widgets w' !! wid = Some wd' /\
    w_ranges wd'
    = w_ranges wd ++
        [{| range_name := dr_selectorName r; range_document := styleDoc;
            range_lineStart := line (from (range newRuleInfo));
            range_lineEnd := line (to (range newRuleInfo)) |}] /\
    w_selected wd' = Some (length (w_ranges wd)) /\
    w_cursor wd' = Some (pos newRuleInfo) /\
    effects w'
    = effects w ++ [AddRuleToDocument styleDoc (dr_selectorName r)].
Proof.
  intros w Hr Hst newRuleInfo w'.
  destruct (reachable_ok evs) as (_ & HD & _). fold w in HD.
  destruct (HD r) as (wid & Hwid & Hlt);
    [apply list_elem_of_lookup; eauto|].
  destruct (lookup_lt_is_Some_2 (widgets w) wid Hlt) as [wd Hwd].
  exists wid, wd,
    (setCursorPos (line (pos newRuleInfo)) (ch (pos newRuleInfo))
       (addAndSelectRange (dr_selectorName r) styleDoc
          (line (from (range newRuleInfo)))
          (line (to (range newRuleInfo))) wd)).
  split; [done|]. split; [done|].
  assert (E : w' = _addRule_done r styleDoc (settle_document k w)).
  { subst w'. simpl. by rewrite Hr, Hst. }
  rewrite E. unfold _addRule_done. rewrite Hwid. cbv zeta.
  fold newRuleInfo. split.
  { unfold update_widget. simpl.
    by rewrite !list_lookup_alter_eq, Hwd. }
  simpl. repeat split. by destruct (pos newRuleInfo).
Qed.

Lemma rule_creation_shows_new_range_witness :
  let w := run (Ext := Demo.collaborators) initial
             (Demo.with_one_stylesheet ++ [ButtonClick 0%nat]) in
  let w' := step (Ext := Demo.collaborators) w
              (DocumentLoaded 0%nat Demo.main_css_doc) in
  exists wd',
    widgets w' !! 0%nat = Some wd' /\
    w_ranges wd'
    = [{| range_name := ".modal"; range_document := Demo.main_css_doc;
          range_lineStart := 19; range_lineEnd := 21 |}] /\
    w_selected wd' = Some 0%nat /\
    w_cursor wd' = Some {| line := 20; ch := 4 |}.
Proof.
  cbv zeta.
  destruct (rule_creation_shows_new_range (Ext := Demo.collaborators)
              (Demo.with_one_stylesheet ++ [ButtonClick 0%nat]) 0%nat
              {| dr_selectorName := ".modal"; dr_inlineEditor := Some 0%nat;
                 dr_path := "/site/css/main.css"; dr_state := InFlight |}
              Demo.main_css_doc)
    as (wid & wd & wd' & Hwid & Hwd & Hwd' & Hr & Hsel & Hcur & _).
  - vm_compute. reflexivity.
  - reflexivity.
  - injection Hwid as <-.
    assert (w_ranges wd = []) as Hnil.
    { assert (Some wd = Some (default wd (Some wd))) as Hd by done.
      rewrite <- Hwd in Hd at 2. vm_compute in Hd. by injection Hd as ->. }
    exists wd'. split; [exact Hwd'|].
    rewrite Hr, Hsel, Hcur, Hnil. vm_compute. repeat split.
Defined.

(** C9.  When the document of a rule-creation request cannot be
    obtained, nothing runs: the request is settled and that is all.  No
    rule is inserted, nothing is logged, the widgets and the sessions
    are as before, and the request never completes afterwards. *)
Theorem document_failure_is_silent `{Ext : Collaborators} (w : World)
    (k : nat) (r : DocumentRequest) :
  documentRequests w !! k = Some r ->
  dr_state r = InFlight ->
  let w' := step w (DocumentFailed k) in
  w' = settle_document k w /\
  widgets w' = widgets w /\
  sessions w' = sessions w /\
  effects w' = effects w /\
  _newRuleHandlers w' = _newRuleHandlers w /\
  documentRequests w' = <[k := set_dr_state Settled r]> (documentRequests w) /\
  (forall styleDoc, step w' (DocumentLoaded k styleDoc) = w') /\
  step w' (DocumentFailed k) = w'.
Proof.
  intros Hr Hst w'.
  assert (E : w' = settle_document k w).
  { subst w'. simpl. by rewrite Hr, Hst. }
  assert (Hk : documentRequests w' !! k = Some (set_dr_state Settled r)).
  { rewrite E. simpl. by rewrite list_lookup_alter_eq, Hr. }
  split; [exact E|]. rewrite E at 1 2 3 4 5. repeat split.
  - simpl. apply list_eq. intros i.
    destruct (decide (k = i)) as [->|Hne].
    + rewrite list_lookup_alter_eq, Hr, list_lookup_insert_eq; [done|].
      by eapply lookup_lt_Some.
    + by rewrite list_lookup_alter_ne, list_lookup_insert_ne.
  - intros styleDoc. simpl. by rewrite Hk.
  - simpl. by rewrite Hk.
Qed.

Lemma document_failure_is_silent_witness :
  let w := run (Ext := Demo.collaborators) initial
             (Demo.with_one_stylesheet ++ [ButtonClick 0%nat]) in
  let w' := step (Ext := Demo.collaborators) w (DocumentFailed 0%nat) in
  widgets w' = widgets w /\ effects w' = effects w.
Proof.
  cbv zeta.
  destruct (document_failure_is_silent (Ext := Demo.collaborators)
              (run (Ext := Demo.collaborators) initial
                 (Demo.with_one_stylesheet ++ [ButtonClick 0%nat]))
              0%nat
              {| dr_selectorName := ".modal"; dr_inlineEditor := Some 0%nat;
                 dr_path := "/site/css/main.css"; dr_state := InFlight |})
    as (_ & Hw & _ & He & _).
  - vm_compute. reflexivity.
  - reflexivity.
  - split; [exact Hw | exact He].
Defined.

(** C10.  While the button of a session carries the class disabled, its
    handler changes nothing, whether a click on the button calls it or
    the command routes to it. *)
Theorem disabled_handler_is_noop `{Ext : Collaborators} (w : World)
    (sid : nat) (s : Session) (b : Button) :
  sessions w !! sid = Some s ->
  newRuleButton s = Some b ->
  hasClass "disabled" b = true ->
  step w (ButtonClick sid) = w /\
  (forall e, fst (_handleNewRuleClick sid e w) = w) /\
  (forall focused entry,
     getFocusedMultiRangeInlineEditor w = Some focused ->
     List.find (fun entry => Nat.eqb (inlineEditor entry) focused)
       (_newRuleHandlers w) = Some entry ->
     handler entry = sid ->
     step w NewRuleCommand = w).
Proof.
  intros Hs Hb Hdis.
  assert (Hnoop : forall e, fst (_handleNewRuleClick sid e w) = w)
    by (intros e; by eapply handler_disabled).
  split; [apply Hnoop|]. split; [exact Hnoop|].
  intros focused entry Hf Hfind Hh. simpl. unfold _handleNewRule.
  rewrite Hf, Hfind, Hh. apply Hnoop.
Qed.

Lemma disabled_handler_is_noop_witness :
  let w := run (Ext := Demo.collaborators) initial
             (Demo.opened ++ [FocusMoved (Some 0%nat)]) in
  step (Ext := Demo.collaborators) w (ButtonClick 0%nat) = w /\
  step (Ext := Demo.collaborators) w NewRuleCommand = w.
Proof.
  cbv zeta.
  destruct (disabled_handler_is_noop (Ext := Demo.collaborators)
              (run (Ext := Demo.collaborators) initial
                 (Demo.opened ++ [FocusMoved (Some 0%nat)]))
              0%nat
              (Demo.session_after (Demo.opened ++ [FocusMoved (Some 0%nat)]))
              new_button)
    as (Hclick & _ & Hcmd).
  - vm_compute. reflexivity.
  - vm_compute. reflexivity.
  - reflexivity.
  - split; [exact Hclick|].
    apply (Hcmd 0%nat {| inlineEditor := 0%nat; handler := 0%nat |});
      vm_compute; reflexivity.
Defined.

(** ** More about the resolver and the provider *)

(** X1.  On a tag name or a closing tag the resolver returns the tag name as
    the tokenizer gives it, with nothing put before it. *)
Theorem tag_selector_is_tag_name (editor : HostEditor) (p : Pos) :
  let tagInfo := getTagInfo editor p in
  tokenType (position tagInfo) = TAG_NAME \/
    tokenType (position tagInfo) = CLOSING_TAG ->
  _getSelectorName editor p = tagName tagInfo.
Proof.
  intros tagInfo Hkind. unfold _getSelectorName. fold tagInfo. cbv zeta.
  by destruct Hkind as [-> | ->].
Qed.

Lemma tag_selector_is_tag_name_witness :
  _getSelectorName
    (Demo.html_editor
       {| tagName := "section";
          attr := {| name := "class"; value := "modal" |};
          position := {| tokenType := CLOSING_TAG; offset := 3 |} |})
    Demo.origin
  = "section".
Proof.
  apply (tag_selector_is_tag_name
           (Demo.html_editor
              {| tagName := "section";
                 attr := {| name := "class"; value := "modal" |};
                 position := {| tokenType := CLOSING_TAG; offset := 3 |} |})
           Demo.origin).
  right. reflexivity.
Defined.

(** X2.  Outside tag names, the resolver finds a selector only in the
    attributes class and id: in any other attribute, and on any other
    kind of token, it returns the empty string, whatever the tag name
    and the attribute value are. *)
Theorem no_selector_elsewhere (editor : HostEditor) (p : Pos) :
  let tagInfo := getTagInfo editor p in
  tokenType (position tagInfo) = OTHER \/
  ((tokenType (position tagInfo) = ATTR_NAME \/
    tokenType (position tagInfo) = ATTR_VALUE) /\
   name (attr tagInfo) <> "class" /\ name (attr tagInfo) <> "id") ->
  _getSelectorName editor p = "".
Proof.
  intros tagInfo Hcase. unfold _getSelectorName. fold tagInfo. cbv zeta.
  destruct Hcase as [-> | (Hkind & Hclass & Hid)]; [done|].
  replace (is_tag_token (tokenType (position tagInfo))) with false
    by (by destruct Hkind as [-> | ->]).
  replace (is_attr_token (tokenType (position tagInfo))) with true
    by (by destruct Hkind as [-> | ->]).
  by rewrite (proj2 (String.eqb_neq _ _) Hclass),
    (proj2 (String.eqb_neq _ _) Hid).
Qed.

Lemma no_selector_elsewhere_witness :
  _getSelectorName
    (Demo.html_editor (Demo.in_attribute "href" "main.css" 2)) Demo.origin
  = "".
Proof.
  apply (no_selector_elsewhere
           (Demo.html_editor (Demo.in_attribute "href" "main.css" 2))
           Demo.origin).
  right. split; [by right|]. split; discriminate.
Defined.

(** X3.  The provider goes on exactly when the language is HTML, the
    selection lies on one line and the resolver finds a selector at the
    start of the selection.  It then returns the promise of a new
    session, which holds that selector and waits for the lookup, and it
    changes nothing else; the position it is passed is not looked at. *)
Theorem provider_accepts_exactly (host : HostEditor) (p : Pos) (w : World) :
  let sel := getSelection host in
  let selector := _getSelectorName host (start sel) in
  (languageId host = "html" /\ line (start sel) = line (end_ sel) /\
   selector <> "")
  <->
  htmlToCSSProvider host p w
  = (Some (length (sessions w)),
     set_sessions (sessions w ++ [new_session host selector]) w).
Proof.
  intros sel selector. unfold htmlToCSSProvider. fold sel. fold selector.
  destruct (String.eqb_spec (languageId host) "html") as [Hl|Hl]; simpl.
  2:{ split; [by intros (? & _)|discriminate]. }
  destruct (Z.eqb_spec (line (start sel)) (line (end_ sel))) as [Hs|Hs];
    simpl.
  2:{ split; [by intros (_ & ? & _)|discriminate]. }
  destruct (String.eqb_spec selector "") as [He|He].
  - split; [by intros (_ & _ & ?)|discriminate].
  - by split.
Qed.

(** ** The registry and the listeners *)

Section Bookkeeping.
Context `{Ext : Collaborators}.

Lemma fmap_lookup_alter_same {A B : Type} (g : A -> B) (f : A -> A)
    (i j : nat) (l : list A) :
  (forall x, l !! i = Some x -> g (f x) = g x) ->
  g <$> alter f i l !! j = g <$> l !! j.
Proof.
  intros Hg. destruct (decide (i = j)) as [->|Hne].
  - rewrite list_lookup_alter_eq. destruct (l !! j) as [x|] eqn:E; [|done].
    simpl. f_equal. by apply Hg.
  - by rewrite list_lookup_alter_ne.
Qed.

Lemma listed_dropdown (infos : list FileInfo) (s : Session) :
  dropdown (listed infos s) = dropdown s.
Proof.
  unfold listed. cbv zeta. by repeat (destruct (_ <? _)%nat; simpl).
Qed.

Lemma registry_frame (w w' : World) :
  (forall sid, cssInlineEditor <$> sessions w' !! sid
               = cssInlineEditor <$> sessions w !! sid) ->
  (forall wid, w_focusListeners <$> widgets w' !! wid
               = w_focusListeners <$> widgets w !! wid) ->
  _newRuleHandlers w' = _newRuleHandlers w ->
  registry_ok w -> registry_ok w'.
Proof.
  intros Hs Hw Hh (B1 & B2 & B3). unfold registry_ok.
  rewrite Hh. split; [|split].
  - intros e He. rewrite Hs. by apply B1.
  - intros sid wid. rewrite Hs, Hw. apply B2.
  - intros wid sid ls. rewrite Hs, Hw. apply B3.
Qed.

Lemma pickers_frame (w w' : World) :
  (forall sid, dropdown <$> sessions w' !! sid
               = dropdown <$> sessions w !! sid) ->
  htmlClick w' = htmlClick w ->
  pickers_ok w -> pickers_ok w'.
Proof.
  intros Hs Hc (P1 & P2). unfold pickers_ok. rewrite Hc. split; [|done].
  intros sid. rewrite P1. by setoid_rewrite Hs.
Qed.

Lemma addRule_done_listeners (r : DocumentRequest) (doc : Document)
    (w : World) (wid : nat) :
  w_focusListeners <$> widgets (_addRule_done r doc w) !! wid
  = w_focusListeners <$> widgets w !! wid.
Proof.
  unfold _addRule_done. destruct (dr_inlineEditor r) as [k|]; [|done].
  unfold update_widget. simpl.
  rewrite (fmap_lookup_alter_same w_focusListeners) by done.
  by rewrite (fmap_lookup_alter_same w_focusListeners).
Qed.

Lemma addRule_done_htmlClick (r : DocumentRequest) (doc : Document)
    (w : World) :
  htmlClick (_addRule_done r doc w) = htmlClick w.
Proof. unfold _addRule_done. by destruct (dr_inlineEditor r). Qed.

Lemma in_flight_no_editor (w : World) (sid : nat) (s : Session) :
  world_ok w -> sessions w !! sid = Some s -> lookup s = InFlight ->
  cssInlineEditor s = None.
Proof.
  intros (HS & _) Hs Hl. destruct (HS sid s Hs) as [Hok _].
  unfold session_ok in Hok. destruct (newRuleButton s).
  - destruct Hok as (Hl' & _). congruence.
  - by destruct Hok as (_ & _ & _ & _ & Hc & _).
Qed.

Lemma atomic_registry (w w' : World) :
  atomic w w' -> world_ok w -> registry_ok w -> registry_ok w'.
Proof.
  intros Ha Hok Hreg.
  destruct Ha as [w c|w t|w host sel|w sid s found Hs Hl|w sid s Hs Hl
                 |w sid s infos Hs Hfl|w sid s path Hs Hbt|w sid
                 |w sid s b Hs Hbt Hen Hlen' Hdd|w k r doc Hr Hst
                 |w k r Hr Hst|w ranges];
    try (apply (registry_frame w); [| |reflexivity|exact Hreg];
         intros; simpl; try done;
         rewrite ?addRule_done_sessions, ?addRule_done_listeners; try done;
         apply (fmap_lookup_alter_same cssInlineEditor); intros; simpl;
         by rewrite ?listed_editor);
    [| | |].
  - destruct Hreg as (B1 & B2 & B3). unfold registry_ok. simpl.
    assert (Hnew : forall sid (wid : nat),
      cssInlineEditor <$> (sessions w ++ [new_session host sel]) !! sid
      = Some (Some wid) ->
      cssInlineEditor <$> sessions w !! sid = Some (Some wid)).
    { intros sid wid Hx.
      destruct ((sessions w ++ [new_session host sel]) !! sid) as [x|] eqn:E;
        [|done].
      apply lookup_app_Some in E as [E|[_ E]]; [by rewrite E|].
      apply list_lookup_singleton_Some in E as [_ <-]. done. }
    split; [|split].
    + intros e He. specialize (B1 e He).
      destruct (sessions w !! handler e) as [x|] eqn:E; [|done].
      by rewrite (lookup_app_l_Some _ _ _ _ E).
    + intros sid wid Hx. apply B2. by apply Hnew.
    + intros wid sid ls Hx Hin. specialize (B3 wid sid ls Hx Hin).
      destruct (sessions w !! sid) as [x|] eqn:E; [|done].
      by rewrite (lookup_app_l_Some _ _ _ _ E).
  - pose proof (in_flight_no_editor w sid s Hok Hs Hl) as Hnone.
    destruct Hok as (HS & _ & _ & HE).
    destruct Hreg as (B1 & B2 & B3). unfold registry_ok. simpl.
    assert (Hold : forall sid0,
      sid0 <> sid ->
      cssInlineEditor <$>
        alter (built (length (widgets w)) found) sid (sessions w) !! sid0
      = cssInlineEditor <$> sessions w !! sid0)
      by (intros; by rewrite list_lookup_alter_ne).
    assert (Hsid : cssInlineEditor <$>
        alter (built (length (widgets w)) found) sid (sessions w) !! sid
      = Some (Some (length (widgets w))))
      by (by rewrite list_lookup_alter_eq, Hs).
    split; [|split].
    + intros e He.
      apply elem_of_app in He as [He|He%list_elem_of_singleton].
      * specialize (B1 e He).
        rewrite Hold; [done|]. intros E. rewrite E, Hs in B1.
        simpl in B1. congruence.
      * by subst e.
    + intros sid0 wid Hx. destruct (decide (sid0 = sid)) as [->|Hne].
      * rewrite Hsid in Hx. injection Hx as <-. split.
        -- apply elem_of_app. right. by apply list_elem_of_singleton.
        -- by rewrite lookup_app_r, Nat.sub_diag by lia.
      * rewrite Hold in Hx by done. destruct (B2 sid0 wid Hx) as [Hin Hw].
        split; [apply elem_of_app; by left|].
        destruct (widgets w !! wid) as [wd|] eqn:E; [|done].
        by rewrite (lookup_app_l_Some _ _ _ _ E).
    + intros wid sid0 ls Hx Hin.
      destruct ((widgets w ++ _) !! wid) as [wd|] eqn:E; [|done].
      apply lookup_app_Some in E as [E|[Hge E]].
      * specialize (B3 wid sid0 ls).
        rewrite E in B3. specialize (B3 Hx Hin).
        rewrite Hold; [done|]. intros ->. rewrite Hs in B3. simpl in B3.
        congruence.
      * apply list_lookup_singleton_Some in E as [E <-].
        simpl in Hx. injection Hx as <-.
        apply list_elem_of_singleton in Hin as ->.
        rewrite Hsid. do 2 f_equal. lia.
  - apply (registry_frame w);
      [| |by rewrite addRule_done_handlers|exact Hreg]; intros.
    + by rewrite addRule_done_sessions.
    + by rewrite addRule_done_listeners.
  - destruct Hreg as (B1 & B2 & B3). unfold registry_ok. simpl.
    split; [done|]. split.
    + intros sid wid Hx. destruct (B2 sid wid Hx) as [Hin Hw].
      split; [done|].
      destruct (widgets w !! wid) as [wd|] eqn:E; [|done].
      by rewrite (lookup_app_l_Some _ _ _ _ E).
    + intros wid sid ls Hx Hin.
      destruct ((widgets w ++ _) !! wid) as [wd|] eqn:E; [|done].
      apply lookup_app_Some in E as [E|[Hge E]].
      * apply (B3 wid sid ls); [by rewrite E|done].
      * apply list_lookup_singleton_Some in E as [E <-].
        simpl in Hx. injection Hx as <-. by apply not_elem_of_nil in Hin.
Qed.

Lemma atomic_pickers (w w' : World) :
  atomic w w' -> pickers_ok w -> pickers_ok w'.
Proof.
  intros Ha Hp.
  destruct Ha as [w c|w t|w host sel|w sid s found Hs Hl|w sid s Hs Hl
                 |w sid s infos Hs Hfl|w sid s path Hs Hbt|w sid
                 |w sid s b Hs Hbt Hen Hlen' Hdd|w k r doc Hr Hst
                 |w k r Hr Hst|w ranges];
    try (apply (pickers_frame w);
         [|by rewrite ?addRule_done_htmlClick|exact Hp];
         intros; simpl; rewrite ?addRule_done_sessions; try done;
         apply (fmap_lookup_alter_same dropdown); intros; simpl;
         by rewrite ?listed_dropdown);
    [| |].
  - destruct Hp as (P1 & P2). unfold pickers_ok. simpl. split; [|done].
    intros sid. rewrite P1. split; intros [d Hd]; exists d.
    + destruct (sessions w !! sid) as [x|] eqn:E; [|done].
      by rewrite (lookup_app_l_Some _ _ _ _ E).
    + destruct ((sessions w ++ _) !! sid) as [x|] eqn:E; [|done].
      apply lookup_app_Some in E as [E|[_ E]]; [by rewrite E|].
      apply list_lookup_singleton_Some in E as [_ <-]. done.
  - destruct Hp as (P1 & P2). unfold pickers_ok. simpl. split.
    + intros sid0. rewrite list_elem_of_In, filter_In, <- list_elem_of_In.
      rewrite P1, negb_true_iff, Nat.eqb_neq.
      destruct (decide (sid = sid0)) as [->|Hne].
      * split; [by intros [_ ?]|]. intros [d Hd].
        rewrite list_lookup_alter_eq in Hd.
        by destruct (sessions w !! sid0).
      * rewrite list_lookup_alter_ne by done. split; [by intros [? _]|].
        intros Hd. split; [done|]. congruence.
    + apply NoDup_ListNoDup, List.NoDup_filter. by apply NoDup_ListNoDup.
  - destruct Hp as (P1 & P2). unfold pickers_ok. simpl.
    assert (Hnot : sid ∉ htmlClick w).
    { intros Hin. apply P1 in Hin as [d Hd]. rewrite Hs in Hd.
      simpl in Hd. congruence. }
    split.
    + intros sid0. rewrite elem_of_app, list_elem_of_singleton, P1.
      destruct (decide (sid = sid0)) as [->|Hne].
      * rewrite list_lookup_alter_eq, Hs. simpl. split; [eauto|by right].
      * rewrite list_lookup_alter_ne by done.
        split; [intros [?|?]; [done|congruence]|by left].
    + apply NoDup_app. split; [done|]. split; [|apply NoDup_singleton].
      intros x Hx ->%list_elem_of_singleton. done.
Qed.

(** What holds of the registry and the listeners after any events. *)
Lemma reachable_bookkeeping (evs : list Event) :
  world_ok (run initial evs) /\ registry_ok (run initial evs) /\
  pickers_ok (run initial evs).
Proof.
  apply (reachable_ind
           (fun w => world_ok w /\ registry_ok w /\ pickers_ok w)).
  - split; [apply initial_ok|]. split.
    + repeat split; simpl; try done.
      intros e He. by apply not_elem_of_nil in He.
    + split; [|apply NoDup_nil_2]. intros sid. simpl. split.
      * intros Hin. by apply not_elem_of_nil in Hin.
      * by intros [d Hd].
  - intros w w' Ha (Hok & Hreg & Hp). split; [by eapply atomic_ok|].
    split; [by eapply atomic_registry|by eapply atomic_pickers].
Qed.

End Bookkeeping.

(** ** What the reachable worlds look like *)

(** X4.  When the lookup of a waiting session succeeds, after any events:
    one widget is made, showing the consolidated rules and loaded into
    the host editor; the session's promise is resolved with it; one
    entry, for that widget and that session's handler, is put at the end
    of the registry; the button is there and disabled; the query for the
    stylesheets is out; nothing is logged and no rule creation starts. *)
Theorem lookup_success_builds_widget `{Ext : Collaborators}
    (evs : list Event) (sid : nat) (s : Session) (found : list Rule) :
  let w := run initial evs in
  sessions w !! sid = Some s ->
  lookup s = InFlight ->
  let w' := step w (RulesFound sid found) in
  let wid := length (widgets w) in
  widgets w'
  = widgets w ++
      [{| w_ranges := consolidateRules found; w_selected := None;
          w_cursor := None; w_host := Some (hostEditor s);
          w_focusListeners := [sid] |}] /\
  _newRuleHandlers w'
  = _newRuleHandlers w ++ [{| inlineEditor := wid; handler := sid |}] /\
  (exists s',
     sessions w' !! sid = Some s' /\
     result s' = Resolved wid /\ cssInlineEditor s' = Some wid /\
     newRuleButton s' = Some new_button /\
     hasClass "disabled" new_button = true /\
     fileList s' = Some InFlight /\ cssFileInfos s' = [] /\
     rules s' = found /\ selectorName s' = selectorName s) /\
  effects w' = effects w /\
  documentRequests w' = documentRequests w /\
  focus w' = focus w /\ _newRuleCmd w' = _newRuleCmd w.
Proof.
  intros w Hs Hl w' wid.
  destruct (reachable_ok evs) as (HS & _). fold w in HS.
  destruct (HS sid s Hs) as [Hok _]. unfold session_ok in Hok.
  destruct (newRuleButton s) as [b|] eqn:Hb.
  { destruct Hok as (Hl' & _). congruence. }
  destruct Hok as (Hi & _).
  assert (E : w' = rules_done sid found (settle_lookup sid w)).
  { subst w'. simpl. by rewrite Hs; simpl; rewrite Hl. }
  rewrite E. unfold rules_done.
  rewrite (settle_lookup_session sid s w Hs). cbv zeta. simpl.
  repeat split.
  exists (built wid found s). split.
  - by rewrite !list_lookup_alter_eq, Hs.
  - simpl. by repeat split.
Qed.

Lemma lookup_success_builds_widget_witness :
  let w := run (Ext := Demo.collaborators) initial
             [Provide Demo.modal_host Demo.origin] in
  let w' := step (Ext := Demo.collaborators) w (RulesFound 0%nat []) in
  _newRuleHandlers w' = [{| inlineEditor := 0%nat; handler := 0%nat |}] /\
  result <$> sessions w' !! 0%nat = Some (Resolved 0%nat).
Proof.
  cbv zeta.
  destruct (lookup_success_builds_widget (Ext := Demo.collaborators)
              [Provide Demo.modal_host Demo.origin] 0%nat
              (new_session Demo.modal_host ".modal") [])
    as (_ & Hh & (s' & Hs' & Hr & _) & _).
  - vm_compute. reflexivity.
  - reflexivity.
  - split; [rewrite Hh; vm_compute; reflexivity|].
    rewrite Hs'. simpl. rewrite Hr. vm_compute. reflexivity.
Defined.

Section Growth.
Context `{Ext : Collaborators}.

Lemma atomic_handlers_prefix (w w' : World) :
  atomic w w' -> _newRuleHandlers w `prefix_of` _newRuleHandlers w'.
Proof.
  intros Ha. destruct Ha; simpl; rewrite ?addRule_done_handlers;
    try reflexivity.
  by apply prefix_app_r.
Qed.

Lemma atomic_sessions_length (w w' : World) :
  atomic w w' -> (length (sessions w) <= length (sessions w'))%nat.
Proof.
  intros Ha.
  destruct (atomic_sessions w w' Ha)
    as [->|[(sid0 & f & -> & _)|(host & sel & ->)]];
    rewrite ?length_alter, ?length_app; simpl; lia.
Qed.

End Growth.

(** X5.  The registry, the widgets and the sessions only grow: whatever
    happens, the entries registered so far stay, in their order, and no
    widget and no session goes away. *)
Theorem registry_only_grows `{Ext : Collaborators} (w : World)
    (evs : list Event) :
  _newRuleHandlers w `prefix_of` _newRuleHandlers (run w evs) /\
  (length (widgets w) <= length (widgets (run w evs)))%nat /\
  (length (sessions w) <= length (sessions (run w evs)))%nat.
Proof.
  pose proof (run_atomic w evs) as Hr.
  induction Hr as [w|w w' w'' Ha _ IH]; [done|].
  destruct IH as (Hp & Hw & Hs).
  pose proof (atomic_handlers_prefix w w' Ha).
  pose proof (atomic_widgets_length w w' Ha).
  pose proof (atomic_sessions_length w w' Ha).
  split; [by etransitivity|]. split; lia.
Qed.

(** X6.  After any events the registry matches the widgets the provider
    made: no widget is registered twice; the handler of each entry is
    that of the session that made the entry's widget, and that session
    has its button; and every session that made a widget has its
    entry. *)
Theorem registry_matches_sessions `{Ext : Collaborators}
    (evs : list Event) :
  let w := run initial evs in
  NoDup (inlineEditor <$> _newRuleHandlers w) /\
  (forall e, e ∈ _newRuleHandlers w ->
     (inlineEditor e < length (widgets w))%nat /\
     exists s b,
       sessions w !! handler e = Some s /\
       cssInlineEditor s = Some (inlineEditor e) /\
       newRuleButton s = Some b) /\
  (forall sid s wid,
     sessions w !! sid = Some s -> cssInlineEditor s = Some wid ->
     {| inlineEditor := wid; handler := sid |} ∈ _newRuleHandlers w).
Proof.
  intros w.
  destruct (reachable_bookkeeping evs)
    as ((HS & _ & HN & HE) & (B1 & B2 & _) & _). fold w in HS, HN, HE, B1, B2.
  split; [done|]. split.
  - intros e He. split; [by apply HE|]. specialize (B1 e He).
    destruct (sessions w !! handler e) as [s|] eqn:Hs; [|done].
    injection B1 as Hc. destruct (HS _ s Hs) as [Hok _].
    unfold session_ok in Hok. destruct (newRuleButton s) as [b|] eqn:Hb.
    + by exists s, b.
    + destruct Hok as (_ & _ & _ & _ & Hnone & _). congruence.
  - intros sid s wid Hs Hc. apply (B2 sid wid). by rewrite Hs, <- Hc.
Qed.

(** X7.  After any events the classes of a session's button tell what the
    session knows about the stylesheets: disabled exactly when it knows
    of none, btn-dropdown exactly when it knows of two or more. *)
Theorem button_reflects_stylesheets `{Ext : Collaborators}
    (evs : list Event) (sid : nat) (s : Session) (b : Button) :
  let w := run initial evs in
  sessions w !! sid = Some s ->
  newRuleButton s = Some b ->
  (hasClass "disabled" b = true <-> cssFileInfos s = []) /\
  (hasClass "btn-dropdown" b = true <->
   (2 <= length (cssFileInfos s))%nat).
Proof.
  intros w Hs Hb.
  destruct (reachable_ok evs) as (HS & _). fold w in HS.
  destruct (HS sid s Hs) as [Hok _]. unfold session_ok in Hok.
  rewrite Hb in Hok.
  destruct Hok as (_ & _ & _ & _ & -> & -> & _). split.
  - rewrite Nat.eqb_eq. by destruct (cssFileInfos s).
  - rewrite Nat.ltb_lt. lia.
Qed.

Lemma button_reflects_stylesheets_witness :
  hasClass "disabled" (Demo.button_after Demo.with_two_stylesheets) = false
  /\ hasClass "btn-dropdown" (Demo.button_after Demo.with_two_stylesheets)
     = true.
Proof.
  destruct (button_reflects_stylesheets (Ext := Demo.collaborators)
              Demo.with_two_stylesheets 0%nat
              (Demo.session_after Demo.with_two_stylesheets)
              (Demo.button_after Demo.with_two_stylesheets))
    as [Hdis Hbtn].
  - vm_compute. reflexivity.
  - vm_compute. reflexivity.
  - split.
    + apply not_true_is_false. intros Ht. apply Hdis in Ht.
      vm_compute in Ht. discriminate.
    + apply Hbtn. vm_compute. lia.
Defined.

(** X8.  After any events an open picker belongs to a session that knows of
    two or more stylesheets and whose button is not disabled; it lists
    exactly those stylesheets, its event handler is in place, and the
    session listens to clicks on the page. *)
Theorem open_picker_lists_stylesheets `{Ext : Collaborators}
    (evs : list Event) (sid : nat) (s : Session) (d : Dropdown) :
  let w := run initial evs in
  sessions w !! sid = Some s ->
  dropdown s = Some d ->
  items d = cssFileInfos s /\
  (2 <= length (cssFileInfos s))%nat /\
  dropdownEventHandler s = Some d /\
  (exists b, newRuleButton s = Some b /\ hasClass "disabled" b = false) /\
  sid ∈ htmlClick w.
Proof.
  intros w Hs Hd.
  destruct (reachable_bookkeeping evs) as ((HS & _) & _ & (P1 & _)).
  fold w in HS, P1.
  destruct (HS sid s Hs) as [Hok _]. unfold session_ok in Hok.
  destruct (newRuleButton s) as [b|] eqn:Hb.
  2:{ destruct Hok as (_ & Hnone & _). congruence. }
  destruct Hok as (_ & _ & _ & _ & Hdis & _ & Hh & Hlist).
  destruct (Hlist d Hd) as [-> Hlen].
  split; [done|]. split; [done|]. split; [congruence|]. split.
  - exists b. split; [done|]. rewrite Hdis. apply Nat.eqb_neq. lia.
  - apply P1. exists (_renderList (cssFileInfos s)). by rewrite Hs, <- Hd.
Qed.

Lemma open_picker_lists_stylesheets_witness :
  items (_renderList [Demo.main_css; Demo.print_css])
  = [Demo.main_css; Demo.print_css] /\
  0%nat ∈ htmlClick
            (run (Ext := Demo.collaborators) initial
               (Demo.with_two_stylesheets ++ [ButtonClick 0%nat])).
Proof.
  destruct (open_picker_lists_stylesheets (Ext := Demo.collaborators)
              (Demo.with_two_stylesheets ++ [ButtonClick 0%nat]) 0%nat
              (Demo.session_after
                 (Demo.with_two_stylesheets ++ [ButtonClick 0%nat]))
              (_renderList [Demo.main_css; Demo.print_css]))
    as (Hi & _ & _ & _ & Hin).
  - vm_compute. reflexivity.
  - vm_compute. reflexivity.
  - split; [reflexivity | exact Hin].
Defined.

(** X9.  After any events the sessions that listen to clicks on the page are
    the sessions whose picker is open, each listening once. *)
Theorem page_listeners_are_open_pickers `{Ext : Collaborators}
    (evs : list Event) :
  let w := run initial evs in
  NoDup (htmlClick w) /\
  forall sid,
    sid ∈ htmlClick w <->
    exists s d, sessions w !! sid = Some s /\ dropdown s = Some d.
Proof.
  intros w. destruct (reachable_bookkeeping evs) as (_ & _ & (P1 & P2)).
  fold w in P1, P2. split; [done|]. intros sid. rewrite P1. split.
  - intros [d Hd]. destruct (sessions w !! sid) as [s|]; [|done].
    exists s, d. split; [done|]. by injection Hd.
  - intros (s & d & -> & Hd). exists d. simpl. by rewrite Hd.
Qed.

(** ** Closing the picker *)

Section Closing.
Context `{Ext : Collaborators}.

Lemma run_snoc (w : World) (evs : list Event) (ev : Event) :
  run w (evs ++ [ev]) = step (run w evs) ev.
Proof. unfold run. by rewrite foldl_app. Qed.

Lemma rtc_atomic_good (w w' : World) :
  rtc atomic w w' ->
  world_ok w /\ registry_ok w /\ pickers_ok w ->
  world_ok w' /\ registry_ok w' /\ pickers_ok w'.
Proof.
  intros Hr. induction Hr as [|w w' w'' Ha _ IH]; [done|].
  intros (Hok & Hreg & Hp). apply IH.
  split; [by eapply atomic_ok|].
  split; [by eapply atomic_registry|by eapply atomic_pickers].
Qed.

(** [_cleanupDropdown] closes the session's picker, takes its listener
    off the page and gives the focus back; the command may change. *)
Lemma cleanupDropdown_eq (sid : nat) (w : World) :
  exists c,
    _cleanupDropdown sid w
    = setEnabled c
        (set_focus None
           (update_session sid closed
              (set_htmlClick
                 (List.filter (fun k => negb (Nat.eqb k sid)) (htmlClick w))
                 w))).
Proof.
  unfold _cleanupDropdown. cbv zeta. rewrite update_session_twice.
  apply move_focus_shape.
Qed.

Lemma session_handler_is_dropdown (w : World) (sid : nat) (s : Session) :
  world_ok w -> sessions w !! sid = Some s ->
  dropdownEventHandler s = dropdown s.
Proof.
  intros (HS & _) Hs. destruct (HS sid s Hs) as [Hok _].
  unfold session_ok in Hok. destruct (newRuleButton s).
  - by destruct Hok as (_ & _ & _ & _ & _ & _ & Hh & _).
  - destruct Hok as (_ & Hd & Hh & _). congruence.
Qed.

Lemma closeDropdown_listeners (sid : nat) (w : World) :
  world_ok w -> pickers_ok w ->
  forall x, x ∈ htmlClick (_closeDropdown sid w) ->
    x ∈ htmlClick w /\ x <> sid.
Proof.
  intros Hok (P1 & _) x Hx. unfold _closeDropdown in Hx.
  assert (Hclosed : forall s, sessions w !! sid = Some s ->
            dropdownEventHandler s = None -> sid ∉ htmlClick w).
  { intros s Hs Hnone Hin. apply P1 in Hin as [d Hd].
    rewrite Hs in Hd. simpl in Hd.
    rewrite <- (session_handler_is_dropdown w sid s Hok Hs) in Hd.
    congruence. }
  destruct (sessions w !! sid) as [s|] eqn:Hs.
  - destruct (dropdownEventHandler s) eqn:Hh.
    + destruct (cleanupDropdown_eq sid w) as [c E]. rewrite E in Hx.
      simpl in Hx. apply list_elem_of_In, filter_In in Hx as [Hin Hne].
      apply negb_true_iff, Nat.eqb_neq in Hne.
      split; [by apply list_elem_of_In|done].
    + split; [done|]. intros ->. by eapply Hclosed.
  - split; [done|]. intros ->. apply P1 in Hx as [d Hd].
    by rewrite Hs in Hd.
Qed.

Lemma closeDropdown_frame (sid : nat) (w : World) :
  documentRequests (_closeDropdown sid w) = documentRequests w /\
  widgets (_closeDropdown sid w) = widgets w /\
  effects (_closeDropdown sid w) = effects w /\
  _newRuleHandlers (_closeDropdown sid w) = _newRuleHandlers w.
Proof.
  unfold _closeDropdown.
  destruct (sessions w !! sid) as [s|]; [|done].
  destruct (dropdownEventHandler s); [|done].
  by destruct (cleanupDropdown_eq sid w) as [c ->].
Qed.

Lemma close_all (l : list nat) (w : World) :
  world_ok w /\ registry_ok w /\ pickers_ok w ->
  (forall x, x ∈ htmlClick w -> x ∈ l) ->
  let w' := foldl (fun acc sid => _closeDropdown sid acc) w l in
  htmlClick w' = [] /\
  documentRequests w' = documentRequests w /\
  widgets w' = widgets w /\ effects w' = effects w /\
  _newRuleHandlers w' = _newRuleHandlers w.
Proof.
  revert w; induction l as [|sid l IH]; intros w Hgood Hsub; simpl.
  - split; [|done]. destruct (htmlClick w) as [|x hc]; [done|].
    specialize (Hsub x ltac:(left)). by apply not_elem_of_nil in Hsub.
  - destruct (closeDropdown_frame sid w) as (Ed & Ew & Ee & Eh).
    rewrite <- Ed, <- Ew, <- Ee, <- Eh. apply IH.
    + eapply rtc_atomic_good; [apply closeDropdown_atomic|done].
    + intros x Hx. destruct Hgood as (Hok & _ & Hp).
      destruct (closeDropdown_listeners sid w Hok Hp x Hx) as [Hin Hne].
      specialize (Hsub x Hin). apply elem_of_cons in Hsub as [->|?]; done.
Qed.

End Closing.

(** X10.  After any events, a click that reaches the page closes every open
    picker: afterwards no session has a picker or an event handler for
    one, nobody listens to clicks on the page, and no rule creation was
    started, no widget touched and nothing rendered or logged. *)
Theorem outside_click_closes_every_picker `{Ext : Collaborators}
    (evs : list Event) :
  let w := run initial evs in
  let w' := step w OutsideClick in
  htmlClick w' = [] /\
  (forall sid s', sessions w' !! sid = Some s' ->
     dropdown s' = None /\ dropdownEventHandler s' = None) /\
  documentRequests w' = documentRequests w /\
  widgets w' = widgets w /\ effects w' = effects w /\
  _newRuleHandlers w' = _newRuleHandlers w.
Proof.
  intros w w'.
  assert (htmlClick w' = [] /\
          documentRequests w' = documentRequests w /\
          widgets w' = widgets w /\ effects w' = effects w /\
          _newRuleHandlers w' = _newRuleHandlers w) as (Hc & Hrest)
    by (apply (close_all (htmlClick w) w);
        [apply reachable_bookkeeping|done]).
  split; [exact Hc|]. split; [|exact Hrest].
  intros sid s' Hs'.
  destruct (reachable_bookkeeping (evs ++ [OutsideClick]))
    as (Hok & _ & (P1 & _)).
  rewrite run_snoc in Hok, P1. fold w in Hok, P1. fold w' in Hok, P1.
  assert (Hd : dropdown s' = None).
  { destruct (dropdown s') as [d|] eqn:Hd; [|done].
    assert (sid ∈ htmlClick w') as Hin
      by (apply P1; exists d; by rewrite Hs', <- Hd).
    rewrite Hc in Hin. by apply not_elem_of_nil in Hin. }
  split; [done|].
  by rewrite (session_handler_is_dropdown w' sid s' Hok Hs').
Qed.

(** X11.  When an item of a session's open picker is chosen: if the item
    carries a path, one rule creation is started, for the session's
    selector and widget and that path only; if it carries none, or an
    empty one, none is started.  Either way the picker is closed, the
    session no longer listens to clicks on the page, and the focus
    leaves the widgets. *)
Theorem picker_selection_creates_one_rule `{Ext : Collaborators}
    (w : World) (sid : nat) (s : Session) (d : Dropdown)
    (path : option string) :
  sessions w !! sid = Some s ->
  dropdownEventHandler s = Some d ->
  let w' := step w (DropdownSelect sid path) in
  (forall p, path = Some p -> p <> "" ->
     documentRequests w'
     = documentRequests w ++
         [{| dr_selectorName := selectorName s;
             dr_inlineEditor := cssInlineEditor s;
             dr_path := p; dr_state := InFlight |}]) /\
  (path = None \/ path = Some "" ->
     documentRequests w' = documentRequests w) /\
  sessions w' !! sid = Some (closed s) /\
  (sid ∉ htmlClick w') /\
  focus w' = None /\
  widgets w' = widgets w /\ effects w' = effects w.
Proof.
  intros Hs Hh w'.
  assert (E : w' = _cleanupDropdown sid (_onSelect sid path w)).
  { subst w'. simpl. by rewrite Hs; simpl; rewrite Hh. }
  destruct (cleanupDropdown_eq sid (_onSelect sid path w)) as [c Ec].
  rewrite Ec in E. clear Ec.
  assert (Hsel : sessions (_onSelect sid path w) = sessions w /\
                 widgets (_onSelect sid path w) = widgets w /\
                 effects (_onSelect sid path w) = effects w).
  { unfold _onSelect. rewrite Hs. destruct path as [p|]; [|done].
    by destruct (String.eqb p ""). }
  destruct Hsel as (Es & Ew & Ee).
  rewrite E. simpl. rewrite Es, Ew, Ee. repeat split.
  - intros p -> Hp. unfold _onSelect. rewrite Hs.
    by rewrite (proj2 (String.eqb_neq _ _) Hp).
  - intros [->| ->]; unfold _onSelect; by rewrite Hs.
  - by rewrite list_lookup_alter_eq, Hs.
  - rewrite list_elem_of_In, filter_In, Nat.eqb_refl. by intros [_ ?].
Qed.

Lemma picker_selection_creates_one_rule_witness :
  let w := run (Ext := Demo.collaborators) initial
             (Demo.with_two_stylesheets ++ [ButtonClick 0%nat]) in
  documentRequests
    (step (Ext := Demo.collaborators) w
       (DropdownSelect 0%nat (Some "/site/css/print.css")))
  = [{| dr_selectorName := ".modal"; dr_inlineEditor := Some 0%nat;
        dr_path := "/site/css/print.css"; dr_state := InFlight |}].
Proof.
  cbv zeta.
  destruct (picker_selection_creates_one_rule (Ext := Demo.collaborators)
              (run (Ext := Demo.collaborators) initial
                 (Demo.with_two_stylesheets ++ [ButtonClick 0%nat]))
              0%nat
              (Demo.session_after
                 (Demo.with_two_stylesheets ++ [ButtonClick 0%nat]))
              (_renderList [Demo.main_css; Demo.print_css])
              (Some "/site/css/print.css"))
    as (Hone & _).
  - vm_compute. reflexivity.
  - vm_compute. reflexivity.
  - rewrite (Hone "/site/css/print.css" eq_refl); [|discriminate].
    vm_compute. reflexivity.
Defined.

(** X13.  When the document of a rule-creation request arrives, the request
    is settled and only the widget of the request changes: the
    sessions, the registry, the focus, the command, the page's
    listeners and every other widget are as before, and no widget is
    added.  A settled request is not served again. *)
Theorem rule_creation_touches_one_widget `{Ext : Collaborators} (w : World)
    (k : nat) (r : DocumentRequest) (styleDoc : Document) :
  documentRequests w !! k = Some r ->
  dr_state r = InFlight ->
  let w' := step w (DocumentLoaded k styleDoc) in
  sessions w' = sessions w /\
  _newRuleHandlers w' = _newRuleHandlers w /\
  focus w' = focus w /\ _newRuleCmd w' = _newRuleCmd w /\
  htmlClick w' = htmlClick w /\
  length (widgets w') = length (widgets w) /\
  (forall wid, dr_inlineEditor r <> Some wid ->
     widgets w' !! wid = widgets w !! wid) /\
  documentRequests w' = <[k := set_dr_state Settled r]> (documentRequests w) /\
  (forall doc, step w' (DocumentLoaded k doc) = w').
Proof.
  intros Hr Hst w'.
  assert (E : w' = _addRule_done r styleDoc (settle_document k w)).
  { subst w'. simpl. by rewrite Hr, Hst. }
  assert (Hreq : documentRequests w'
                 = <[k := set_dr_state Settled r]> (documentRequests w)).
  { rewrite E, addRule_done_requests. simpl. apply list_eq. intros i.
    destruct (decide (k = i)) as [->|Hne].
    - rewrite list_lookup_alter_eq, Hr, list_lookup_insert_eq; [done|].
      by eapply lookup_lt_Some.
    - by rewrite list_lookup_alter_ne, list_lookup_insert_ne. }
  assert (Hk : documentRequests w' !! k = Some (set_dr_state Settled r)).
  { rewrite Hreq. apply list_lookup_insert_eq. by eapply lookup_lt_Some. }
  rewrite E at 1 2 3 4 5 6.
  rewrite addRule_done_sessions, addRule_done_handlers,
    addRule_done_htmlClick, addRule_done_widgets_length.
  repeat split; try done.
  - unfold _addRule_done. by destruct (dr_inlineEditor r).
  - unfold _addRule_done. by destruct (dr_inlineEditor r).
  - intros wid Hne. rewrite E. unfold _addRule_done.
    destruct (dr_inlineEditor r) as [x|]; [|done].
    unfold update_widget. simpl.
    rewrite !list_lookup_alter_ne; [done|congruence|congruence].
  - intros doc. simpl. by rewrite Hk.
Qed.

Lemma rule_creation_touches_one_widget_witness :
  let w := run (Ext := Demo.collaborators) initial
             (Demo.with_one_stylesheet ++ [ButtonClick 0%nat]) in
  let w' := step (Ext := Demo.collaborators) w
              (DocumentLoaded 0%nat Demo.main_css_doc) in
  sessions w' = sessions w /\ length (widgets w') = length (widgets w).
Proof.
  cbv zeta.
  destruct (rule_creation_touches_one_widget (Ext := Demo.collaborators)
              (run (Ext := Demo.collaborators) initial
                 (Demo.with_one_stylesheet ++ [ButtonClick 0%nat]))
              0%nat
              {| dr_selectorName := ".modal"; dr_inlineEditor := Some 0%nat;
                 dr_path := "/site/css/main.css"; dr_state := InFlight |}
              Demo.main_css_doc)
    as (Hs & _ & _ & _ & _ & Hl & _).
  - vm_compute. reflexivity.
  - reflexivity.
  - split; [exact Hs | exact Hl].
Defined.

(** ** Focus and the command *)

Section FocusFacts.
Context `{Ext : Collaborators}.

Lemma updateCommands_exact (sid : nat) (s : Session) (wid : nat)
    (b : Button) (w : World) :
  sessions w !! sid = Some s ->
  cssInlineEditor s = Some wid ->
  newRuleButton s = Some b ->
  _updateCommands sid w
  = setEnabled (hasFocus wid w && negb (hasClass "disabled" b)) w.
Proof. intros Hs Hc Hb. unfold _updateCommands. by rewrite Hs, Hc, Hb. Qed.

Lemma listed_infos (infos : list FileInfo) (s : Session) :
  cssFileInfos (listed infos s) = infos.
Proof.
  unfold listed. cbv zeta. by repeat (destruct (_ <? _)%nat; simpl).
Qed.

(** The file list's callback, with the focus it leaves. *)
Lemma fileInfos_done_exact (sid : nat) (s : Session)
    (fileInfos : list FileInfo) (w : World) :
  sessions w !! sid = Some s ->
  exists c,
    fileInfos_done sid fileInfos (settle_fileList sid w)
    = _updateCommands sid
        (setEnabled c
           (set_focus
              (if (0 <? length fileInfos)%nat
               then match rules s with
                    | [] => cssInlineEditor s
                    | _ => focus w
                    end
               else focus w)
              (update_session sid (listed fileInfos) w))).
Proof.
  intros Hs. unfold fileInfos_done. cbv zeta.
  assert (Hs1 :
    sessions (update_session sid (set_cssFileInfos fileInfos)
                (settle_fileList sid w)) !! sid
    = Some (set_cssFileInfos fileInfos (set_fileList (Some Settled) s))).
  { unfold settle_fileList, update_session. simpl.
    by rewrite !list_lookup_alter_eq, Hs. }
  rewrite Hs1. simpl cssFileInfos. simpl rules. simpl cssInlineEditor.
  unfold settle_fileList, listed. cbv zeta.
  destruct (0 <? length fileInfos)%nat, (1 <? length fileInfos)%nat,
    (rules s); rewrite ?update_session_twice;
    repeat match goal with
    | |- context [move_focus ?t ?w0] =>
        destruct (move_focus_shape t w0) as [? ->]
    end.
  all: try (exists (_newRuleCmd w); f_equal; destruct w; reflexivity).
  all: match goal with
       | |- context [setEnabled ?c (set_focus _ _)] => exists c
       end; f_equal;
       unfold update_session, setEnabled, set_focus, set_sessions; simpl;
       rewrite ?list_alter_alter_eq; reflexivity.
Qed.

Lemma listeners_cases (w : World) (t : option nat) :
  registry_ok w ->
  focus_listeners t w = [] \/
  exists x sid s,
    t = Some x /\ focus_listeners t w = [sid] /\
    sessions w !! sid = Some s /\ cssInlineEditor s = Some x.
Proof.
  intros (_ & B2 & B3). unfold focus_listeners.
  destruct t as [x|]; [|by left].
  destruct (widgets w !! x) as [wd|] eqn:Hwd; [|by left].
  destruct (w_focusListeners wd) as [|sid ls] eqn:Hls; [by left|].
  right. specialize (B3 x sid (sid :: ls)). rewrite Hwd in B3. simpl in B3.
  rewrite Hls in B3. specialize (B3 eq_refl ltac:(left)).
  destruct (B2 sid x B3) as [_ Hl]. rewrite Hwd in Hl. simpl in Hl.
  rewrite Hls in Hl. injection Hl as ->.
  destruct (sessions w !! sid) as [s|] eqn:Hs; [|done].
  exists x, sid, s. split; [done|]. split; [done|]. split; [done|].
  by injection B3.
Qed.

Lemma owner_listens (w : World) (sid : nat) (s : Session) (wid : nat) :
  registry_ok w ->
  sessions w !! sid = Some s -> cssInlineEditor s = Some wid ->
  focus_listeners (Some wid) w = [sid].
Proof.
  intros (_ & B2 & _) Hs Hc. destruct (B2 sid wid) as [_ Hl].
  { by rewrite Hs, <- Hc. }
  unfold focus_listeners. destruct (widgets w !! wid); [|done].
  by injection Hl.
Qed.

Lemma session_has_button (w : World) (sid : nat) (s : Session) (wid : nat) :
  world_ok w ->
  sessions w !! sid = Some s -> cssInlineEditor s = Some wid ->
  exists b, newRuleButton s = Some b.
Proof.
  intros (HS & _) Hs Hc. destruct (HS sid s Hs) as [Hok _].
  unfold session_ok in Hok. destruct (newRuleButton s) as [b|]; [eauto|].
  destruct Hok as (_ & _ & _ & _ & Hnone & _). congruence.
Qed.

(** Moving the focus, when it really moves: the listeners of the widget
    left run first, then those of the widget entered. *)
Lemma move_focus_eq (t : option nat) (w : World) :
  world_ok w -> registry_ok w ->
  focus w <> t ->
  move_focus t w
  = setEnabled
      (match focus_listeners t w with
       | sid :: _ =>
           match sessions w !! sid ≫= newRuleButton with
           | Some b => negb (hasClass "disabled" b)
           | None => false
           end
       | [] =>
           match focus_listeners (focus w) w with
           | _ :: _ => false
           | [] => _newRuleCmd w
           end
       end)
      (set_focus t w).
Proof.
  intros Hok Hreg Hne. unfold move_focus.
  destruct (decide (focus w = t)) as [?|_]; [done|]. cbv zeta.
  change (focus_listeners (focus w) (set_focus t w))
    with (focus_listeners (focus w) w).
  assert (Hold : exists c,
    foldl (fun acc sid => _updateCommands sid acc) (set_focus t w)
      (focus_listeners (focus w) w) = setEnabled c (set_focus t w) /\
    c = match focus_listeners (focus w) w with
        | _ :: _ => false
        | [] => _newRuleCmd w
        end).
  { destruct (listeners_cases w (focus w) Hreg)
      as [->|(y & sid & s & Hf & -> & Hs & Hc)].
    - exists (_newRuleCmd w). split; [|done]. simpl. by destruct w.
    - destruct (session_has_button w sid s y Hok Hs Hc) as [b Hb].
      exists false. split; [|done]. simpl.
      rewrite (updateCommands_exact sid s y b) by done.
      unfold hasFocus. simpl. rewrite bool_decide_eq_false_2; [done|].
      congruence. }
  destruct Hold as (c & -> & ->).
  change (focus_listeners t (setEnabled _ (set_focus t w)))
    with (focus_listeners t w).
  destruct (listeners_cases w t Hreg)
    as [->|(x & sid & s & -> & -> & Hs & Hc)]; [done|].
  destruct (session_has_button w sid s x Hok Hs Hc) as [b Hb].
  simpl. rewrite (updateCommands_exact sid s x b) by done.
  rewrite Hs. simpl. rewrite Hb.
  unfold hasFocus. simpl. by rewrite bool_decide_eq_true_2.
Qed.

End FocusFacts.

(** X12.  When the list of stylesheets arrives for a waiting session, after
    any events: the command is enabled exactly if the session's widget
    then has the focus and the list is not empty.  If the lookup had
    found no rule and the list is not empty, the focus is put into the
    widget (on the button), so the command is enabled; otherwise the
    focus stays where it was. *)
Theorem stylesheets_arrival_sets_command `{Ext : Collaborators}
    (evs : list Event) (sid : nat) (s : Session) (infos : list FileInfo) :
  let w := run initial evs in
  sessions w !! sid = Some s ->
  fileList s = Some InFlight ->
  let w' := step w (FileInfosArrived sid infos) in
  exists wid,
    cssInlineEditor s = Some wid /\
    _newRuleCmd w' = hasFocus wid w' && negb (length infos =? 0)%nat /\
    (rules s = [] -> infos <> [] ->
       focus w' = Some wid /\ _newRuleCmd w' = true) /\
    (rules s <> [] \/ infos = [] -> focus w' = focus w).
Proof.
  intros w Hs Hfl w'.
  destruct (reachable_ok evs) as (HS & _). fold w in HS.
  destruct (HS sid s Hs) as [Hok _].
  assert (Hok' : session_ok (listed infos s))
    by (eapply session_step_ok; [done|by constructor]).
  unfold session_ok in Hok, Hok'.
  destruct (newRuleButton s) as [b|] eqn:Hb.
  2:{ destruct Hok as (_ & _ & _ & Hnone & _). congruence. }
  destruct Hok as (_ & [wid Hwid] & _). exists wid. split; [done|].
  assert (Hc' : cssInlineEditor (listed infos s) = Some wid)
    by (by rewrite listed_editor).
  destruct (newRuleButton (listed infos s)) as [b'|] eqn:Hb'.
  2:{ destruct Hok' as (_ & _ & _ & _ & Hnone & _). congruence. }
  destruct Hok' as (_ & _ & _ & _ & Hdis & _).
  rewrite listed_infos in Hdis.
  destruct (fileInfos_done_exact sid s infos w Hs) as [c E].
  assert (Ew : w' = fileInfos_done sid infos (settle_fileList sid w)).
  { subst w'. simpl. by rewrite Hs; simpl; rewrite Hfl. }
  rewrite E in Ew.
  rewrite (updateCommands_exact sid (listed infos s) wid b') in Ew;
    [|by unfold update_session; simpl;
         rewrite list_lookup_alter_eq, Hs|done|done].
  rewrite Hdis in Ew.
  assert (Hf : focus w'
               = if (0 <? length infos)%nat
                 then match rules s with
                      | [] => cssInlineEditor s
                      | _ => focus w
                      end
                 else focus w) by (by rewrite Ew).
  assert (Hcmd : _newRuleCmd w'
                 = hasFocus wid w' && negb (length infos =? 0)%nat).
  { rewrite Ew at 1. simpl. f_equal. unfold hasFocus. by rewrite Hf. }
  split; [exact Hcmd|]. split.
  - intros Hr Hi. rewrite Hcmd. unfold hasFocus. rewrite Hf, Hr, Hwid.
    destruct infos; [done|]. simpl. split; [done|].
    by rewrite bool_decide_eq_true_2.
  - intros [Hr| ->]; rewrite Hf; [|done].
    destruct (0 <? length infos)%nat; [|done]. by destruct (rules s).
Qed.

Lemma stylesheets_arrival_sets_command_witness :
  let w := run (Ext := Demo.collaborators) initial Demo.opened in
  let w' := step (Ext := Demo.collaborators) w
              (FileInfosArrived 0%nat [Demo.main_css]) in
  focus w' = Some 0%nat /\ _newRuleCmd w' = true.
Proof.
  cbv zeta.
  destruct (stylesheets_arrival_sets_command (Ext := Demo.collaborators)
              Demo.opened 0%nat (Demo.session_after Demo.opened)
              [Demo.main_css])
    as (wid & Hwid & _ & Hfocus & _).
  - vm_compute. reflexivity.
  - vm_compute. reflexivity.
  - vm_compute in Hwid. injection Hwid as <-.
    apply Hfocus; [vm_compute; reflexivity|discriminate].
Defined.

(** X14.  After any events, when the focus moves into a widget the provider
    made, from anywhere else, the command becomes enabled exactly if
    that widget's button is not disabled; nothing but the focus and the
    command changes. *)
Theorem focusing_widget_sets_command `{Ext : Collaborators}
    (evs : list Event) (sid : nat) (s : Session) (wid : nat) (b : Button) :
  let w := run initial evs in
  sessions w !! sid = Some s ->
  cssInlineEditor s = Some wid ->
  newRuleButton s = Some b ->
  focus w <> Some wid ->
  step w (FocusMoved (Some wid))
  = setEnabled (negb (hasClass "disabled" b)) (set_focus (Some wid) w).
Proof.
  intros w Hs Hc Hb Hne.
  destruct (reachable_bookkeeping evs) as (Hok & Hreg & _).
  fold w in Hok, Hreg.
  assert (Hlt : (wid < length (widgets w))%nat).
  { destruct Hok as (HS & _). destruct (HS sid s Hs) as [_ Hbd]. eauto. }
  simpl. rewrite bool_decide_eq_true_2 by done.
  rewrite (move_focus_eq (Some wid) w Hok Hreg Hne).
  rewrite (owner_listens w sid s wid Hreg Hs Hc).
  rewrite Hs. simpl. by rewrite Hb.
Qed.

Lemma focusing_widget_sets_command_witness :
  let w := run (Ext := Demo.collaborators) initial
             (Demo.with_two_stylesheets ++ [FocusMoved None]) in
  _newRuleCmd w = false /\
  _newRuleCmd (step (Ext := Demo.collaborators) w (FocusMoved (Some 0%nat)))
  = true.
Proof.
  cbv zeta. split; [vm_compute; reflexivity|].
  rewrite (focusing_widget_sets_command (Ext := Demo.collaborators)
             (Demo.with_two_stylesheets ++ [FocusMoved None]) 0%nat
             (Demo.session_after
                (Demo.with_two_stylesheets ++ [FocusMoved None]))
             0%nat
             (Demo.button_after
                (Demo.with_two_stylesheets ++ [FocusMoved None]))).
  - vm_compute. reflexivity.
  - vm_compute. reflexivity.
  - vm_compute. reflexivity.
  - vm_compute. reflexivity.
  - vm_compute. discriminate.
Defined.

(** ** Promises, selectors and requests *)

Section SessionFacts.
Context `{Ext : Collaborators}.

Lemma listed_fields (infos : list FileInfo) (s : Session) :
  result (listed infos s) = result s /\
  lookup (listed infos s) = lookup s /\
  selectorName (listed infos s) = selectorName s /\
  hostEditor (listed infos s) = hostEditor s.
Proof.
  unfold listed. cbv zeta. by repeat (destruct (_ <? _)%nat; simpl).
Qed.

(** What holds of new sessions and is kept by every change of a session
    holds of every session after any events. *)
Lemma reachable_session_inv (P : Session -> Prop) :
  (forall host selector, P (new_session host selector)) ->
  (forall s s', P s -> session_step s s' -> P s') ->
  forall evs sid s, sessions (run initial evs) !! sid = Some s -> P s.
Proof.
  intros Hnew Hstep evs.
  apply (reachable_ind (fun w => forall sid s, sessions w !! sid = Some s -> P s)).
  - intros sid s Hs. simpl in Hs. by rewrite lookup_nil in Hs.
  - intros w w' Ha IH sid s' Hs'.
    destruct (atomic_session_before w w' sid s' Ha Hs')
      as [(s & Hs & [->|Hst])|(_ & host & sel & ->)]; eauto.
Qed.

Lemma result_ok_step (s s' : Session) :
  result_ok s -> session_step s s' -> result_ok s'.
Proof.
  unfold result_ok. intros Hok Hstep.
  destruct Hstep as [s wid found Hl|s Hl|s infos Hfl|s|s b Hb Hen Hlen Hdd];
    simpl; try done.
  - destruct (result s); destruct Hok; by try congruence.
  - destruct (listed_fields infos s) as (-> & -> & _).
    by rewrite listed_editor.
Qed.

Lemma settled_result_stable (r : Deferred nat) (s s' : Session) :
  lookup s = Settled /\ result s = r -> session_step s s' ->
  lookup s' = Settled /\ result s' = r.
Proof.
  intros [Hl Hr] Hstep.
  destruct Hstep as [s wid found Hl'|s Hl'|s infos Hfl|s|s b Hb Hen Hlen Hdd];
    try congruence; simpl; try done.
  destruct (listed_fields infos s) as (-> & -> & _). done.
Qed.

End SessionFacts.

(** X16.  After any events the promise a session returned tells how its lookup
    went: pending while the lookup is out, with no widget yet; resolved
    with the session's own widget, which exists; or rejected, with no
    widget.  Once it is settled it stays as it is, whatever happens. *)
Theorem promise_settles_once `{Ext : Collaborators}
    (evs evs2 : list Event) (sid : nat) (s : Session) :
  let w := run initial evs in
  sessions w !! sid = Some s ->
  match result s with
  | Pending => lookup s = InFlight /\ cssInlineEditor s = None
  | Resolved wid =>
      cssInlineEditor s = Some wid /\ (wid < length (widgets w))%nat
  | Rejected => cssInlineEditor s = None
  end /\
  (result s <> Pending ->
   exists s', sessions (run w evs2) !! sid = Some s' /\ result s' = result s).
Proof.
  intros w Hs.
  assert (Hok : result_ok s).
  { apply (reachable_session_inv result_ok) with evs sid; try done.
    apply result_ok_step. }
  destruct (reachable_ok evs) as (HS & _). fold w in HS.
  destruct (HS sid s Hs) as [_ Hbd].
  unfold result_ok in Hok. split.
  - destruct (result s) as [|wid|]; destruct Hok as [Hl Hc]; try done.
    split; [done|]. by apply Hbd.
  - intros Hne.
    assert (Hl : lookup s = Settled)
      by (destruct (result s); by destruct Hok).
    destruct (run_session_stable
                (fun s0 => lookup s0 = Settled /\ result s0 = result s)
                (settled_result_stable (result s)) evs2 w sid s Hs)
      as (s' & Hs' & _ & Hr); [done|].
    by exists s'.
Qed.

Lemma promise_settles_once_witness :
  exists s',
    sessions
      (run (Ext := Demo.collaborators)
         (run (Ext := Demo.collaborators) initial Demo.opened)
         [FileInfosArrived 0%nat [Demo.main_css]; ButtonClick 0%nat;
          RulesFailed 0%nat; RulesFound 0%nat []])
    !! 0%nat = Some s' /\
    result s' = Resolved 0%nat.
Proof.
  destruct (promise_settles_once (Ext := Demo.collaborators) Demo.opened
              [FileInfosArrived 0%nat [Demo.main_css]; ButtonClick 0%nat;
               RulesFailed 0%nat; RulesFound 0%nat []]
              0%nat (Demo.session_after Demo.opened))
    as [_ Hstay].
  - vm_compute. reflexivity.
  - destruct Hstay as (s' & Hs' & Hr); [vm_compute; discriminate|].
    exists s'. split; [exact Hs'|]. rewrite Hr. vm_compute. reflexivity.
Defined.

Section Origins.
Context `{Ext : Collaborators}.

Lemma non_provide_keeps_sessions_length (w : World) (ev : Event) :
  (forall host p, ev <> Provide host p) ->
  length (sessions (step w ev)) = length (sessions w).
Proof.
  intros Hnp.
  assert (Hclose : forall sid w0,
            length (sessions (_closeDropdown sid w0)) = length (sessions w0)).
  { intros sid w0. unfold _closeDropdown.
    destruct (sessions w0 !! sid) as [s|]; [|done].
    destruct (dropdownEventHandler s); [|done].
    destruct (cleanupDropdown_eq sid w0) as [c ->]. simpl.
    by rewrite length_alter. }
  assert (Hclean : forall sid w0,
            length (sessions (_cleanupDropdown sid w0))
            = length (sessions w0)).
  { intros sid w0. destruct (cleanupDropdown_eq sid w0) as [c ->]. simpl.
    by rewrite length_alter. }
  assert (Hclick : forall sid e w0,
            length (sessions (fst (_handleNewRuleClick sid e w0)))
            = length (sessions w0)).
  { intros sid e w0. unfold _handleNewRuleClick.
    destruct (sessions w0 !! sid) as [s|] eqn:Hs; [|done].
    destruct (newRuleButton s); [|done]. simpl.
    destruct (negb _); [|done].
    destruct (_ =? _)%nat.
    - by destruct (cssFileInfos s !! 0%nat).
    - destruct (dropdown s); [apply Hclose|].
      unfold _showDropdown. rewrite Hs. cbv zeta.
      rewrite move_focus_sessions. simpl. by rewrite !length_alter. }
  destruct ev as [host p|sid found|sid|sid infos|sid| |k doc|k|sid path|sid
                 | |target|ranges]; simpl.
  - by specialize (Hnp host p).
  - destruct (sessions w !! sid) as [s|] eqn:Hs; simpl; [|done].
    destruct (lookup s); [|done]. unfold rules_done.
    rewrite (settle_lookup_session sid s w Hs). simpl.
    by rewrite !length_alter.
  - destruct (sessions w !! sid) as [s|] eqn:Hs; simpl; [|done].
    destruct (lookup s); [|done]. rewrite rules_fail_eq. simpl.
    by rewrite length_alter.
  - destruct (sessions w !! sid) as [s|] eqn:Hs; simpl; [|done].
    destruct (fileList s) as [[]|]; try done.
    destruct (fileInfos_done_shape sid s infos w Hs) as (c & t & ->).
    simpl. by rewrite length_alter.
  - apply Hclick.
  - unfold _handleNewRule.
    destruct (getFocusedMultiRangeInlineEditor w); [|done].
    destruct (List.find _ _); [|done]. apply Hclick.
  - destruct (documentRequests w !! k) as [r|]; [|done].
    destruct (dr_state r); [|done]. by rewrite addRule_done_sessions.
  - destruct (documentRequests w !! k) as [r|]; [|done].
    by destruct (dr_state r).
  - destruct (sessions w !! sid) as [s|] eqn:Hs; simpl; [|done].
    destruct (dropdownEventHandler s); [|done]. rewrite Hclean.
    unfold _onSelect. rewrite Hs. destruct path as [p|]; [|done].
    by destruct (String.eqb p "").
  - destruct (sessions w !! sid) as [s|] eqn:Hs; simpl; [|done].
    destruct (dropdownEventHandler s); [|done]. apply Hclean.
  - generalize (htmlClick w). intros l. revert w.
    induction l as [|sid l IH]; intros w; simpl; [done|].
    by rewrite IH, Hclose.
  - destruct target as [wid|]; [|by rewrite move_focus_sessions].
    case_bool_decide; [by rewrite move_focus_sessions|done].
  - done.
Qed.

Lemma started_ok_step (s s' : Session) :
  started_ok s -> session_step s s' -> started_ok s'.
Proof.
  unfold started_ok. intros Hok Hstep.
  destruct Hstep as [s wid found Hl|s Hl|s infos Hfl|s|s b Hb Hen Hlen Hdd];
    simpl; try done.
  destruct (listed_fields infos s) as (_ & _ & -> & ->). done.
Qed.

(** Every session was started by the provider, on HTML, a one-line
    selection and a selector that is not empty. *)
Lemma reachable_started (evs : list Event) (sid : nat) (s : Session) :
  sessions (run initial evs) !! sid = Some s -> started_ok s.
Proof.
  revert sid s. induction evs as [|ev evs IH] using rev_ind; intros sid s'.
  { intros Hs. simpl in Hs. by rewrite lookup_nil in Hs. }
  rewrite run_snoc. set (w := run initial evs) in *. intros Hs'.
  destruct (sessions w !! sid) as [s|] eqn:Hs.
  - destruct (run_session_stable started_ok started_ok_step [ev] w sid s Hs)
      as (s'' & Hs'' & Hok); [by apply (IH sid)|].
    simpl in Hs''. congruence.
  - apply lookup_ge_None in Hs.
    destruct ev as [host p| | | | | | | | | | | |];
      try (apply lookup_lt_Some in Hs';
           rewrite non_provide_keeps_sessions_length in Hs' by done; lia).
    simpl in Hs'. unfold htmlToCSSProvider in Hs'.
    destruct (String.eqb_spec (languageId host) "html") as [Hl|Hl];
      simpl in Hs'; [|apply lookup_lt_Some in Hs'; lia].
    destruct (Z.eqb_spec (line (start (getSelection host)))
                (line (end_ (getSelection host)))) as [Hsel|Hsel];
      simpl in Hs'; [|apply lookup_lt_Some in Hs'; lia].
    destruct (String.eqb_spec
                (_getSelectorName host (start (getSelection host))) "")
      as [He|He]; simpl in Hs'; [apply lookup_lt_Some in Hs'; lia|].
    apply lookup_app_Some in Hs' as [Hs'|[_ Hs']];
      [apply lookup_lt_Some in Hs'; lia|].
    apply list_lookup_singleton_Some in Hs' as [_ <-]. by repeat split.
Qed.

Lemma session_step_keeps_editor (s s' : Session) (wid : nat) :
  session_ok s -> session_step s s' ->
  cssInlineEditor s = Some wid ->
  selectorName s' = selectorName s /\ cssInlineEditor s' = Some wid.
Proof.
  intros Hok Hstep Hc.
  destruct Hstep as [s wid' found Hl|s Hl|s infos Hfl|s|s b Hb Hen Hlen Hdd];
    simpl; try done.
  - unfold session_ok in Hok. destruct (newRuleButton s).
    + destruct Hok as (Hl' & _). congruence.
    + destruct Hok as (_ & _ & _ & _ & Hnone & _). congruence.
  - destruct (listed_fields infos s) as (_ & _ & -> & _).
    by rewrite listed_editor.
Qed.

Lemma atomic_requests (w w' : World) :
  atomic w w' -> world_ok w -> requests_ok w -> requests_ok w'.
Proof.
  intros Ha Hok Hreq.
  assert (Hkeep : forall r,
    (exists sid s wid,
       sessions w !! sid = Some s /\ dr_selectorName r = selectorName s /\
       dr_inlineEditor r = Some wid /\ cssInlineEditor s = Some wid) ->
    exists sid s wid,
      sessions w' !! sid = Some s /\ dr_selectorName r = selectorName s /\
      dr_inlineEditor r = Some wid /\ cssInlineEditor s = Some wid).
  { intros r (sid & s & wid & Hs & Hsel & Hed & Hc).
    destruct (atomic_session_after w w' sid s Ha Hs) as (s' & Hs' & Hcase).
    exists sid, s', wid. split; [done|].
    destruct Hcase as [->|Hstep]; [done|].
    destruct Hok as (HS & _). destruct (HS sid s Hs) as [Hsok _].
    destruct (session_step_keeps_editor s s' wid Hsok Hstep Hc) as [-> ->].
    done. }
  intros r Hr.
  assert (Hcases :
    r ∈ documentRequests w \/
    (exists r0, r0 ∈ documentRequests w /\
       dr_selectorName r = dr_selectorName r0 /\
       dr_inlineEditor r = dr_inlineEditor r0) \/
    (exists sid s, sessions w !! sid = Some s /\
       (is_Some (newRuleButton s) \/ is_Some (dropdownEventHandler s)) /\
       dr_selectorName r = selectorName s /\
       dr_inlineEditor r = cssInlineEditor s)).
  { assert (Halter : forall k,
      r ∈ alter (set_dr_state Settled) k (documentRequests w) ->
      exists r0, r0 ∈ documentRequests w /\
        dr_selectorName r = dr_selectorName r0 /\
        dr_inlineEditor r = dr_inlineEditor r0).
    { intros k Hin. apply list_elem_of_lookup in Hin as [i Hi].
      destruct (decide (k = i)) as [->|Hne].
      - rewrite list_lookup_alter_eq in Hi.
        destruct (documentRequests w !! i) as [r0|] eqn:E; [|done].
        injection Hi as <-. exists r0. split; [|done].
        apply list_elem_of_lookup; eauto.
      - rewrite list_lookup_alter_ne in Hi by done. exists r.
        split; [|done]. apply list_elem_of_lookup; eauto. }
    destruct Ha as [w c|w t|w host sel|w sid s found Hs Hl|w sid s Hs Hl
                   |w sid s infos Hs Hfl|w sid s path Hs Hbt|w sid
                   |w sid s b Hs Hbt Hen Hlen' Hdd|w k r1 doc Hr1 Hst
                   |w k r1 Hr1 Hst|w ranges];
      rewrite ?addRule_done_requests in Hr; simpl in Hr; eauto.
    apply elem_of_app in Hr as [Hr|Hr%list_elem_of_singleton]; [by left|].
    right; right. subst r. exists sid, s. by repeat split. }
  destruct Hcases as [Hin|[(r0 & Hin & Hsel & Hed)|(sid & s & Hs & Hbt & Hsel & Hed)]].
  - apply Hkeep. by apply Hreq.
  - apply Hkeep. destruct (Hreq r0 Hin) as (sid & s & wid & ?).
    exists sid, s, wid. by rewrite Hsel, Hed.
  - apply Hkeep. destruct Hok as (HS & _). destruct (HS sid s Hs) as [Hsok _].
    unfold session_ok in Hsok. destruct (newRuleButton s) as [b|].
    + destruct Hsok as (_ & [wid Hwid] & _). exists sid, s, wid.
      repeat split; try done. congruence.
    + destruct Hsok as (_ & _ & Hh & _). rewrite Hh in Hbt.
      destruct Hbt as [[? [=]]|[? [=]]].
Qed.

Lemma reachable_requests (evs : list Event) :
  requests_ok (run initial evs).
Proof.
  enough (world_ok (run initial evs) /\ requests_ok (run initial evs))
    by tauto.
  apply (reachable_ind (fun w => world_ok w /\ requests_ok w)).
  - split; [apply initial_ok|]. intros r Hr.
    by apply not_elem_of_nil in Hr.
  - intros w w' Ha [Hok Hreq].
    split; [by eapply atomic_ok|by eapply atomic_requests].
Qed.

End Origins.

(** X17.  After any events every session is one the provider started: its
    host editor is in HTML with the selection on one line, and its
    selector is the one the resolver finds at the start of that
    selection, which is not empty. *)
Theorem sessions_hold_resolved_selector `{Ext : Collaborators}
    (evs : list Event) (sid : nat) (s : Session) :
  sessions (run initial evs) !! sid = Some s ->
  languageId (hostEditor s) = "html" /\
  line (start (getSelection (hostEditor s)))
  = line (end_ (getSelection (hostEditor s))) /\
  selectorName s
  = _getSelectorName (hostEditor s) (start (getSelection (hostEditor s))) /\
  selectorName s <> "".
Proof. apply reachable_started. Qed.

Lemma sessions_hold_resolved_selector_witness :
  selectorName (Demo.session_after Demo.with_two_stylesheets) <> "".
Proof.
  apply (sessions_hold_resolved_selector (Ext := Demo.collaborators)
           Demo.with_two_stylesheets 0%nat
           (Demo.session_after Demo.with_two_stylesheets)).
  vm_compute. reflexivity.
Defined.

(** X18.  After any events every rule-creation request, served or not, was
    made by a session: it carries that session's selector, which is the
    one resolved when the provider was called and is not empty, and
    that session's widget, which exists. *)
Theorem requests_come_from_sessions `{Ext : Collaborators}
    (evs : list Event) (r : DocumentRequest) :
  let w := run initial evs in
  r ∈ documentRequests w ->
  exists sid s wid,
    sessions w !! sid = Some s /\
    dr_selectorName r = selectorName s /\
    selectorName s
    = _getSelectorName (hostEditor s) (start (getSelection (hostEditor s))) /\
    dr_selectorName r <> "" /\
    dr_inlineEditor r = Some wid /\ cssInlineEditor s = Some wid /\
    (wid < length (widgets w))%nat.
Proof.
  intros w Hr.
  destruct (reachable_requests evs r Hr) as (sid & s & wid & Hs & Hsel & Hed & Hc).
  fold w in Hs.
  destruct (reachable_started evs sid s Hs) as (_ & _ & Hres & Hne).
  destruct (reachable_ok evs) as (HS & _). fold w in HS.
  destruct (HS sid s Hs) as [_ Hbd].
  exists sid, s, wid. repeat split; try done; [congruence|by apply Hbd].
Qed.

Lemma requests_come_from_sessions_witness :
  exists sid s wid,
    sessions
      (run (Ext := Demo.collaborators) initial
         (Demo.with_one_stylesheet ++ [ButtonClick 0%nat])) !! sid = Some s /\
    ".modal" = selectorName s /\ cssInlineEditor s = Some wid.
Proof.
  destruct (requests_come_from_sessions (Ext := Demo.collaborators)
              (Demo.with_one_stylesheet ++ [ButtonClick 0%nat])
              {| dr_selectorName := ".modal"; dr_inlineEditor := Some 0%nat;
                 dr_path := "/site/css/main.css"; dr_state := InFlight |})
    as (sid & s & wid & Hs & Hsel & _ & _ & _ & Hc & _).
  - vm_compute. apply list_elem_of_here.
  - exists sid, s, wid. split; [exact Hs|]. split; [exact Hsel | exact Hc].
Defined.

(** ** The command is enabled only for a focused, enabled button *)

Section CommandFacts.
Context `{Ext : Collaborators}.

Lemma command_ok_frame (w w' : World) :
  _newRuleCmd w' = _newRuleCmd w ->
  focus w' = focus w ->
  (forall sid s wid b,
     sessions w !! sid = Some s -> cssInlineEditor s = Some wid ->
     newRuleButton s = Some b -> hasClass "disabled" b = false ->
     exists s',
       sessions w' !! sid = Some s' /\ cssInlineEditor s' = Some wid /\
       newRuleButton s' = Some b) ->
  command_ok w -> command_ok w'.
Proof.
  intros Hc Hf Hkeep Hok. unfold command_ok. rewrite Hc, Hf. intros Hen.
  destruct (Hok Hen) as (sid & s & wid & b & Hfo & Hs & Hed & Hb & Hdis).
  destruct (Hkeep sid s wid b Hs Hed Hb Hdis) as (s' & Hs' & Hed' & Hb').
  by exists sid, s', wid, b.
Qed.

Lemma command_ok_alter (w w' : World) (sid : nat) (f : Session -> Session) :
  _newRuleCmd w' = _newRuleCmd w ->
  focus w' = focus w ->
  sessions w' = alter f sid (sessions w) ->
  (forall s wid b,
     sessions w !! sid = Some s -> cssInlineEditor s = Some wid ->
     newRuleButton s = Some b -> hasClass "disabled" b = false ->
     cssInlineEditor (f s) = Some wid /\ newRuleButton (f s) = Some b) ->
  command_ok w -> command_ok w'.
Proof.
  intros Hc Hf Hs Hkeep. apply command_ok_frame; try done.
  intros sid0 s wid b Hs0 Hed Hb Hdis. rewrite Hs.
  destruct (decide (sid = sid0)) as [->|Hne].
  - exists (f s). rewrite list_lookup_alter_eq, Hs0. split; [done|].
    by apply Hkeep.
  - exists s. by rewrite list_lookup_alter_ne.
Qed.

Lemma command_ok_same_sessions (w w' : World) :
  _newRuleCmd w' = _newRuleCmd w ->
  focus w' = focus w ->
  sessions w' = sessions w ->
  command_ok w -> command_ok w'.
Proof.
  intros Hc Hf Hs. apply command_ok_frame; try done.
  intros sid s wid b Hs0 Hed Hb _. exists s. by rewrite Hs.
Qed.

Lemma command_ok_move (t : option nat) (w : World) :
  world_ok w -> registry_ok w -> command_ok w ->
  command_ok (move_focus t w).
Proof.
  intros Hok Hreg Hcmd.
  destruct (decide (focus w = t)) as [Heq|Hne].
  { unfold move_focus. by rewrite decide_True. }
  rewrite (move_focus_eq t w Hok Hreg Hne). unfold command_ok. simpl.
  destruct (listeners_cases w t Hreg)
    as [->|(x & sid & s & -> & -> & Hs & Hc)].
  - destruct (focus_listeners (focus w) w) eqn:Hold; [|done].
    intros Hen. destruct (Hcmd Hen) as (sid & s & wid & b & Hf & Hs & Hc & _).
    rewrite Hf, (owner_listens w sid s wid Hreg Hs Hc) in Hold. done.
  - rewrite Hs. simpl.
    destruct (newRuleButton s) as [b|] eqn:Hb; [|done].
    intros Hen. exists sid, s, x, b. repeat split; try done.
    by apply negb_true_iff.
Qed.

Lemma atomic_good (w w' : World) : atomic w w' -> good w -> good w'.
Proof. intros Ha. apply rtc_atomic_good. by apply rtc_once. Qed.

Lemma command_ok_cleanup (sid : nat) (w : World) :
  good w -> command_ok w -> command_ok (_cleanupDropdown sid w).
Proof.
  intros Hgood Hcmd. unfold _cleanupDropdown. cbv zeta.
  rewrite update_session_twice.
  destruct (atomic_good _ _ (A_closed w sid) Hgood) as (Hok & Hreg & _).
  apply command_ok_move; try done.
  eapply (command_ok_alter w _ sid closed); try done.
Qed.

Lemma command_ok_close (sid : nat) (w : World) :
  good w -> command_ok w -> command_ok (_closeDropdown sid w).
Proof.
  intros Hgood Hcmd. unfold _closeDropdown.
  destruct (sessions w !! sid) as [s|]; [|done].
  destruct (dropdownEventHandler s); [|done].
  by apply command_ok_cleanup.
Qed.

Lemma command_ok_addRule (selector : string) (editor : option nat)
    (path : string) (w : World) :
  command_ok w -> command_ok (_addRule selector editor path w).
Proof. by apply command_ok_same_sessions. Qed.

Lemma command_ok_click (sid : nat) (e : bool) (w : World) :
  good w -> command_ok w ->
  command_ok (fst (_handleNewRuleClick sid e w)).
Proof.
  intros Hgood Hcmd. unfold _handleNewRuleClick.
  destruct (sessions w !! sid) as [s|] eqn:Hs; [|done].
  destruct (newRuleButton s) as [b|] eqn:Hb; [|done]. simpl.
  destruct (hasClass "disabled" b) eqn:Hen; [done|]. simpl.
  destruct (length (cssFileInfos s) =? 1)%nat eqn:Hlen.
  - destruct (cssFileInfos s !! 0%nat); [|done]. by apply command_ok_addRule.
  - apply Nat.eqb_neq in Hlen. destruct (dropdown s) eqn:Hdd.
    + by apply command_ok_close.
    + unfold _showDropdown. rewrite Hs. cbv zeta.
      pose proof (A_shown w sid s b Hs Hb Hen Hlen Hdd) as Ha.
      destruct (atomic_good _ _ Ha Hgood) as (Hok & Hreg & _).
      match goal with
      | |- command_ok (move_focus _ ?x) =>
          assert (Hx : x
            = update_session sid shown
                (set_htmlClick (htmlClick w ++ [sid])
                   (perform (MustacheRender (cssFileInfos s))
                      (perform MenusCloseAll w))))
      end.
      { unfold update_session, set_htmlClick, perform, set_effects,
          set_sessions. simpl. f_equal. rewrite list_alter_alter_eq.
        apply list_alter_ext; [|done].
        intros x Hx. assert (x = s) as -> by congruence. reflexivity. }
      rewrite Hx. apply command_ok_move; try done.
      eapply (command_ok_alter w _ sid shown); try done.
Qed.

Lemma rules_done_eq (sid : nat) (s : Session) (found : list Rule)
    (w : World) :
  sessions w !! sid = Some s ->
  rules_done sid found (settle_lookup sid w)
  = set_newRuleHandlers
      (_newRuleHandlers w ++
         [{| inlineEditor := length (widgets w); handler := sid |}])
      (update_session sid (built (length (widgets w)) found)
         (set_widgets
            (widgets w ++
               [on_focus sid
                  (load (hostEditor s)
                     (new_MultiRangeInlineEditor
                        (consolidateRules found)))]) w)).
Proof.
  intros Hs. unfold rules_done.
  rewrite (settle_lookup_session sid s w Hs). cbv zeta.
  unfold settle_lookup, update_session, set_newRuleHandlers, set_sessions,
    set_widgets. simpl. f_equal. by rewrite list_alter_alter_eq.
Qed.

Lemma command_ok_step (w : World) (ev : Event) :
  good w -> command_ok w -> command_ok (step w ev).
Proof.
  intros Hgood Hcmd.
  destruct ev as [host p|sid found|sid|sid infos|sid| |k doc|k|sid path|sid
                 | |target|ranges]; simpl.
  - unfold htmlToCSSProvider.
    destruct (negb _); [done|]. cbv zeta.
    destruct (negb _); [done|].
    destruct (String.eqb _ ""); [done|]. simpl.
    apply (command_ok_frame w); try done.
    intros sid s wid b Hs Hc Hb _. exists s. split; [|done].
    simpl. by apply lookup_app_l_Some.
  - destruct (sessions w !! sid) as [s|] eqn:Hs; simpl; [|done].
    destruct (lookup s) eqn:Hl; [|done].
    rewrite (rules_done_eq sid s found w Hs).
    eapply (command_ok_alter w _ sid); try done.
    intros s0 wid b Hs0 Hc. assert (s0 = s) as -> by congruence.
    destruct Hgood as (Hok & _).
    rewrite (in_flight_no_editor w sid s Hok Hs Hl) in Hc. done.
  - destruct (sessions w !! sid) as [s|] eqn:Hs; simpl; [|done].
    destruct (lookup s) eqn:Hl; [|done]. rewrite rules_fail_eq.
    eapply (command_ok_alter w _ sid failed); try done.
  - destruct (sessions w !! sid) as [s|] eqn:Hs; simpl; [|done].
    destruct (fileList s) as [[]|] eqn:Hfl; try done.
    destruct Hgood as ((HS & _) & _). destruct (HS sid s Hs) as [Hok _].
    assert (Hok' : session_ok (listed infos s))
      by (eapply session_step_ok; [done|by constructor]).
    unfold session_ok in Hok, Hok'.
    destruct (newRuleButton s) as [b|] eqn:Hb.
    2:{ destruct Hok as (_ & _ & _ & Hnone & _). congruence. }
    destruct Hok as (_ & [wid Hwid] & _).
    assert (Hc' : cssInlineEditor (listed infos s) = Some wid)
      by (by rewrite listed_editor).
    destruct (newRuleButton (listed infos s)) as [b'|] eqn:Hb'.
    2:{ destruct Hok' as (_ & _ & _ & _ & Hnone & _). congruence. }
    destruct (fileInfos_done_exact sid s infos w Hs) as [c ->].
    rewrite (updateCommands_exact sid (listed infos s) wid b');
      [|by unfold update_session; simpl;
           rewrite list_lookup_alter_eq, Hs|done|done].
    unfold command_ok. simpl. intros Hen.
    apply andb_prop in Hen as [Hfocus Hen].
    unfold hasFocus in Hfocus. apply bool_decide_eq_true in Hfocus.
    simpl in Hfocus.
    exists sid, (listed infos s), wid, b'. split; [done|].
    rewrite list_lookup_alter_eq, Hs. repeat split; try done.
    by apply negb_true_iff.
  - by apply command_ok_click.
  - unfold _handleNewRule.
    destruct (getFocusedMultiRangeInlineEditor w); [|done].
    destruct (List.find _ _); [|done]. by apply command_ok_click.
  - destruct (documentRequests w !! k) as [r|]; [|done].
    destruct (dr_state r); [|done].
    apply (command_ok_same_sessions w); try done.
    + unfold _addRule_done. by destruct (dr_inlineEditor r).
    + unfold _addRule_done. by destruct (dr_inlineEditor r).
    + by rewrite addRule_done_sessions.
  - destruct (documentRequests w !! k) as [r|]; [|done].
    by destruct (dr_state r).
  - destruct (sessions w !! sid) as [s|] eqn:Hs; simpl; [|done].
    destruct (dropdownEventHandler s) eqn:Hh; [|done].
    assert (good (_onSelect sid path w) /\
            command_ok (_onSelect sid path w)) as [Hgood' Hcmd'].
    { unfold _onSelect. rewrite Hs. destruct path as [p|]; [|done].
      destruct (String.eqb p ""); [done|]. split.
      - eapply atomic_good; [|done]. eapply A_addRule; [done|].
        right. by rewrite Hh.
      - by apply command_ok_addRule. }
    by apply command_ok_cleanup.
  - destruct (sessions w !! sid) as [s|] eqn:Hs; simpl; [|done].
    destruct (dropdownEventHandler s); [|done]. by apply command_ok_cleanup.
  - generalize (htmlClick w). intros l. revert w Hgood Hcmd.
    induction l as [|sid l IH]; intros w Hgood Hcmd; simpl; [done|].
    apply IH.
    + eapply rtc_atomic_good; [apply closeDropdown_atomic|done].
    + by apply command_ok_close.
  - destruct Hgood as (Hok & Hreg & _).
    destruct target as [wid|]; [|by apply command_ok_move].
    case_bool_decide; [by apply command_ok_move|done].
  - by apply (command_ok_same_sessions w).
Qed.

End CommandFacts.

(** X15.  After any events, when the command is enabled the focus is in a
    widget the provider made and the button of that widget's session is
    not disabled.  So the command is never enabled while the focus is
    elsewhere, in a picker say, or while the focused widget's session
    knows of no stylesheet. *)
Theorem command_enabled_only_when_usable `{Ext : Collaborators}
    (evs : list Event) :
  let w := run initial evs in
  _newRuleCmd w = true ->
  exists sid s wid b,
    focus w = Some wid /\ sessions w !! sid = Some s /\
    cssInlineEditor s = Some wid /\ newRuleButton s = Some b /\
    hasClass "disabled" b = false /\ cssFileInfos s <> [].
Proof.
  intros w Hen.
  assert (Hcmd : command_ok w).
  { subst w. clear Hen. induction evs as [|ev evs IH] using rev_ind.
    - intros Hen. discriminate.
    - rewrite run_snoc. apply command_ok_step; [|done].
      apply reachable_bookkeeping. }
  destruct (Hcmd Hen) as (sid & s & wid & b & Hf & Hs & Hc & Hb & Hdis).
  exists sid, s, wid, b. repeat split; try done.
  destruct (reachable_ok evs) as (HS & _). fold w in HS.
  destruct (HS sid s Hs) as [Hok _]. unfold session_ok in Hok.
  rewrite Hb in Hok. destruct Hok as (_ & _ & _ & _ & Hd & _).
  rewrite Hdis in Hd. intros Hnil. by rewrite Hnil in Hd.
Qed.

Lemma command_enabled_only_when_usable_witness :
  exists sid s wid b,
    focus (run (Ext := Demo.collaborators) initial Demo.with_one_stylesheet)
    = Some wid /\
    sessions (run (Ext := Demo.collaborators) initial
                Demo.with_one_stylesheet) !! sid = Some s /\
    cssInlineEditor s = Some wid /\ newRuleButton s = Some b /\
    hasClass "disabled" b = false /\ cssFileInfos s <> [].
Proof.
  apply (command_enabled_only_when_usable (Ext := Demo.collaborators)
           Demo.with_one_stylesheet).
  vm_compute. reflexivity.
Defined.

(** ** The message, and opening then closing the picker *)

(** X19.  The message for a widget without rules is never refused: its
    promise is resolved when the file index answers and pending until
    then, never rejected.  And it agrees with the button: for the list
    of stylesheets a waiting session receives, the message is the
    no-stylesheets one exactly when the button stays disabled. *)
Theorem no_stylesheets_message_matches_button `{Ext : Collaborators}
    (evs : list Event) (sid : nat) (s : Session) (infos : list FileInfo) :
  let w := run initial evs in
  sessions w !! sid = Some s ->
  fileList s = Some InFlight ->
  let w' := step w (FileInfosArrived sid infos) in
  (forall answer, _getNoRulesMsg answer <> Rejected) /\
  exists s' b',
    sessions w' !! sid = Some s' /\ newRuleButton s' = Some b' /\
    (_getNoRulesMsg (Some infos) = Resolved CSS_QUICK_EDIT_NO_STYLESHEETS
     <-> hasClass "disabled" b' = true) /\
    (_getNoRulesMsg (Some infos) = Resolved CSS_QUICK_EDIT_NO_MATCHES
     <-> hasClass "disabled" b' = false).
Proof.
  intros w Hs Hfl w'. split; [by intros [?|]|].
  destruct (reachable_ok evs) as (HS & _). fold w in HS.
  destruct (HS sid s Hs) as [Hok _].
  assert (Hok' : session_ok (listed infos s))
    by (eapply session_step_ok; [done|by constructor]).
  unfold session_ok in Hok, Hok'.
  destruct (newRuleButton s) as [b|] eqn:Hb.
  2:{ destruct Hok as (_ & _ & _ & Hnone & _). congruence. }
  destruct (newRuleButton (listed infos s)) as [b'|] eqn:Hb'.
  2:{ destruct Hok as (_ & [wid Hwid] & _).
      destruct Hok' as (_ & _ & _ & _ & Hnone & _).
      rewrite listed_editor in Hnone. congruence. }
  destruct Hok' as (_ & _ & _ & _ & Hdis & _).
  rewrite listed_infos in Hdis.
  exists (listed infos s), b'. split.
  { subst w'. simpl. rewrite Hs; simpl; rewrite Hfl.
    destruct (fileInfos_done_shape sid s infos w Hs) as (c & t & ->).
    simpl. by rewrite list_lookup_alter_eq, Hs. }
  split; [done|]. rewrite Hdis. unfold _getNoRulesMsg.
  destruct infos; simpl; split; split; done.
Qed.

Lemma no_stylesheets_message_matches_button_witness :
  _getNoRulesMsg (Some []) = Resolved CSS_QUICK_EDIT_NO_STYLESHEETS /\
  exists s' b',
    sessions
      (step (Ext := Demo.collaborators)
         (run (Ext := Demo.collaborators) initial Demo.opened)
         (FileInfosArrived 0%nat [])) !! 0%nat = Some s' /\
    newRuleButton s' = Some b' /\ hasClass "disabled" b' = true.
Proof.
  split; [reflexivity|].
  destruct (no_stylesheets_message_matches_button
              (Ext := Demo.collaborators) Demo.opened 0%nat
              (Demo.session_after Demo.opened) [])
    as (_ & s' & b' & Hs' & Hb' & Hmsg & _).
  - vm_compute. reflexivity.
  - vm_compute. reflexivity.
  - exists s', b'. split; [exact Hs'|]. split; [exact Hb'|].
    by apply Hmsg.
Defined.


